(** * File caching service: a shallow embedding of the request handlers

    The service answers [GET /files/{name}] from a Redis cache when it can,
    falls back to an R2 (S3 compatible) bucket otherwise, and fills the cache
    from a goroutine after an origin hit.  [GET /health] probes both
    backends.

    Embedded units
    - [cmd/server/main.go]: [getFileHandler], [writeFileResponse],
      [isNotFoundError], [writeJSON] and the static [healthHandler];
    - the later revision of the server entry point: the probing
      [healthHandler];
    - [internal/storage/r2.go]: [R2Client.GetObject], [R2Client.ObjectExists];
    - [internal/cache]: [RedisCache.Get], [RedisCache.Set].

    The Redis server, the S3 endpoint, the HTTP response writer, the JSON
    encoder and Go's [mime], [path/filepath], [strings] and [errors] packages
    are collaborators outside the repository; each has a small executable
    model below, stated next to the call it stands for. *)

From Stdlib Require Import ZArith String Ascii.
From Stdlib Require DecimalString DecimalZ DecimalPos.
From stdpp Require Import base option list gmap strings.

Local Open Scope string_scope.
Local Open Scope Z_scope.

(** ** Go values *)

(** A [[]byte] is a sequence of octets; Go strings are octet sequences too,
    so file contents are carried as [string]. *)
Abbreviation bytes := string.

(** The double quote character, written with its code point. *)
Definition dquote : string := String (ascii_of_nat 34) EmptyString.

(** Go [error] values that occur in the handlers.
    - [RedisError]: go-redis' [proto.RedisError], a string type, so two of
      them are [==] exactly when their texts agree; [redis.Nil] is one;
    - [deadlineExceededError]: the value [context.DeadlineExceeded];
    - [errorString]: [errors.New] and any other opaque backend error;
    - [wrapError]: the result of [fmt.Errorf] with a [%w] verb; [msg] is the
      whole formatted text. *)
Inductive error : Type :=
| RedisError (msg : string)
| deadlineExceededError
| errorString (msg : string)
| wrapError (msg : string) (err : error).

#[global] Instance error_eq_dec : EqDecision error.
Proof. solve_decision. Defined.

Definition redis_Nil : error := RedisError "redis: nil".
Definition context_DeadlineExceeded : error := deadlineExceededError.
Definition context_Canceled : error := errorString "context canceled".

(** [err.Error()] *)
Definition Error (e : error) : string :=
  match e with
  | RedisError msg => msg
  | deadlineExceededError => "context deadline exceeded"
  | errorString msg => msg
  | wrapError msg _ => msg
  end.

(** [errors.Is(err, target)]: walk the [Unwrap] chain comparing with [==];
    a nil [err] matches nothing. *)
Fixpoint errors_Is_chain (e target : error) : bool :=
  if decide (e = target) then true
  else match e with
       | wrapError _ inner => errors_Is_chain inner target
       | _ => false
       end.

Definition errors_Is (err : option error) (target : error) : bool :=
  match err with
  | None => false
  | Some e => errors_Is_chain e target
  end.

(** [fmt.Errorf(prefix + "%w", err)] *)
Definition fmt_Errorf_w (prefix : string) (err : error) : error :=
  wrapError (prefix ++ Error err) err.

(** ** [strings.Contains] *)

Fixpoint strings_HasPrefix (s p : string) {struct p} : bool :=
  match p, s with
  | EmptyString, _ => true
  | String _ _, EmptyString => false
  | String c p', String d s' => if decide (c = d) then strings_HasPrefix s' p' else false
  end.

Fixpoint strings_Contains (s substr : string) : bool :=
  if strings_HasPrefix s substr then true
  else match s with
       | EmptyString => false
       | String _ s' => strings_Contains s' substr
       end.

(** ** [filepath.Ext]

    [for i := len(path) - 1; i >= 0 && !os.IsPathSeparator(path[i]); i--]
    returning [path[i:]] at the first dot met.  [n] is [i + 1]. *)

Definition os_IsPathSeparator (c : ascii) : bool := bool_decide (c = "/"%char).

Fixpoint string_drop (n : nat) (s : string) : string :=
  match n, s with
  | O, _ => s
  | S n', EmptyString => EmptyString
  | S n', String _ s' => string_drop n' s'
  end.

Fixpoint Ext_loop (path : string) (n : nat) : string :=
  match n with
  | O => ""
  | S i =>
      match String.get i path with
      | None => ""
      | Some c =>
          if os_IsPathSeparator c then ""
          else if bool_decide (c = "."%char) then string_drop i path
          else Ext_loop path i
      end
  end.

Definition filepath_Ext (path : string) : string :=
  Ext_loop path (String.length path).

(** ** [mime.TypeByExtension]

    Go keeps two tables, one keyed by the extension as registered and one by
    its lower-case form.  The lookup tries the first with the extension as
    given, then the second with the extension lowered: byte by byte while it
    is ASCII, through [strings.ToLower] as soon as a byte of 0x80 or more is
    met.  Unicode lowering is left to the environment ([ToLower]). *)

Record MimeDB : Type := mkMimeDB {
  mimeTypes : gmap string string;
  mimeTypesLower : gmap string string;
  ToLower : string -> string
}.

Definition lower_byte (c : ascii) : ascii :=
  let n := nat_of_ascii c in
  if ((65 <=? n) && (n <=? 90))%nat then ascii_of_nat (n + 32) else c.

(** [Some lower] when every byte is below 0x80, [None] on the slow path. *)
Fixpoint lower_ascii (ext : string) : option string :=
  match ext with
  | EmptyString => Some EmptyString
  | String c rest =>
      if (128 <=? nat_of_ascii c)%nat then None
      else match lower_ascii rest with
           | Some l => Some (String (lower_byte c) l)
           | None => None
           end
  end.

Definition mime_TypeByExtension (db : MimeDB) (ext : string) : string :=
  match mimeTypes db !! ext with
  | Some v => v
  | None =>
      match lower_ascii ext with
      | Some lower => default "" (mimeTypesLower db !! lower)
      | None => default "" (mimeTypesLower db !! ToLower db ext)
      end
  end.

(** The table compiled into Go's [mime] package ([builtinTypesLower]).  Both
    lookups start from it; the host's MIME files and [mime.AddExtensionType]
    then add to it and replace entries of it, so the table [TypeByExtension]
    consults is a parameter of the statements ([mime] of the state), and
    this one is the table of the examples. *)
Definition builtinTypesLower : gmap string string :=
  list_to_map
    [ (".avif", "image/avif");
      (".css", "text/css; charset=utf-8");
      (".gif", "image/gif");
      (".htm", "text/html; charset=utf-8");
      (".html", "text/html; charset=utf-8");
      (".jpeg", "image/jpeg");
      (".jpg", "image/jpeg");
      (".js", "text/javascript; charset=utf-8");
      (".json", "application/json");
      (".mjs", "text/javascript; charset=utf-8");
      (".pdf", "application/pdf");
      (".png", "image/png");
      (".svg", "image/svg+xml");
      (".wasm", "application/wasm");
      (".webp", "image/webp");
      (".xml", "text/xml; charset=utf-8") ].

Definition builtinMime (toLower : string -> string) : MimeDB :=
  mkMimeDB builtinTypesLower builtinTypesLower toLower.

(** [setExtensionType(extension, mimeType)], through which
    [mime.AddExtensionType] and the loaders of the host's MIME files write
    to both tables, for a media type outside [text/] (such a type is stored
    as given). *)
Definition setExtensionType (extension mimeType : string) (db : MimeDB) : MimeDB :=
  mkMimeDB (<[extension := mimeType]> (mimeTypes db))
           (<[ToLower db extension := mimeType]> (mimeTypesLower db))
           (ToLower db).

(** ASCII-only lowering, the behaviour of [strings.ToLower] on ASCII text. *)
Fixpoint ascii_ToLower (s : string) : string :=
  match s with
  | EmptyString => EmptyString
  | String c rest => String (lower_byte c) (ascii_ToLower rest)
  end.

(** ** HTTP response writer

    What a handler hands to [http.ResponseWriter]: the header map, the status
    of the first [WriteHeader], and the body as the sequence of writes.  A
    value given to [json.NewEncoder(w).Encode] is kept as the value that was
    encoded. *)

Record Response : Type := mkResponse {
  Success : bool;
  Message : string;
  Data : option (gmap string string)
}.

Inductive chunk : Type :=
| RawBytes (b : bytes)
| JSONLine (r : Response).

Record ResponseWriter : Type := mkResponseWriter {
  header : gmap string string;
  statusCode : option Z;
  body : list chunk
}.

Definition newRecorder : ResponseWriter := mkResponseWriter ∅ None [].

Definition StatusOK : Z := 200.
Definition StatusBadRequest : Z := 400.
Definition StatusNotFound : Z := 404.
Definition StatusInternalServerError : Z := 500.
Definition StatusServiceUnavailable : Z := 503.
Definition StatusGatewayTimeout : Z := 504.

Definition rw_HeaderSet (k v : string) (w : ResponseWriter) : ResponseWriter :=
  mkResponseWriter (<[k := v]> (header w)) (statusCode w) (body w).

(** Only the first [WriteHeader] counts. *)
Definition rw_WriteHeader (code : Z) (w : ResponseWriter) : ResponseWriter :=
  match statusCode w with
  | Some _ => w
  | None => mkResponseWriter (header w) (Some code) (body w)
  end.

(** A write before any [WriteHeader] sends [200] first. *)
Definition rw_Write (c : chunk) (w : ResponseWriter) : ResponseWriter :=
  let w' := rw_WriteHeader StatusOK w in
  mkResponseWriter (header w') (statusCode w') (body w' ++ [c]).

(** ** Backends

    The Redis server is a keyspace of values, each kept with the expiration
    it was stored under; the model has no clock, so a lookup sees whatever
    was stored before it.  The bucket is a map from object keys to contents.
    Each operation can be made to fail with an injected error, the way the
    handlers' test doubles do ([GetError], [SetError], [PingError],
    [HealthCheckError]). *)

Record RedisServer : Type := mkRedisServer {
  keyspace : gmap string (bytes * Z);
  redis_GetError : option error;
  redis_SetError : option error;
  redis_PingError : option error
}.

(** [cache.RedisCache]: the client handle and the configured TTL. *)
Record RedisCache : Type := mkRedisCache { ttl : Z }.

Record S3Bucket : Type := mkS3Bucket {
  objects : gmap string bytes;
  s3_GetObjectError : option error;
  s3_BodyReadError : option error;
  s3_HeadObjectError : option error;
  s3_HealthCheckError : option error
}.

(** [storage.R2Client] *)
Record R2Client : Type := mkR2Client { bucketName : string }.

(** What S3 answers for a key the bucket does not hold. *)
Definition s3_NoSuchKey : error :=
  errorString "api error NoSuchKey: The specified key does not exist.".
Definition s3_HeadNotFound : error :=
  errorString "api error NotFound: Not Found".

(** Calls that reach a backend, in the order they are issued. *)
Inductive call : Type :=
| CacheGet (key : string)
| CacheSet (key : string) (data : bytes)
| CachePing
| StorageGet (key : string)
| StorageHead (key : string)
| StorageHealthCheck.

#[global] Instance call_eq_dec : EqDecision call.
Proof. solve_decision. Defined.

Definition is_storage_call (c : call) : bool :=
  match c with
  | StorageGet _ | StorageHead _ | StorageHealthCheck => true
  | _ => false
  end.

(** The body of the goroutine started by [getFileHandler]; the closure
    captures [filename] and [data]. *)
Inductive task : Type :=
| populateCache (filename : string) (data : bytes).

(** ** Process state

    [fileCache] and [fileStorage] are the package-level variables of
    [main]; [fileCache = None] is the nil handle.  [eager] is the
    scheduler's choice for a [go] statement: run the goroutine at once, or
    leave it in [goroutines] until after the handler has returned.  [w] is
    the response writer of the request being served. *)

Record State : Type := mkState {
  fileCache : option RedisCache;
  fileStorage : R2Client;
  redis : RedisServer;
  s3 : S3Bucket;
  mime : MimeDB;
  eager : bool;
  w : ResponseWriter;
  logs : list string;
  calls : list call;
  goroutines : list task
}.

Definition set_redis (x : RedisServer) (st : State) : State :=
  mkState (fileCache st) (fileStorage st) x (s3 st) (mime st) (eager st)
          (w st) (logs st) (calls st) (goroutines st).
Definition set_w (x : ResponseWriter) (st : State) : State :=
  mkState (fileCache st) (fileStorage st) (redis st) (s3 st) (mime st) (eager st)
          x (logs st) (calls st) (goroutines st).
Definition set_logs (x : list string) (st : State) : State :=
  mkState (fileCache st) (fileStorage st) (redis st) (s3 st) (mime st) (eager st)
          (w st) x (calls st) (goroutines st).
Definition set_calls (x : list call) (st : State) : State :=
  mkState (fileCache st) (fileStorage st) (redis st) (s3 st) (mime st) (eager st)
          (w st) (logs st) x (goroutines st).
Definition set_goroutines (x : list task) (st : State) : State :=
  mkState (fileCache st) (fileStorage st) (redis st) (s3 st) (mime st) (eager st)
          (w st) (logs st) (calls st) x.

(** ** The handler monad: state passing over [State] *)

Definition M (A : Type) : Type := State -> A * State.

#[global] Instance M_ret : MRet M := fun A x st => (x, st).
#[global] Instance M_bind : MBind M :=
  fun A B f m st => let '(x, st') := m st in f x st'.

Definition gets {A : Type} (f : State -> A) : M A := fun st => (f st, st).
Definition modify (f : State -> State) : M unit := fun st => (tt, f st).
Definition exec {A : Type} (m : M A) (st : State) : State := snd (m st).

Notation "m1 ;; m2" := (mbind (fun _ : unit => m2) m1)
  (at level 100, m2 at level 200, right associativity, only parsing).

(** [log.Printf]: the formatted line, appended to the log. *)
Definition log_Printf (line : string) : M unit :=
  modify (fun st => set_logs (logs st ++ [line]) st).

Definition issue (c : call) : M unit :=
  modify (fun st => set_calls (calls st ++ [c]) st).

Definition on_w (f : ResponseWriter -> ResponseWriter) : M unit :=
  modify (fun st => set_w (f (w st)) st).

(** *** go-redis client *)

(** [client.Get(ctx, key).Bytes()] *)
Definition redis_client_Get (key : string) : M (bytes * option error) :=
  issue (CacheGet key);;
  srv ← gets redis;
  match redis_GetError srv with
  | Some e => mret ("", Some e)
  | None =>
      match keyspace srv !! key with
      | Some (v, _) => mret (v, None)
      | None => mret ("", Some redis_Nil)
      end
  end.

(** [client.Set(ctx, key, data, ttl).Err()] *)
Definition redis_client_Set (key : string) (data : bytes) (expiration : Z)
  : M (option error) :=
  issue (CacheSet key data);;
  srv ← gets redis;
  match redis_SetError srv with
  | Some e => mret (Some e)
  | None =>
      modify (set_redis (mkRedisServer (<[key := (data, expiration)]> (keyspace srv))
                           (redis_GetError srv) (redis_SetError srv)
                           (redis_PingError srv)));;
      mret None
  end.

(** *** S3 client *)

(** [client.GetObject(ctx, input)]: the body stream of the object, or an
    error. *)
Definition s3_client_GetObject (bucket key : string) : M (bytes * option error) :=
  issue (StorageGet key);;
  srv ← gets s3;
  match s3_GetObjectError srv with
  | Some e => mret ("", Some e)
  | None =>
      match objects srv !! key with
      | Some v => mret (v, None)
      | None => mret ("", Some s3_NoSuchKey)
      end
  end.

(** [io.ReadAll(output.Body)] *)
Definition io_ReadAll (stream : bytes) : M (bytes * option error) :=
  srv ← gets s3;
  match s3_BodyReadError srv with
  | Some e => mret ("", Some e)
  | None => mret (stream, None)
  end.

(** [client.HeadObject(ctx, input)] *)
Definition s3_client_HeadObject (bucket key : string) : M (option error) :=
  issue (StorageHead key);;
  srv ← gets s3;
  match s3_HeadObjectError srv with
  | Some e => mret (Some e)
  | None =>
      match objects srv !! key with
      | Some _ => mret None
      | None => mret (Some s3_HeadNotFound)
      end
  end.

(** ** [internal/cache] *)

(** [func (c *RedisCache) Get(ctx, key) ([]byte, bool, error)] *)
Definition RedisCache_Get (c : RedisCache) (key : string)
  : M (bytes * bool * option error) :=
  '(data, err) ← redis_client_Get key;
  if decide (err = Some redis_Nil) then mret ("", false, None)
  else match err with
       | Some e => mret ("", false, Some (fmt_Errorf_w "redis get error: " e))
       | None => mret (data, true, None)
       end.

(** [func (c *RedisCache) Set(ctx, key, data) error] *)
Definition RedisCache_Set (c : RedisCache) (key : string) (data : bytes)
  : M (option error) :=
  err ← redis_client_Set key data (ttl c);
  match err with
  | Some e => mret (Some (fmt_Errorf_w "redis set error: " e))
  | None => mret None
  end.

(** [fileCache.Ping(ctx)]: a method of the later cache package, whose source
    is outside this development; its outcome is the server's. *)
Definition RedisCache_Ping (c : RedisCache) : M (option error) :=
  issue CachePing;;
  gets (fun st => redis_PingError (redis st)).

(** ** [internal/storage] *)

(** [func (r *R2Client) GetObject(ctx, key) ([]byte, error)] *)
Definition R2Client_GetObject (r : R2Client) (key : string)
  : M (bytes * option error) :=
  '(output, err) ← s3_client_GetObject (bucketName r) key;
  match err with
  | Some e =>
      mret ("", Some (fmt_Errorf_w ("failed to get object " ++ key ++ ": ") e))
  | None =>
      '(data, err) ← io_ReadAll output;
      match err with
      | Some e => mret ("", Some (fmt_Errorf_w "failed to read object body: " e))
      | None => mret (data, None)
      end
  end.

(** [func (r *R2Client) ObjectExists(ctx, key) (bool, error)] *)
Definition R2Client_ObjectExists (r : R2Client) (key : string)
  : M (bool * option error) :=
  err ← s3_client_HeadObject (bucketName r) key;
  match err with
  | Some _ => mret (false, None)
  | None => mret (true, None)
  end.

(** [fileStorage.HealthCheck(ctx)]: a method of the later storage package,
    whose source is outside this development; its outcome is the bucket's. *)
Definition R2Client_HealthCheck (r : R2Client) : M (option error) :=
  issue StorageHealthCheck;;
  gets (fun st => s3_HealthCheckError (s3 st)).

(** ** [cmd/server/main.go] *)

(** An inbound request: the wildcards matched by the route, and what
    [ctx.Err()] returns when the handler inspects the request context. *)
Record Request : Type := mkRequest {
  PathValues : gmap string string;
  ctx_Err : option error
}.

Definition PathValue (r : Request) (name : string) : string :=
  default "" (PathValues r !! name).

(** [json.NewEncoder(w).Encode(data)].  Encoding a [Response] whose [Data]
    is nil or a [map[string]string] has no failing case. *)
Definition json_Encode (data : Response) : M (option error) :=
  on_w (rw_Write (JSONLine data));;
  mret None.

Definition writeJSON (status : Z) (data : Response) : M unit :=
  on_w (rw_HeaderSet "Content-Type" "application/json");;
  on_w (rw_WriteHeader status);;
  err ← json_Encode data;
  match err with
  | Some e => log_Printf ("Error encoding JSON response: " ++ Error e)
  | None => mret tt
  end.

Definition writeFileResponse (filename : string) (data : bytes) : M unit :=
  db ← gets mime;
  let contentType := mime_TypeByExtension db (filepath_Ext filename) in
  let contentType :=
    if decide (contentType = "") then "application/octet-stream" else contentType in
  on_w (rw_HeaderSet "Content-Type" contentType);;
  on_w (rw_HeaderSet "Content-Disposition"
          (("inline; filename=" ++ dquote) ++ filename ++ dquote));;
  on_w (rw_WriteHeader StatusOK);;
  on_w (rw_Write (RawBytes data)).

Definition isNotFoundError (err : option error) : bool :=
  match err with
  | None => false
  | Some e =>
      let msg := Error e in
      strings_Contains msg "NoSuchKey" || strings_Contains msg "not found"
  end.

(** The goroutine body: [fileCache.Set] under a fresh 10 second context,
    then one log line either way.  The outcome of the deadline is part of
    the server's answer. *)
Definition run_task (t : task) : M unit :=
  match t with
  | populateCache filename data =>
      fc ← gets fileCache;
      match fc with
      | None => mret tt
      | Some c =>
          err ← RedisCache_Set c filename data;
          match err with
          | Some e =>
              log_Printf ("Failed to cache file " ++ filename ++ ": " ++ Error e)
          | None => log_Printf ("Cached file: " ++ filename)
          end
      end
  end.

(** [go func() { ... }()] *)
Definition go_ (t : task) : M unit :=
  at_once ← gets eager;
  if at_once : bool then run_task t
  else modify (fun st => set_goroutines (goroutines st ++ [t]) st).

(** The statements of [getFileHandler] from the origin fetch on. *)
Definition fetchFromOrigin (r : Request) (filename : string) : M unit :=
  storage ← gets fileStorage;
  '(data, err) ← R2Client_GetObject storage filename;
  match err with
  | Some e =>
      log_Printf ("R2 error for " ++ filename ++ ": " ++ Error e);;
      if errors_Is (ctx_Err r) context_DeadlineExceeded then
        writeJSON StatusGatewayTimeout (mkResponse false "Request timeout" None)
      else if isNotFoundError (Some e) then
        writeJSON StatusNotFound (mkResponse false "File not found" None)
      else
        writeJSON StatusInternalServerError
          (mkResponse false "Failed to retrieve file" None)
  | None =>
      fc ← gets fileCache;
      match fc with
      | Some _ => go_ (populateCache filename data)
      | None => mret tt
      end;;
      writeFileResponse filename data
  end.

Definition getFileHandler (r : Request) : M unit :=
  let filename := PathValue r "name" in
  if decide (filename = "") then
    writeJSON StatusBadRequest (mkResponse false "filename is required" None)
  else
    fc ← gets fileCache;
    match fc with
    | Some c =>
        '(data, found, err) ← RedisCache_Get c filename;
        match err with
        | Some e => log_Printf ("Cache error for " ++ filename ++ ": " ++ Error e)
        | None => mret tt
        end;;
        if found : bool then
          log_Printf ("Cache HIT for file: " ++ filename);;
          writeFileResponse filename data
        else
          log_Printf ("Cache MISS for file: " ++ filename);;
          fetchFromOrigin r filename
    | None =>
        log_Printf ("Cache disabled, fetching from R2: " ++ filename);;
        fetchFromOrigin r filename
    end.

(** [healthHandler] of [cmd/server/main.go]: a fixed answer, no probe. *)
Definition healthHandler_static (r : Request) : M unit :=
  writeJSON StatusOK (mkResponse true "Service is healthy" None).

(** [healthHandler] of the later revision: probes Redis, then R2. *)
Definition healthHandler (r : Request) : M unit :=
  let health : gmap string string := {[ "status" := "healthy" ]} in
  fc ← gets fileCache;
  health ← match fc with
           | Some c =>
               err ← RedisCache_Ping c;
               match err with
               | Some e => mret (<["redis" := "unhealthy: " ++ Error e]> health)
               | None => mret (<["redis" := "healthy"]> health)
               end
           | None => mret (<["redis" := "disabled"]> health)
           end;
  storage ← gets fileStorage;
  err ← R2Client_HealthCheck storage;
  match err with
  | Some e =>
      let health := <["status" := "unhealthy"]> health in
      let health := <["r2" := "unhealthy: " ++ Error e]> health in
      writeJSON StatusServiceUnavailable
        (mkResponse false "Service is unhealthy" (Some health))
  | None =>
      let health := <["r2" := "healthy"]> health in
      writeJSON StatusOK (mkResponse true "Service is healthy" (Some health))
  end.

(** ** Serving

    A request is served on a fresh response writer; the goroutines it left
    behind run afterwards, in the order they were started. *)

Definition serve (h : Request -> M unit) (r : Request) (st : State) : State :=
  exec (h r) (set_w newRecorder st).

Fixpoint run_all (ts : list task) (st : State) : State :=
  match ts with
  | [] => st
  | t :: ts' => run_all ts' (exec (run_task t) st)
  end.

Definition drain (st : State) : State :=
  run_all (goroutines st) (set_goroutines [] st).

(** ** Concrete processes, used in the examples *)

Definition redis_up (ks : gmap string (bytes * Z)) : RedisServer :=
  mkRedisServer ks None None None.

Definition bucket_up (objs : gmap string bytes) : S3Bucket :=
  mkS3Bucket objs None None None None.

(** The process after [main] has set its globals; the scheduler leaves
    goroutines for later unless told otherwise. *)
Definition boot (fc : option RedisCache) (srv : RedisServer) (b : S3Bucket) : State :=
  mkState fc (mkR2Client "files") srv b (builtinMime ascii_ToLower) false
          newRecorder [] [] [].

Definition GET_files (name : string) : Request :=
  mkRequest {[ "name" := name ]} None.

Definition hour : Z := 3600000000000.

(** ** Vocabulary of the statements *)

(** [called c st] and [logged line st]: the state after one more backend
    call, after one more log line. *)
Definition called (c : call) (st : State) : State :=
  set_calls (calls st ++ [c]) st.
Definition logged (line : string) (st : State) : State :=
  set_logs (logs st ++ [line]) st.

(** The state after the server accepted a write. *)
Definition stored (key : string) (data : bytes) (expiration : Z) (st : State) : State :=
  set_redis (mkRedisServer (<[key := (data, expiration)]> (keyspace (redis st)))
               (redis_GetError (redis st)) (redis_SetError (redis st))
               (redis_PingError (redis st))) st.

(** What [writeJSON] leaves in a response writer. *)
Definition jsonResponse (status : Z) (data : Response) (rw : ResponseWriter)
  : ResponseWriter :=
  rw_Write (JSONLine data)
    (rw_WriteHeader status (rw_HeaderSet "Content-Type" "application/json" rw)).

(** The content type chosen by [writeFileResponse]. *)
Definition contentTypeOf (db : MimeDB) (filename : string) : string :=
  let contentType := mime_TypeByExtension db (filepath_Ext filename) in
  if decide (contentType = "") then "application/octet-stream" else contentType.

(** What [writeFileResponse] leaves in a response writer. *)
Definition fileResponse (db : MimeDB) (filename : string) (data : bytes)
    (rw : ResponseWriter) : ResponseWriter :=
  rw_Write (RawBytes data)
    (rw_WriteHeader StatusOK
       (rw_HeaderSet "Content-Disposition"
          (("inline; filename=" ++ dquote) ++ filename ++ dquote)
          (rw_HeaderSet "Content-Type" (contentTypeOf db filename) rw))).

(** State components a task cannot reach. *)
Definition same_request_view (st st' : State) : Prop :=
  w st' = w st /\ s3 st' = s3 st /\ mime st' = mime st /\
  fileCache st' = fileCache st /\ fileStorage st' = fileStorage st /\
  eager st' = eager st.

(** No usable cache entry: no cache is configured, or the lookup does not
    find the key. *)
Definition no_cache_hit (st : State) (key : string) : Prop :=
  forall c, fileCache st = Some c -> (RedisCache_Get c key st).1.1.2 = false.

(** The calls of a trace that went to the origin. *)
Definition origin_calls (cs : list call) : list call :=
  List.filter is_storage_call cs.

(** The same process with another outcome of the population write and
    another choice of the scheduler. *)
Definition with_population (se : option error) (eg : bool) (st : State) : State :=
  mkState (fileCache st) (fileStorage st)
          (mkRedisServer (keyspace (redis st)) (redis_GetError (redis st)) se
             (redis_PingError (redis st)))
          (s3 st) (mime st) eg (w st) (logs st) (calls st) (goroutines st).

(** The same process with the key gone from the keyspace and the lookup
    answering: an explicit miss. *)
Definition explicit_miss (key : string) (st : State) : State :=
  set_redis (mkRedisServer (delete key (keyspace (redis st))) None
               (redis_SetError (redis st)) (redis_PingError (redis st))) st.

(** ** Runs of the service

    What happens to the process over time: file requests, health probes,
    and moments at which the pending goroutines run. *)

Inductive event : Type :=
| FileRequest (r : Request)
| HealthRequest (r : Request)
| GoroutinesRun.

Definition step (st : State) (ev : event) : State :=
  match ev with
  | FileRequest r => serve getFileHandler r st
  | HealthRequest r => serve healthHandler r st
  | GoroutinesRun => drain st
  end.

Definition run (evs : list event) (st : State) : State :=
  fold_left step evs st.

(** The handles, the bucket and the tables: what no handler assigns. *)
Definition same_setup (st st' : State) : Prop :=
  fileCache st' = fileCache st /\ fileStorage st' = fileStorage st /\
  s3 st' = s3 st /\ mime st' = mime st /\ eager st' = eager st.

(** Every cached value is the bucket's object of that key. *)
Definition keyspace_agrees_with_origin (st : State) : Prop :=
  forall key data expiration,
    keyspace (redis st) !! key = Some (data, expiration) ->
    objects (s3 st) !! key = Some data.

(** So is every value that a list of tasks is about to write. *)
Definition tasks_agree_with_origin (ts : list task) (st : State) : Prop :=
  forall key data, populateCache key data ∈ ts -> objects (s3 st) !! key = Some data.

Definition cache_agrees_with_origin (st : State) : Prop :=
  keyspace_agrees_with_origin st /\ tasks_agree_with_origin (goroutines st) st.

(** ** [internal/config]

    The environment is a map from variable names to values; [os.Getenv]
    gives the empty string for a variable that is not set. *)

Module config.

Record RedisConfig : Type := mkRedisConfig {
  Addr : string;
  Password : string;
  DB : Z;
  CacheTTL : Z
}.

Record R2Config : Type := mkR2Config {
  AccountID : string;
  AccessKeyID : string;
  SecretAccessKey : string;
  BucketName : string
}.

Record Config : Type := mkConfig {
  Port : string;
  Redis : RedisConfig;
  R2 : R2Config
}.

Definition os_Getenv (env : gmap string string) (key : string) : string :=
  default "" (env !! key).

(** [strconv.Atoi] on a 64-bit platform: an optional sign, then one or
    more decimal digits, the value within the range of [int]; [None] stands
    for a non-nil error. *)
Definition digit_of (c : ascii) : option Z :=
  let n := nat_of_ascii c in
  if ((48 <=? n) && (n <=? 57))%nat then Some (Z.of_nat n - 48) else None.

Fixpoint parse_digits (s : string) (acc : Z) : option Z :=
  match s with
  | EmptyString => Some acc
  | String c rest =>
      match digit_of c with
      | Some d => parse_digits rest (acc * 10 + d)
      | None => None
      end
  end.

Definition strconv_Atoi (s : string) : option Z :=
  match s with
  | EmptyString => None
  | String c rest =>
      let neg := bool_decide (c = "-"%char) in
      let digits := if bool_decide (c = "-"%char \/ c = "+"%char) then rest else s in
      match digits with
      | EmptyString => None
      | _ =>
          match parse_digits digits 0 with
          | None => None
          | Some un =>
              if neg then (if un <=? 2 ^ 63 then Some (- un) else None)
              else (if un <? 2 ^ 63 then Some un else None)
          end
      end
  end.

Definition getEnv (env : gmap string string) (key defaultValue : string) : string :=
  let value := os_Getenv env key in
  if decide (value <> "") then value else defaultValue.

Definition getEnvAsInt (env : gmap string string) (key : string) (defaultValue : Z) : Z :=
  let value := os_Getenv env key in
  if decide (value <> "") then
    match strconv_Atoi value with
    | Some intVal => intVal
    | None => defaultValue
    end
  else defaultValue.

Section WithParseDuration.

(** [time.ParseDuration] rounds fractions through [float64]; it is taken
    from the environment of the development. *)
Variable time_ParseDuration : string -> option Z.

Definition getEnvAsDuration (env : gmap string string) (key : string)
    (defaultValue : Z) : Z :=
  let value := os_Getenv env key in
  if decide (value <> "") then
    match time_ParseDuration value with
    | Some duration => duration
    | None => defaultValue
    end
  else defaultValue.

Definition minute : Z := 60000000000.

Definition Load (env : gmap string string) : Config :=
  mkConfig
    (getEnv env "PORT" "8080")
    (mkRedisConfig
       (getEnv env "REDIS_ADDR" "localhost:6379")
       (getEnv env "REDIS_PASSWORD" "")
       (getEnvAsInt env "REDIS_DB" 0)
       (getEnvAsDuration env "CACHE_TTL" (5 * minute)))
    (mkR2Config
       (getEnv env "R2_ACCOUNT_ID" "")
       (getEnv env "R2_ACCESS_KEY_ID" "")
       (getEnv env "R2_SECRET_ACCESS_KEY" "")
       (getEnv env "R2_BUCKET_NAME" "")).

End WithParseDuration.

End config.

(** [strconv.Itoa]: the decimal text of an integer, with a minus sign for
    a negative one. *)
Definition strconv_Itoa (n : Z) : string :=
  DecimalString.NilZero.string_of_int (Z.to_int n).

(** ** Start-up: [main] of [cmd/server/main.go] up to the router *)

Definition set_fileCache (x : option RedisCache) (st : State) : State :=
  mkState x (fileStorage st) (redis st) (s3 st) (mime st) (eager st)
          (w st) (logs st) (calls st) (goroutines st).
Definition set_fileStorage (x : R2Client) (st : State) : State :=
  mkState (fileCache st) x (redis st) (s3 st) (mime st) (eager st)
          (w st) (logs st) (calls st) (goroutines st).

(** [cache.NewRedisCache]: build the client, ping the server under a five
    second deadline, and give up on a failed ping.  The address, password
    and database number select the server, which is the one of the state. *)
Definition NewRedisCache (addr password : string) (db : Z) (ttl : Z)
  : M (option RedisCache * option error) :=
  issue CachePing;;
  err ← gets (fun st => redis_PingError (redis st));
  match err with
  | Some e => mret (None, Some (fmt_Errorf_w "failed to connect to Redis: " e))
  | None => mret (Some (mkRedisCache ttl), None)
  end.

(** [storage.NewR2Client]: no request is sent; the endpoint is derived from
    the account and the client is returned with the bucket name, always with
    a nil error. *)
Definition r2_endpoint (accountID : string) : string :=
  "https://" ++ accountID ++ ".r2.cloudflarestorage.com".

Definition NewR2Client (accountID accessKeyID secretAccessKey bucketName : string)
  : R2Client * option error :=
  (mkR2Client bucketName, None).

(** The statements of [main] before the router is built.  [true]: the
    process goes on to [ListenAndServe]; [false]: it has stopped in
    [log.Fatalf]. *)
Definition main_init (cfg : config.Config) : M bool :=
  '(cache, err) ← NewRedisCache (config.Addr (config.Redis cfg))
                    (config.Password (config.Redis cfg))
                    (config.DB (config.Redis cfg))
                    (config.CacheTTL (config.Redis cfg));
  modify (set_fileCache cache);;
  match err with
  | Some e =>
      log_Printf ("WARNING: Redis unavailable, running without cache: " ++ Error e);;
      modify (set_fileCache None)
  | None =>
      log_Printf ("Connected to Redis at " ++ config.Addr (config.Redis cfg))
  end;;
  let '(storage, err) := NewR2Client (config.AccountID (config.R2 cfg))
                           (config.AccessKeyID (config.R2 cfg))
                           (config.SecretAccessKey (config.R2 cfg))
                           (config.BucketName (config.R2 cfg)) in
  modify (set_fileStorage storage);;
  match err with
  | Some e =>
      log_Printf ("Failed to initialize R2 client: " ++ Error e);;
      mret false
  | None =>
      log_Printf ("Connected to R2 bucket: " ++ config.BucketName (config.R2 cfg));;
      mret true
  end.

(** ** The later revision of the server entry point

    [getFileHandler] counts cache hits, misses and R2 requests, observes
    durations and logs through [slog]; the [/files/] route runs it inside
    [metricsMiddleware], which hands it a [responseWriter] that remembers the
    status code.  The [metrics] package is outside the repository: a counter
    is a number (one per label tuple), a histogram is the number of its
    observations, the observed durations come from the clock and are not
    kept.  [RedisCache.Get] and [RedisCache.Set] are the ones of
    [internal/cache] above. *)

Module Rev2.

Inductive attr : Type :=
| AttrString (s : string)
| AttrInt (n : Z)
| AttrClock.

Inductive slog_level : Type := LevelInfo | LevelError.

Record slog_record : Type := mkRecord {
  level : slog_level;
  message : string;
  attrs : list (string * attr)
}.

Record Metrics : Type := mkMetrics {
  CacheHitsTotal : nat;
  CacheMissesTotal : nat;
  R2RequestsTotal : gmap (string * string) nat;
  CacheOperationDuration : gmap string nat;
  R2RequestDuration : gmap string nat;
  HTTPRequestsTotal : gmap (string * string * string) nat;
  HTTPRequestDuration : gmap (string * string) nat
}.

(** [WithLabelValues(labels).Inc()] and [WithLabelValues(labels).Observe(_)] *)
Definition bump {K : Type} `{Countable K} (labels : K) (m : gmap K nat) : gmap K nat :=
  <[labels := S (default O (m !! labels))]> m.

Definition reading {K : Type} `{Countable K} (labels : K) (m : gmap K nat) : nat :=
  default O (m !! labels).

(** The process: the state of the earlier revision, the metric registry,
    the records handed to [slog], and the [statusCode] field of the
    [responseWriter] of the request in flight. *)
Record Process : Type := mkProcess {
  base : State;
  metrics : Metrics;
  records : list slog_record;
  wrapped_statusCode : Z
}.

Definition set_base (x : State) (p : Process) : Process :=
  mkProcess x (metrics p) (records p) (wrapped_statusCode p).
Definition set_metrics (x : Metrics) (p : Process) : Process :=
  mkProcess (base p) x (records p) (wrapped_statusCode p).
Definition set_records (x : list slog_record) (p : Process) : Process :=
  mkProcess (base p) (metrics p) x (wrapped_statusCode p).
Definition set_wrapped_statusCode (x : Z) (p : Process) : Process :=
  mkProcess (base p) (metrics p) (records p) x.

Definition MM (A : Type) : Type := Process -> A * Process.

#[global] Instance MM_ret : MRet MM := fun A x p => (x, p).
#[global] Instance MM_bind : MBind MM :=
  fun A B f m p => let '(x, p') := m p in f x p'.

Definition exec {A : Type} (m : MM A) (p : Process) : Process := snd (m p).

(** An operation of the earlier revision, run on [base]. *)
Definition lift {A : Type} (m : M A) : MM A :=
  fun p => let '(x, st') := m (base p) in (x, set_base st' p).

Definition on_metrics (f : Metrics -> Metrics) : MM unit :=
  fun p => (tt, set_metrics (f (metrics p)) p).

Definition slog (lvl : slog_level) (msg : string) (args : list (string * attr))
  : MM unit :=
  fun p => (tt, set_records (records p ++ [mkRecord lvl msg args]) p).

(** The registry after one more hit, miss, request or observation. *)
Definition hit (m : Metrics) : Metrics :=
  mkMetrics (S (CacheHitsTotal m)) (CacheMissesTotal m) (R2RequestsTotal m)
    (CacheOperationDuration m) (R2RequestDuration m) (HTTPRequestsTotal m)
    (HTTPRequestDuration m).

Definition miss (m : Metrics) : Metrics :=
  mkMetrics (CacheHitsTotal m) (S (CacheMissesTotal m)) (R2RequestsTotal m)
    (CacheOperationDuration m) (R2RequestDuration m) (HTTPRequestsTotal m)
    (HTTPRequestDuration m).

Definition r2_request (operation status : string) (m : Metrics) : Metrics :=
  mkMetrics (CacheHitsTotal m) (CacheMissesTotal m)
    (bump (operation, status) (R2RequestsTotal m))
    (CacheOperationDuration m) (R2RequestDuration m) (HTTPRequestsTotal m)
    (HTTPRequestDuration m).

Definition cache_observed (operation : string) (m : Metrics) : Metrics :=
  mkMetrics (CacheHitsTotal m) (CacheMissesTotal m) (R2RequestsTotal m)
    (bump operation (CacheOperationDuration m)) (R2RequestDuration m)
    (HTTPRequestsTotal m) (HTTPRequestDuration m).

Definition r2_observed (operation : string) (m : Metrics) : Metrics :=
  mkMetrics (CacheHitsTotal m) (CacheMissesTotal m) (R2RequestsTotal m)
    (CacheOperationDuration m) (bump operation (R2RequestDuration m))
    (HTTPRequestsTotal m) (HTTPRequestDuration m).

Definition http_request (method path status : string) (m : Metrics) : Metrics :=
  mkMetrics (CacheHitsTotal m) (CacheMissesTotal m) (R2RequestsTotal m)
    (CacheOperationDuration m) (R2RequestDuration m)
    (bump (method, path, status) (HTTPRequestsTotal m)) (HTTPRequestDuration m).

Definition http_observed (method path : string) (m : Metrics) : Metrics :=
  mkMetrics (CacheHitsTotal m) (CacheMissesTotal m) (R2RequestsTotal m)
    (CacheOperationDuration m) (R2RequestDuration m) (HTTPRequestsTotal m)
    (bump (method, path) (HTTPRequestDuration m)).

Definition CacheHitsTotal_Inc : MM unit := on_metrics hit.
Definition CacheMissesTotal_Inc : MM unit := on_metrics miss.
Definition R2RequestsTotal_Inc (operation status : string) : MM unit :=
  on_metrics (r2_request operation status).
Definition CacheOperationDuration_Observe (operation : string) : MM unit :=
  on_metrics (cache_observed operation).
Definition R2RequestDuration_Observe (operation : string) : MM unit :=
  on_metrics (r2_observed operation).
Definition HTTPRequestsTotal_Inc (method path status : string) : MM unit :=
  on_metrics (http_request method path status).
Definition HTTPRequestDuration_Observe (method path : string) : MM unit :=
  on_metrics (http_observed method path).

(** [http.ResponseWriter], the interface: the three methods the handlers
    call. *)
Record Writer : Type := mkWriter {
  Header_Set : string -> string -> MM unit;
  WriteHeader : Z -> MM unit;
  Write_chunk : chunk -> MM unit
}.

(** The writer of the server: the one in [base]. *)
Definition serverWriter : Writer :=
  mkWriter (fun k v => lift (on_w (rw_HeaderSet k v)))
           (fun code => lift (on_w (rw_WriteHeader code)))
           (fun c => lift (on_w (rw_Write c))).

(** [responseWriter]: embeds a writer and overrides [WriteHeader] to keep
    the code; [Header] and [Write] are the embedded writer's. *)
Definition responseWriter (inner : Writer) : Writer :=
  mkWriter (Header_Set inner)
           (fun code =>
              (fun p => (tt, set_wrapped_statusCode code p));;
              WriteHeader inner code)
           (Write_chunk inner).

(** An inbound request with the fields the middleware reads. *)
Record HttpRequest : Type := mkHttpRequest {
  request : Request;
  Method : string;
  URL_Path : string
}.

Definition json_Encode (wr : Writer) (data : Response) : MM (option error) :=
  Write_chunk wr (JSONLine data);;
  mret None.

Definition writeJSON (wr : Writer) (status : Z) (data : Response) : MM unit :=
  Header_Set wr "Content-Type" "application/json";;
  WriteHeader wr status;;
  err ← json_Encode wr data;
  match err with
  | Some e => slog LevelError "Error encoding JSON response" [("error", AttrString (Error e))]
  | None => mret tt
  end.

Definition writeFileResponse (wr : Writer) (filename : string) (data : bytes)
  : MM unit :=
  db ← lift (gets mime);
  let contentType := mime_TypeByExtension db (filepath_Ext filename) in
  let contentType :=
    if decide (contentType = "") then "application/octet-stream" else contentType in
  Header_Set wr "Content-Type" contentType;;
  Header_Set wr "Content-Disposition"
    (("inline; filename=" ++ dquote) ++ filename ++ dquote);;
  WriteHeader wr StatusOK;;
  Write_chunk wr (RawBytes data).

(** No nil test in this revision; the one call passes a non-nil error. *)
Definition isNotFoundError (err : error) : bool :=
  strings_Contains (Error err) "NoSuchKey" || strings_Contains (Error err) "not found".

(** The goroutine body: [fileCache.Set] under a fresh 30 second context, a
    record either way, then the duration of the write. *)
Definition run_task (t : task) : MM unit :=
  match t with
  | populateCache filename data =>
      fc ← lift (gets fileCache);
      match fc with
      | None => mret tt
      | Some c =>
          err ← lift (RedisCache_Set c filename data);
          match err with
          | Some e =>
              slog LevelError "Failed to cache file"
                [("filename", AttrString filename); ("error", AttrString (Error e))]
          | None => slog LevelInfo "Cached file" [("filename", AttrString filename)]
          end;;
          CacheOperationDuration_Observe "set"
      end
  end.

Definition go_ (t : task) : MM unit :=
  at_once ← lift (gets eager);
  if at_once : bool then run_task t
  else lift (modify (fun st => set_goroutines (goroutines st ++ [t]) st)).

Definition fetchFromOrigin (wr : Writer) (r : Request) (filename : string) : MM unit :=
  storage ← lift (gets fileStorage);
  '(data, err) ← lift (R2Client_GetObject storage filename);
  R2RequestDuration_Observe "get";;
  match err with
  | Some e =>
      R2RequestsTotal_Inc "get" "error";;
      slog LevelError "R2 error"
        [("filename", AttrString filename); ("error", AttrString (Error e))];;
      if bool_decide (ctx_Err r = Some context_DeadlineExceeded) then
        writeJSON wr StatusGatewayTimeout (mkResponse false "Request timeout" None)
      else if isNotFoundError e then
        writeJSON wr StatusNotFound (mkResponse false "File not found" None)
      else
        writeJSON wr StatusInternalServerError
          (mkResponse false "Failed to retrieve file" None)
  | None =>
      R2RequestsTotal_Inc "get" "success";;
      fc ← lift (gets fileCache);
      match fc with
      | Some _ => go_ (populateCache filename data)
      | None => mret tt
      end;;
      writeFileResponse wr filename data
  end.

Definition getFileHandler (wr : Writer) (r : HttpRequest) : MM unit :=
  let filename := PathValue (request r) "name" in
  if decide (filename = "") then
    writeJSON wr StatusBadRequest (mkResponse false "filename is required" None)
  else
    fc ← lift (gets fileCache);
    match fc with
    | Some c =>
        '(data, found, err) ← lift (RedisCache_Get c filename);
        CacheOperationDuration_Observe "get";;
        match err with
        | Some e =>
            slog LevelError "Cache error"
              [("filename", AttrString filename); ("error", AttrString (Error e))]
        | None => mret tt
        end;;
        if found : bool then
          CacheHitsTotal_Inc;;
          slog LevelInfo "Cache HIT" [("filename", AttrString filename)];;
          writeFileResponse wr filename data
        else
          CacheMissesTotal_Inc;;
          slog LevelInfo "Cache MISS" [("filename", AttrString filename)];;
          fetchFromOrigin wr (request r) filename
    | None =>
        slog LevelInfo "Cache disabled, fetching from R2"
          [("filename", AttrString filename)];;
        fetchFromOrigin wr (request r) filename
    end.

Definition metricsMiddleware (next : Writer -> HttpRequest -> MM unit)
    (wr : Writer) (r : HttpRequest) : MM unit :=
  (fun p => (tt, set_wrapped_statusCode StatusOK p));;
  next (responseWriter wr) r;;
  status ← (fun p => (wrapped_statusCode p, p));
  HTTPRequestsTotal_Inc (Method r) (URL_Path r) (strconv_Itoa status);;
  HTTPRequestDuration_Observe (Method r) (URL_Path r);;
  slog LevelInfo "Request completed"
    [("method", AttrString (Method r)); ("path", AttrString (URL_Path r));
     ("status", AttrInt status); ("duration_ms", AttrClock)].

(** The [/files/{name}] route: [metricsMiddleware(getFileHandler)] on a
    fresh response writer. *)
Definition serve_files (r : HttpRequest) (p : Process) : Process :=
  exec (metricsMiddleware getFileHandler serverWriter r)
       (set_base (set_w newRecorder (base p)) p).

(** The record the middleware writes when the handler has returned. *)
Definition completed_record (r : HttpRequest) (status : Z) : slog_record :=
  mkRecord LevelInfo "Request completed"
    [("method", AttrString (Method r)); ("path", AttrString (URL_Path r));
     ("status", AttrInt status); ("duration_ms", AttrClock)].

(** The process when a [/files/] request has been answered with [status],
    leaving [st] as state of the backends and [m] and [recs] as registry and
    records of the handler. *)
Definition answered (r : HttpRequest) (status : Z) (st : State) (m : Metrics)
    (recs : list slog_record) : Process :=
  mkProcess st
    (http_observed (Method r) (URL_Path r)
       (http_request (Method r) (URL_Path r) (strconv_Itoa status) m))
    (recs ++ [completed_record r status])
    status.

Definition filename_attr (filename : string) : string * attr :=
  ("filename", AttrString filename).

End Rev2.

(** The state and the registry when the lookup of a request has not found
    the key: the lookup was made and counted as a miss when a cache is
    configured, and nothing happened otherwise. *)
Definition after_lookup (key : string) (st : State) : State :=
  match fileCache st with
  | Some _ => called (CacheGet key) st
  | None => st
  end.

Definition after_lookup_metrics (st : State) (m : Rev2.Metrics) : Rev2.Metrics :=
  match fileCache st with
  | Some _ => Rev2.miss (Rev2.cache_observed "get" m)
  | None => m
  end.

(** The status the later revision sends for a failed origin fetch. *)
Definition Rev2_error_status (r : Request) (e : error) : Z :=
  if bool_decide (ctx_Err r = Some context_DeadlineExceeded) then StatusGatewayTimeout
  else if Rev2.isNotFoundError e then StatusNotFound
  else StatusInternalServerError.

Definition Rev2_error_message (r : Request) (e : error) : string :=
  if bool_decide (ctx_Err r = Some context_DeadlineExceeded) then "Request timeout"
  else if Rev2.isNotFoundError e then "File not found"
  else "Failed to retrieve file".

(** The writer the handler gets on the [/files/] route. *)
Definition wrappedWriter : Rev2.Writer := Rev2.responseWriter Rev2.serverWriter.

(** The process a successful origin fetch leaves, from the process [p] in
    which it starts: the request counted, the population done, refused or
    left pending, and the file written. *)
Definition Rev2_fetched (filename : string) (data : bytes) (p : Rev2.Process)
  : Rev2.Process :=
  let st1 := called (StorageGet filename) (Rev2.base p) in
  let m1 := Rev2.r2_request "get" "success" (Rev2.r2_observed "get" (Rev2.metrics p)) in
  let rw := fileResponse (mime (Rev2.base p)) filename data (w (Rev2.base p)) in
  match fileCache (Rev2.base p) with
  | None => Rev2.mkProcess (set_w rw st1) m1 (Rev2.records p) StatusOK
  | Some c =>
      if eager (Rev2.base p) then
        match redis_SetError (redis (Rev2.base p)) with
        | None =>
            Rev2.mkProcess
              (set_w rw (stored filename data (ttl c) (called (CacheSet filename data) st1)))
              (Rev2.cache_observed "set" m1)
              (Rev2.records p ++
                 [Rev2.mkRecord Rev2.LevelInfo "Cached file"
                    [("filename", Rev2.AttrString filename)]])
              StatusOK
        | Some e =>
            Rev2.mkProcess
              (set_w rw (called (CacheSet filename data) st1))
              (Rev2.cache_observed "set" m1)
              (Rev2.records p ++
                 [Rev2.mkRecord Rev2.LevelError "Failed to cache file"
                    [("filename", Rev2.AttrString filename);
                     ("error",
                      Rev2.AttrString (Error (fmt_Errorf_w "redis set error: " e)))]])
              StatusOK
        end
      else
        Rev2.mkProcess
          (set_w rw (set_goroutines
                       (goroutines (Rev2.base p) ++ [populateCache filename data]) st1))
          m1 (Rev2.records p) StatusOK
  end.

(** Whether the cache lookup of the handler finds the key. *)
Definition cache_finds (st : State) (key : string) : bool :=
  match fileCache st with
  | Some c => (RedisCache_Get c key st).1.1.2
  | None => false
  end.

(** A process of the later revision with an empty registry and no record
    written yet. *)
Definition Rev2_boot (st : State) : Rev2.Process :=
  Rev2.mkProcess st (Rev2.mkMetrics 0 0 ∅ ∅ ∅ ∅ ∅) [] StatusOK.

(** * Verification *)

(** ** Strings *)

Example Ext_pdf : filepath_Ext "document.pdf" = ".pdf".
Proof. reflexivity. Qed.
Example Ext_two_dots : filepath_Ext "a.tar.gz" = ".gz".
Proof. reflexivity. Qed.
Example Ext_none : filepath_Ext "README" = "".
Proof. reflexivity. Qed.
Example Ext_dir_dot : filepath_Ext "v1.2/README" = "".
Proof. reflexivity. Qed.

Example TypeByExtension_upper :
  mime_TypeByExtension (builtinMime ascii_ToLower) ".PDF" = "application/pdf".
Proof. vm_compute. reflexivity. Qed.

Lemma strings_HasPrefix_spec (s p : string) :
  strings_HasPrefix s p = true <-> exists t, s = p ++ t.
Proof.
  revert s. induction p as [|c p IH]; intros s; cbn.
  - split; [intros _; by exists s | done].
  - destruct s as [|d s]; cbn.
    + split; [done | intros [t Ht]; discriminate].
    + destruct (decide (c = d)) as [->|Hne].
      * rewrite IH. split; intros [t Ht]; exists t; [by rewrite Ht | by injection Ht].
      * split; [done | intros [t Ht]; injection Ht; congruence].
Qed.

(** [strings_Contains s substr] holds exactly when [substr] occurs in [s]. *)
Lemma strings_Contains_spec (s substr : string) :
  strings_Contains s substr = true <-> exists a b, s = a ++ substr ++ b.
Proof.
  induction s as [|c s IH]; cbn [strings_Contains].
  - destruct (strings_HasPrefix "" substr) eqn:Hp.
    + apply strings_HasPrefix_spec in Hp as [t Ht].
      split; [intros _; exists "", t; exact Ht | done].
    + split; [done|]. intros [a [b Hab]].
      destruct a as [|x a]; [|discriminate].
      assert (strings_HasPrefix "" substr = true) as Hq
        by (apply strings_HasPrefix_spec; by exists b).
      congruence.
  - destruct (strings_HasPrefix (String c s) substr) eqn:Hp.
    + apply strings_HasPrefix_spec in Hp as [t Ht].
      split; [intros _; exists "", t; exact Ht | done].
    + rewrite IH. split.
      * intros [a [b Hab]]. exists (String c a), b. cbn. by rewrite Hab.
      * intros [a [b Hab]]. destruct a as [|x a].
        -- assert (strings_HasPrefix (String c s) substr = true) as Hq
             by (apply strings_HasPrefix_spec; by exists b).
           congruence.
        -- injection Hab as _ Hab. by exists a, b.
Qed.

(** ** The monad's operations *)

Ltac unfold_M :=
  unfold log_Printf, issue, on_w, gets, modify, mbind, mret, M_bind, M_ret.

(** ** Cache client *)

Lemma RedisCache_Get_found c key st data exp :
  redis_GetError (redis st) = None ->
  keyspace (redis st) !! key = Some (data, exp) ->
  RedisCache_Get c key st = ((data, true, None), called (CacheGet key) st).
Proof.
  intros Hg Hk. unfold RedisCache_Get, redis_client_Get. unfold_M. cbn.
  rewrite Hg, Hk. cbn. by destruct (decide _).
Qed.

Lemma RedisCache_Get_absent c key st :
  redis_GetError (redis st) = None ->
  keyspace (redis st) !! key = None ->
  RedisCache_Get c key st = (("", false, None), called (CacheGet key) st).
Proof.
  intros Hg Hk. unfold RedisCache_Get, redis_client_Get. unfold_M. cbn.
  rewrite Hg, Hk. cbn. by destruct (decide _).
Qed.

Lemma RedisCache_Get_failed c key st e :
  redis_GetError (redis st) = Some e ->
  RedisCache_Get c key st =
    (("", false, if decide (e = redis_Nil) then None
                 else Some (fmt_Errorf_w "redis get error: " e)),
     called (CacheGet key) st).
Proof.
  intros Hg. unfold RedisCache_Get, redis_client_Get. unfold_M. cbn.
  rewrite Hg. cbn. destruct (decide (Some e = _)) as [[= ->]|Hn].
  - by destruct (decide _).
  - destruct (decide _); [by subst|done].
Qed.

(** The lookup only adds its call to the state, and its answer is the
    server's. *)
Lemma RedisCache_Get_state c key st :
  (RedisCache_Get c key st).2 = called (CacheGet key) st.
Proof.
  destruct (redis_GetError (redis st)) as [e|] eqn:Hg.
  - by rewrite (RedisCache_Get_failed _ _ _ _ Hg).
  - destruct (keyspace (redis st) !! key) as [[d x]|] eqn:Hk.
    + by rewrite (RedisCache_Get_found _ _ _ _ _ Hg Hk).
    + by rewrite (RedisCache_Get_absent _ _ _ Hg Hk).
Qed.

Lemma RedisCache_Get_answer c key st st' :
  redis st = redis st' ->
  (RedisCache_Get c key st).1 = (RedisCache_Get c key st').1.
Proof.
  intros Hr.
  destruct (redis_GetError (redis st)) as [e|] eqn:Hg.
  - rewrite (RedisCache_Get_failed _ _ st _ Hg).
    rewrite Hr in Hg. by rewrite (RedisCache_Get_failed _ _ st' _ Hg).
  - destruct (keyspace (redis st) !! key) as [[d x]|] eqn:Hk.
    + rewrite (RedisCache_Get_found _ _ st _ _ Hg Hk).
      rewrite Hr in Hg, Hk. by rewrite (RedisCache_Get_found _ _ st' _ _ Hg Hk).
    + rewrite (RedisCache_Get_absent _ _ st Hg Hk).
      rewrite Hr in Hg, Hk. by rewrite (RedisCache_Get_absent _ _ st' Hg Hk).
Qed.

(** A lookup that does not find the key returns no data. *)
Lemma RedisCache_Get_not_found c key st :
  (RedisCache_Get c key st).1.1.2 = false ->
  exists err, RedisCache_Get c key st = (("", false, err), called (CacheGet key) st).
Proof.
  destruct (redis_GetError (redis st)) as [e|] eqn:Hg.
  - rewrite (RedisCache_Get_failed _ _ _ _ Hg). intros _. by eexists.
  - destruct (keyspace (redis st) !! key) as [[d x]|] eqn:Hk.
    + by rewrite (RedisCache_Get_found _ _ _ _ _ Hg Hk).
    + rewrite (RedisCache_Get_absent _ _ _ Hg Hk). intros _. by eexists.
Qed.

Lemma RedisCache_Set_ok c key data st :
  redis_SetError (redis st) = None ->
  RedisCache_Set c key data st =
    (None, stored key data (ttl c) (called (CacheSet key data) st)).
Proof.
  intros Hs. unfold RedisCache_Set, redis_client_Set, stored, called. unfold_M. cbn.
  by rewrite Hs.
Qed.

Lemma RedisCache_Set_failed c key data st e :
  redis_SetError (redis st) = Some e ->
  RedisCache_Set c key data st =
    (Some (fmt_Errorf_w "redis set error: " e), called (CacheSet key data) st).
Proof.
  intros Hs. unfold RedisCache_Set, redis_client_Set, stored, called. unfold_M. cbn.
  by rewrite Hs.
Qed.

(** ** Storage client *)

Lemma R2Client_GetObject_state r key st :
  (R2Client_GetObject r key st).2 = called (StorageGet key) st.
Proof.
  unfold R2Client_GetObject, s3_client_GetObject, io_ReadAll. unfold_M. cbn.
  destruct (s3_GetObjectError (s3 st)); cbn; [done|].
  destruct (objects (s3 st) !! key); cbn; [|done].
  by destruct (s3_BodyReadError (s3 st)).
Qed.

Lemma R2Client_GetObject_answer r key st st' :
  s3 st = s3 st' ->
  (R2Client_GetObject r key st).1 = (R2Client_GetObject r key st').1.
Proof.
  intros Hb.
  unfold R2Client_GetObject, s3_client_GetObject, io_ReadAll. unfold_M. cbn.
  rewrite Hb.
  destruct (s3_GetObjectError (s3 st')); cbn; [done|].
  destruct (objects (s3 st') !! key); cbn; [|done].
  rewrite Hb. by destruct (s3_BodyReadError (s3 st')).
Qed.

Lemma R2Client_GetObject_ok r key st data :
  s3_GetObjectError (s3 st) = None ->
  s3_BodyReadError (s3 st) = None ->
  objects (s3 st) !! key = Some data ->
  R2Client_GetObject r key st = ((data, None), called (StorageGet key) st).
Proof.
  intros Hg Hr Ho.
  unfold R2Client_GetObject, s3_client_GetObject, io_ReadAll. unfold_M. cbn.
  rewrite Hg. cbn. rewrite Ho. cbn. by rewrite Hr.
Qed.

Lemma R2Client_GetObject_run r key st res :
  (R2Client_GetObject r key st).1 = res ->
  R2Client_GetObject r key st = (res, called (StorageGet key) st).
Proof.
  intros <-. rewrite <- (R2Client_GetObject_state r).
  by destruct (R2Client_GetObject r key st).
Qed.

(** ** Writing a response *)

Lemma writeJSON_run status data st :
  writeJSON status data st = (tt, set_w (jsonResponse status data (w st)) st).
Proof. reflexivity. Qed.

Lemma jsonResponse_fresh status data :
  statusCode (jsonResponse status data newRecorder) = Some status /\
  header (jsonResponse status data newRecorder) !! "Content-Type"
    = Some "application/json" /\
  body (jsonResponse status data newRecorder) = [JSONLine data].
Proof. split; [done|]. split; [|done]. cbn. by rewrite lookup_insert_eq. Qed.

Lemma writeFileResponse_run filename data st :
  writeFileResponse filename data st =
    (tt, set_w (fileResponse (mime st) filename data (w st)) st).
Proof. reflexivity. Qed.

Lemma fileResponse_fresh db filename data :
  statusCode (fileResponse db filename data newRecorder) = Some StatusOK /\
  body (fileResponse db filename data newRecorder) = [RawBytes data] /\
  header (fileResponse db filename data newRecorder) !! "Content-Type"
    = Some (contentTypeOf db filename) /\
  header (fileResponse db filename data newRecorder) !! "Content-Disposition"
    = Some (("inline; filename=" ++ dquote) ++ filename ++ dquote).
Proof.
  split; [done|]. split; [done|]. split; cbn.
  - by rewrite lookup_insert_ne, lookup_insert_eq.
  - by rewrite lookup_insert_eq.
Qed.

(** ** The population goroutine *)

Lemma same_request_view_refl st : same_request_view st st.
Proof. by repeat split. Qed.

Lemma run_task_run filename data st :
  run_task (populateCache filename data) st =
    (tt, match fileCache st with
         | None => st
         | Some c =>
             match redis_SetError (redis st) with
             | None =>
                 logged ("Cached file: " ++ filename)
                   (stored filename data (ttl c) (called (CacheSet filename data) st))
             | Some e =>
                 logged ("Failed to cache file " ++ filename ++ ": "
                           ++ Error (fmt_Errorf_w "redis set error: " e))
                   (called (CacheSet filename data) st)
             end
         end).
Proof.
  unfold run_task. unfold mbind, M_bind, gets.
  destruct (fileCache st) as [c|]; [|done].
  destruct (redis_SetError (redis st)) as [e|] eqn:Hs.
  - by rewrite (RedisCache_Set_failed _ _ _ _ _ Hs).
  - by rewrite (RedisCache_Set_ok _ _ _ _ Hs).
Qed.

#[local] Arguments run_task : simpl never.

Lemma run_task_frame t st : same_request_view st (exec (run_task t) st).
Proof.
  destruct t as [filename data]. unfold exec. rewrite run_task_run. cbn.
  destruct (fileCache st) as [c|]; [|apply same_request_view_refl].
  destruct (redis_SetError (redis st)); by repeat split.
Qed.

Lemma go_run t st :
  go_ t st =
    (tt, if eager st then exec (run_task t) st
         else set_goroutines (goroutines st ++ [t]) st).
Proof.
  unfold go_, exec. unfold_M. cbn. destruct (eager st); [|done].
  by destruct (run_task t st) as [[] st'].
Qed.

Lemma go_frame t st : same_request_view st (exec (go_ t) st).
Proof.
  unfold exec at 1. rewrite go_run. cbn.
  destruct (eager st); [apply run_task_frame | by repeat split].
Qed.

(** ** [getFileHandler], path by path *)

(** The origin fetch failed: one log line, then the JSON error chosen by
    the three-way test. *)
Lemma fetchFromOrigin_failed r filename st d e :
  (R2Client_GetObject (fileStorage st) filename st).1 = (d, Some e) ->
  exec (fetchFromOrigin r filename) st =
    let st1 := logged ("R2 error for " ++ filename ++ ": " ++ Error e)
                 (called (StorageGet filename) st) in
    if errors_Is (ctx_Err r) context_DeadlineExceeded then
      set_w (jsonResponse StatusGatewayTimeout
               (mkResponse false "Request timeout" None) (w st)) st1
    else if isNotFoundError (Some e) then
      set_w (jsonResponse StatusNotFound
               (mkResponse false "File not found" None) (w st)) st1
    else
      set_w (jsonResponse StatusInternalServerError
               (mkResponse false "Failed to retrieve file" None) (w st)) st1.
Proof.
  intros HG. apply R2Client_GetObject_run in HG.
  unfold exec, fetchFromOrigin. unfold mbind, M_bind, gets. rewrite HG.
  unfold log_Printf, modify. cbn zeta.
  destruct (errors_Is _ _); [done|]. by destruct (isNotFoundError _).
Qed.

(** The origin fetch succeeded: the goroutine is started when a cache is
    configured, then the file is written. *)
Lemma fetchFromOrigin_fetched r filename st data :
  (R2Client_GetObject (fileStorage st) filename st).1 = (data, None) ->
  exec (fetchFromOrigin r filename) st =
    let st1 := called (StorageGet filename) st in
    let st2 := match fileCache st with
               | Some _ => exec (go_ (populateCache filename data)) st1
               | None => st1
               end in
    set_w (fileResponse (mime st2) filename data (w st2)) st2.
Proof.
  intros HG. apply R2Client_GetObject_run in HG.
  unfold exec, fetchFromOrigin. unfold mbind, M_bind, gets. rewrite HG. cbn.
  destruct (fileCache st) as [c|]; [|done].
  by destruct (go_ _ _) as [[] st2].
Qed.

(** Starting the goroutine, at once or later, leaves the writer and the
    MIME tables as they were. *)
Lemma spawn_view filename data (s0 : State) :
  w (match fileCache s0 with
     | Some _ => exec (go_ (populateCache filename data)) (called (StorageGet filename) s0)
     | None => called (StorageGet filename) s0
     end) = w s0 /\
  mime (match fileCache s0 with
        | Some _ => exec (go_ (populateCache filename data)) (called (StorageGet filename) s0)
        | None => called (StorageGet filename) s0
        end) = mime s0.
Proof.
  destruct (fileCache s0); [|done].
  destruct (go_frame (populateCache filename data) (called (StorageGet filename) s0))
    as (H1 & _ & H3 & _).
  by rewrite H1, H3.
Qed.

(** Whatever the fetch returns, the response written depends on the bucket,
    the MIME tables and the writer only. *)
Lemma fetchFromOrigin_w r filename st st' :
  s3 st = s3 st' -> mime st = mime st' -> fileStorage st = fileStorage st' ->
  w st = w st' ->
  w (exec (fetchFromOrigin r filename) st) = w (exec (fetchFromOrigin r filename) st').
Proof.
  intros Hb Hm Hf Hw.
  destruct (R2Client_GetObject (fileStorage st) filename st).1 as [d [e|]] eqn:HG.
  - assert ((R2Client_GetObject (fileStorage st') filename st').1 = (d, Some e)) as HG'
      by (by rewrite <- Hf, <- (R2Client_GetObject_answer _ _ st st' Hb)).
    rewrite (fetchFromOrigin_failed _ _ _ _ _ HG), (fetchFromOrigin_failed _ _ _ _ _ HG').
    cbn zeta. rewrite Hw.
    destruct (errors_Is _ _); [done|]. by destruct (isNotFoundError _).
  - assert ((R2Client_GetObject (fileStorage st') filename st').1 = (d, None)) as HG'
      by (by rewrite <- Hf, <- (R2Client_GetObject_answer _ _ st st' Hb)).
    rewrite (fetchFromOrigin_fetched _ _ _ _ HG), (fetchFromOrigin_fetched _ _ _ _ HG').
    cbn zeta. cbn [w set_w].
    destruct (spawn_view filename d st) as [-> ->].
    destruct (spawn_view filename d st') as [-> ->].
    by rewrite Hw, Hm.
Qed.

Lemma getFileHandler_empty r st :
  PathValue r "name" = "" ->
  exec (getFileHandler r) st =
    set_w (jsonResponse StatusBadRequest
             (mkResponse false "filename is required" None) (w st)) st.
Proof.
  intros H. unfold exec, getFileHandler. rewrite H.
  by destruct (decide _).
Qed.

Lemma getFileHandler_cached r st c data exp :
  PathValue r "name" <> "" ->
  fileCache st = Some c ->
  redis_GetError (redis st) = None ->
  keyspace (redis st) !! PathValue r "name" = Some (data, exp) ->
  exec (getFileHandler r) st =
    let st1 := logged ("Cache HIT for file: " ++ PathValue r "name")
                 (called (CacheGet (PathValue r "name")) st) in
    set_w (fileResponse (mime st) (PathValue r "name") data (w st)) st1.
Proof.
  intros Hne Hc Hg Hk. unfold exec, getFileHandler.
  destruct (decide _) as [|_]; [done|].
  unfold mbind, M_bind, gets. rewrite Hc.
  by rewrite (RedisCache_Get_found _ _ _ _ _ Hg Hk).
Qed.

(** Without a usable cache entry the handler continues with the origin
    fetch, in a state that differs from the initial one by the lookup and
    the log. *)
Lemma getFileHandler_uncached r st :
  PathValue r "name" <> "" ->
  no_cache_hit st (PathValue r "name") ->
  exists st0 lines,
    exec (getFileHandler r) st = exec (fetchFromOrigin r (PathValue r "name")) st0 /\
    same_request_view st st0 /\ redis st0 = redis st /\
    goroutines st0 = goroutines st /\
    logs st0 = (logs st ++ lines)%list /\
    calls st0 = (calls st ++ match fileCache st with
                             | Some _ => [CacheGet (PathValue r "name")]
                             | None => []
                             end)%list.
Proof.
  intros Hne Hno. unfold exec at 1. unfold getFileHandler.
  destruct (decide _) as [|_]; [done|].
  unfold mbind at 1, M_bind at 1, gets at 1.
  destruct (fileCache st) as [c|] eqn:Hc.
  - destruct (RedisCache_Get_not_found c _ st (Hno c Hc)) as [err Hrun].
    unfold mbind at 1, M_bind at 1. rewrite Hrun.
    destruct err as [e|].
    + eexists _, [_; _]. split; [reflexivity|].
      cbn. rewrite <- app_assoc. by repeat split.
    + eexists _, [_]. split; [reflexivity|].
      cbn. by repeat split.
  - eexists _, [_]. split; [reflexivity|].
    cbn. rewrite app_nil_r. by repeat split.
Qed.

Lemma no_cache_hit_view st st' key :
  redis st' = redis st -> fileCache st' = fileCache st ->
  no_cache_hit st key -> no_cache_hit st' key.
Proof.
  intros Hr Hc Hno c Hc'. rewrite (RedisCache_Get_answer c key st' st Hr).
  apply Hno. by rewrite <- Hc.
Qed.

Lemma cache_hit_or_not st key :
  (exists c data exp, fileCache st = Some c /\ redis_GetError (redis st) = None /\
                      keyspace (redis st) !! key = Some (data, exp))
  \/ no_cache_hit st key.
Proof.
  destruct (fileCache st) as [c|] eqn:Hc; [|right; intros c' Hc'; congruence].
  destruct (redis_GetError (redis st)) as [e|] eqn:Hg.
  - right. intros c' _. by rewrite (RedisCache_Get_failed _ _ _ _ Hg).
  - destruct (keyspace (redis st) !! key) as [[d x]|] eqn:Hk.
    + left. by exists c, d, x.
    + right. intros c' _. by rewrite (RedisCache_Get_absent _ _ _ Hg Hk).
Qed.

(** The response of a request that reaches the origin. *)
Lemma served_uncached_w r st :
  PathValue r "name" <> "" ->
  no_cache_hit st (PathValue r "name") ->
  w (serve getFileHandler r st) =
    match (R2Client_GetObject (fileStorage st) (PathValue r "name") st).1 with
    | (_, Some e) =>
        if errors_Is (ctx_Err r) context_DeadlineExceeded then
          jsonResponse StatusGatewayTimeout
            (mkResponse false "Request timeout" None) newRecorder
        else if isNotFoundError (Some e) then
          jsonResponse StatusNotFound
            (mkResponse false "File not found" None) newRecorder
        else
          jsonResponse StatusInternalServerError
            (mkResponse false "Failed to retrieve file" None) newRecorder
    | (data, None) =>
        fileResponse (mime st) (PathValue r "name") data newRecorder
    end.
Proof.
  intros Hne Hno. unfold serve.
  assert (no_cache_hit (set_w newRecorder st) (PathValue r "name")) as Hno'
    by (by apply (no_cache_hit_view st)).
  destruct (getFileHandler_uncached r _ Hne Hno')
    as (st0 & lines & -> & (Hw & Hb & Hm & Hc & Hf & He) & _).
  cbn in Hw, Hb, Hm, Hc, Hf.
  assert ((R2Client_GetObject (fileStorage st0) (PathValue r "name") st0).1
          = (R2Client_GetObject (fileStorage st) (PathValue r "name") st).1) as Hans
    by (rewrite Hf; by apply R2Client_GetObject_answer).
  destruct (R2Client_GetObject (fileStorage st) (PathValue r "name") st).1
    as [d [e|]] eqn:HG.
  - rewrite (fetchFromOrigin_failed _ _ _ _ _ Hans). cbn zeta. rewrite Hw.
    destruct (errors_Is _ _); [done|]. by destruct (isNotFoundError _).
  - rewrite (fetchFromOrigin_fetched _ _ _ _ Hans). cbn zeta. cbn [w set_w].
    destruct (spawn_view (PathValue r "name") d st0) as [-> ->].
    by rewrite Hm, Hw.
Qed.

(** A [200] from [getFileHandler] is always a file response for the
    requested name. *)
Lemma served_ok_inv r st :
  statusCode (w (serve getFileHandler r st)) = Some StatusOK ->
  exists data,
    w (serve getFileHandler r st)
      = fileResponse (mime st) (PathValue r "name") data newRecorder.
Proof.
  destruct (decide (PathValue r "name" = "")) as [He|Hne].
  - unfold serve. by rewrite (getFileHandler_empty _ _ He).
  - destruct (cache_hit_or_not st (PathValue r "name"))
      as [(c & data & x & Hc & Hg & Hk)|Hno].
    + intros _. exists data. unfold serve.
      by rewrite (getFileHandler_cached r (set_w newRecorder st) c data x Hne Hc Hg Hk).
    + rewrite (served_uncached_w r st Hne Hno).
      destruct (R2Client_GetObject _ _ _).1 as [d [e|]]; [|by exists d].
      destruct (errors_Is _ _); [done|]. by destruct (isNotFoundError _).
Qed.

(** * The claims *)

(** C8. A request whose [name] path value is the empty string is answered
    with [400] and the JSON envelope [{success: false, message: "filename is
    required"}]; no cache or origin call is issued, no backend state changes
    and no goroutine is started. *)
Theorem empty_filename_is_rejected (r : Request) (st : State) :
  PathValue r "name" = "" ->
  let st' := serve getFileHandler r st in
  statusCode (w st') = Some StatusBadRequest /\
  header (w st') !! "Content-Type" = Some "application/json" /\
  body (w st') = [JSONLine (mkResponse false "filename is required" None)] /\
  calls st' = calls st /\ redis st' = redis st /\ s3 st' = s3 st /\
  goroutines st' = goroutines st.
Proof.
  intros He. cbn zeta. unfold serve. rewrite (getFileHandler_empty _ _ He).
  cbn [w set_w calls redis s3 goroutines].
  destruct (jsonResponse_fresh StatusBadRequest
              (mkResponse false "filename is required" None)) as (H1 & H2 & H3).
  by repeat split.
Qed.

Lemma empty_filename_is_rejected_witness :
  let st := boot (Some (mkRedisCache hour))
              (redis_up {[ "test.txt" := ("cached file content", hour) ]})
              (bucket_up {[ "test.txt" := "storage file content" ]}) in
  let st' := serve getFileHandler (GET_files "") st in
  statusCode (w st') = Some 400 /\
  body (w st') = [JSONLine (mkResponse false "filename is required" None)] /\
  calls st' = [].
Proof.
  cbn zeta.
  destruct (empty_filename_is_rejected (GET_files "")
              (boot (Some (mkRedisCache hour))
                 (redis_up {[ "test.txt" := ("cached file content", hour) ]})
                 (bucket_up {[ "test.txt" := "storage file content" ]})))
    as (H1 & _ & H3 & H4 & _).
  - vm_compute. reflexivity.
  - split; [exact H1|]. split; [exact H3|exact H4].
Defined.

(** C1. When a cache is configured and holds bytes under a non-empty
    filename, the handler answers [200] with exactly those bytes; the only
    backend call of the request is the cache lookup, so the origin is not
    contacted, and nothing is left to run in the background. *)
Theorem cache_hit_short_circuits (r : Request) (st : State)
    (c : RedisCache) (data : bytes) (expiration : Z) :
  PathValue r "name" <> "" ->
  fileCache st = Some c ->
  redis_GetError (redis st) = None ->
  keyspace (redis st) !! PathValue r "name" = Some (data, expiration) ->
  let st' := serve getFileHandler r st in
  statusCode (w st') = Some StatusOK /\
  body (w st') = [RawBytes data] /\
  calls st' = (calls st ++ [CacheGet (PathValue r "name")])%list /\
  origin_calls (calls st') = origin_calls (calls st) /\
  s3 st' = s3 st /\ goroutines st' = goroutines st.
Proof.
  intros Hne Hc Hg Hk. cbn zeta. unfold serve.
  rewrite (getFileHandler_cached r (set_w newRecorder st) c data expiration Hne Hc Hg Hk).
  cbn zeta. cbn [w set_w calls s3 goroutines logged called set_logs set_calls].
  destruct (fileResponse_fresh (mime st) (PathValue r "name") data) as (H1 & H2 & _).
  split; [exact H1|]. split; [exact H2|]. split; [done|]. split; [|done].
  unfold origin_calls. rewrite List.filter_app. cbn. by rewrite app_nil_r.
Qed.

Lemma cache_hit_short_circuits_witness :
  let st := boot (Some (mkRedisCache hour))
              (redis_up {[ "test.txt" := ("cached file content", hour) ]})
              (bucket_up ∅) in
  let st' := serve getFileHandler (GET_files "test.txt") st in
  statusCode (w st') = Some 200 /\
  body (w st') = [RawBytes "cached file content"] /\
  calls st' = [CacheGet "test.txt"].
Proof.
  cbn zeta.
  destruct (cache_hit_short_circuits (GET_files "test.txt")
              (boot (Some (mkRedisCache hour))
                 (redis_up {[ "test.txt" := ("cached file content", hour) ]})
                 (bucket_up ∅))
              (mkRedisCache hour) "cached file content" hour)
    as (H1 & H2 & H3 & _).
  - vm_compute. discriminate.
  - reflexivity.
  - reflexivity.
  - vm_compute. reflexivity.
  - split; [exact H1|]. split; [exact H2|exact H3].
Defined.

(** C4. When the origin fetch fails, the handler answers with exactly one
    of three statuses: [504] when the request context reports that its
    deadline is exceeded, whatever the backend error is; otherwise [404] when
    [isNotFoundError] holds; otherwise [500].  [isNotFoundError] holds
    exactly when the error text contains ["NoSuchKey"] or ["not found"]. *)
Theorem origin_error_classification (r : Request) (st : State)
    (d : bytes) (e : error) :
  PathValue r "name" <> "" ->
  no_cache_hit st (PathValue r "name") ->
  (R2Client_GetObject (fileStorage st) (PathValue r "name") st).1 = (d, Some e) ->
  let st' := serve getFileHandler r st in
  let timeout := errors_Is (ctx_Err r) context_DeadlineExceeded in
  statusCode (w st') =
    Some (if timeout then StatusGatewayTimeout
          else if isNotFoundError (Some e) then StatusNotFound
          else StatusInternalServerError) /\
  body (w st') =
    [JSONLine (mkResponse false
                 (if timeout then "Request timeout"
                  else if isNotFoundError (Some e) then "File not found"
                  else "Failed to retrieve file") None)] /\
  (isNotFoundError (Some e) = true <->
     (exists a b, Error e = a ++ "NoSuchKey" ++ b) \/
     (exists a b, Error e = a ++ "not found" ++ b)).
Proof.
  intros Hne Hno HG. cbn zeta.
  rewrite (served_uncached_w r st Hne Hno), HG.
  split; [|split].
  - destruct (errors_Is _ _); [done|]. by destruct (isNotFoundError _).
  - destruct (errors_Is _ _); [done|]. by destruct (isNotFoundError _).
  - unfold isNotFoundError. cbn zeta. rewrite orb_true_iff.
    by rewrite !strings_Contains_spec.
Qed.

(** A request whose deadline has passed, for a key the bucket does not hold:
    the timeout wins over the not-found text. *)
Lemma origin_error_classification_witness :
  let st := boot None (redis_up ∅) (bucket_up ∅) in
  let r := mkRequest {[ "name" := "nonexistent.txt" ]} (Some context_DeadlineExceeded) in
  statusCode (w (serve getFileHandler r st)) = Some 504 /\
  statusCode (w (serve getFileHandler (GET_files "nonexistent.txt") st)) = Some 404.
Proof.
  cbn zeta. split.
  - destruct (origin_error_classification
                (mkRequest {[ "name" := "nonexistent.txt" ]} (Some context_DeadlineExceeded))
                (boot None (redis_up ∅) (bucket_up ∅)) ""
                (fmt_Errorf_w "failed to get object nonexistent.txt: " s3_NoSuchKey))
      as (H1 & _).
    + vm_compute. discriminate.
    + intros c Hc. discriminate Hc.
    + vm_compute. reflexivity.
    + exact H1.
  - destruct (origin_error_classification (GET_files "nonexistent.txt")
                (boot None (redis_up ∅) (bucket_up ∅)) ""
                (fmt_Errorf_w "failed to get object nonexistent.txt: " s3_NoSuchKey))
      as (H1 & _).
    + vm_compute. discriminate.
    + intros c Hc. discriminate Hc.
    + vm_compute. reflexivity.
    + exact H1.
Defined.

(** C7. Every [200] answered by [getFileHandler] carries the header
    [Content-Disposition: inline; filename="<name>"], the requested name
    standing between the two quotes byte for byte, embedded quotes
    included. *)
Theorem content_disposition_is_literal (r : Request) (st : State) :
  let st' := serve getFileHandler r st in
  statusCode (w st') = Some StatusOK ->
  header (w st') !! "Content-Disposition"
    = Some (("inline; filename=" ++ dquote) ++ PathValue r "name" ++ dquote).
Proof.
  cbn zeta. intros Hok. destruct (served_ok_inv r st Hok) as [data ->].
  by destruct (fileResponse_fresh (mime st) (PathValue r "name") data)
    as (_ & _ & _ & H).
Qed.

(** A name that holds a quote is copied as it is. *)
Lemma content_disposition_is_literal_witness :
  let name := "a" ++ dquote ++ "b.pdf" in
  let st := boot None (redis_up ∅) (bucket_up {[ name := "%PDF" ]}) in
  header (w (serve getFileHandler (GET_files name) st)) !! "Content-Disposition"
    = Some ("inline; filename=" ++ dquote ++ "a" ++ dquote ++ "b.pdf" ++ dquote).
Proof.
  cbn zeta.
  rewrite (content_disposition_is_literal
             (GET_files ("a" ++ dquote ++ "b.pdf"))
             (boot None (redis_up ∅) (bucket_up {[ "a" ++ dquote ++ "b.pdf" := "%PDF" ]}))).
  - vm_compute. reflexivity.
  - vm_compute. reflexivity.
Defined.

(** ** The content type *)

(** C6, as amended.  The [Content-Type] of every [200] answered by
    [getFileHandler] is what [mime.TypeByExtension] gives for [filepath.Ext]
    of the requested name, with [application/octet-stream] in place of the
    empty answer, whatever the MIME tables of the process hold.  So the
    header is [application/octet-stream] exactly when the tables have no type
    for the extension or map the extension to [application/octet-stream]
    themselves.  A name without extension gets it when no type is registered
    for the empty extension ([mime.AddExtensionType] refuses one, and the
    loaders put a dot in front of every extension they read).
    [document.pdf] and [page.html] get [application/pdf] and
    [text/html; charset=utf-8] when the tables hold these types for [.pdf]
    and [.html], as Go's built-in table does, and [file.unknownext123] gets
    [application/octet-stream] when they hold none for [.unknownext123]. *)
Theorem content_type_from_extension :
  (forall (r : Request) (st : State),
     let st' := serve getFileHandler r st in
     statusCode (w st') = Some StatusOK ->
     header (w st') !! "Content-Type" =
       Some (let t := mime_TypeByExtension (mime st) (filepath_Ext (PathValue r "name")) in
             if decide (t = "") then "application/octet-stream" else t)) /\
  (forall (db : MimeDB) (filename : string),
     contentTypeOf db filename = "application/octet-stream" <->
     mime_TypeByExtension db (filepath_Ext filename) = "" \/
     mime_TypeByExtension db (filepath_Ext filename) = "application/octet-stream") /\
  (forall (db : MimeDB) (filename : string),
     mimeTypes db !! "" = None -> mimeTypesLower db !! "" = None ->
     filepath_Ext filename = "" ->
     contentTypeOf db filename = "application/octet-stream") /\
  (forall db : MimeDB,
     (mimeTypes db !! ".pdf" = Some "application/pdf" ->
      contentTypeOf db "document.pdf" = "application/pdf") /\
     (mimeTypes db !! ".html" = Some "text/html; charset=utf-8" ->
      contentTypeOf db "page.html" = "text/html; charset=utf-8") /\
     (mimeTypes db !! ".unknownext123" = None ->
      mimeTypesLower db !! ".unknownext123" = None ->
      contentTypeOf db "file.unknownext123" = "application/octet-stream")).
Proof.
  split; [|split; [|split]].
  - intros r st. cbn zeta. intros Hok.
    destruct (served_ok_inv r st Hok) as [data ->].
    by destruct (fileResponse_fresh (mime st) (PathValue r "name") data)
      as (_ & _ & H & _).
  - intros db filename. unfold contentTypeOf. cbn zeta.
    destruct (decide _) as [->|Hne]; [split; [by left|done]|].
    split; [by right|]. by intros [H|H].
  - intros db filename H1 H2 He. unfold contentTypeOf. rewrite He.
    unfold mime_TypeByExtension. cbn [lower_ascii]. by rewrite H1, H2.
  - intros db. unfold contentTypeOf.
    change (filepath_Ext "document.pdf") with ".pdf".
    change (filepath_Ext "page.html") with ".html".
    change (filepath_Ext "file.unknownext123") with ".unknownext123".
    unfold mime_TypeByExtension. split; [|split].
    + by intros ->.
    + by intros ->.
    + intros -> H.
      change (lower_ascii ".unknownext123") with (Some ".unknownext123").
      cbv beta iota. by rewrite H.
Qed.

Lemma content_type_from_extension_witness :
  let db := builtinMime ascii_ToLower in
  let st := boot None (redis_up ∅) (bucket_up {[ "page.html" := "<html></html>" ]}) in
  header (w (serve getFileHandler (GET_files "page.html") st)) !! "Content-Type"
    = Some "text/html; charset=utf-8" /\
  contentTypeOf db "document.pdf" = "application/pdf" /\
  contentTypeOf db "page.html" = "text/html; charset=utf-8" /\
  contentTypeOf db "file.unknownext123" = "application/octet-stream" /\
  contentTypeOf db "README" = "application/octet-stream".
Proof.
  cbn zeta.
  destruct content_type_from_extension as (Hserved & _ & Habsent & Hexamples).
  destruct (Hexamples (builtinMime ascii_ToLower)) as (Hpdf & Hhtml & Hunknown).
  split; [|split; [|split; [|split]]].
  - rewrite (Hserved (GET_files "page.html")
               (boot None (redis_up ∅) (bucket_up {[ "page.html" := "<html></html>" ]}))).
    + vm_compute. reflexivity.
    + vm_compute. reflexivity.
  - apply Hpdf. vm_compute. reflexivity.
  - apply Hhtml. vm_compute. reflexivity.
  - apply Hunknown; vm_compute; reflexivity.
  - apply (Habsent (builtinMime ascii_ToLower) "README"); vm_compute; reflexivity.
Defined.

(** The claim as first stated fails on a process whose tables hold a type
    for [.bin], as the MIME files of a host register it: the extension is
    known and the header is [application/octet-stream] all the same. *)
Lemma octet_stream_for_a_registered_extension :
  let db := setExtensionType ".bin" "application/octet-stream"
              (builtinMime ascii_ToLower) in
  let st := mkState None (mkR2Client "files") (redis_up ∅)
              (bucket_up {[ "firmware.bin" := "image" ]}) db false
              newRecorder [] [] [] in
  let st' := serve getFileHandler (GET_files "firmware.bin") st in
  statusCode (w st') = Some StatusOK /\
  filepath_Ext "firmware.bin" = ".bin" /\
  mimeTypes db !! ".bin" = Some "application/octet-stream" /\
  header (w st') !! "Content-Type" = Some "application/octet-stream" /\
  ~ (header (w st') !! "Content-Type" = Some "application/octet-stream" <->
     filepath_Ext "firmware.bin" = "" \/
     mime_TypeByExtension db (filepath_Ext "firmware.bin") = "").
Proof.
  cbn zeta.
  split; [vm_compute; reflexivity|]. split; [reflexivity|].
  split; [vm_compute; reflexivity|]. split; [vm_compute; reflexivity|].
  intros [H _].
  assert (header
            (w (serve getFileHandler (GET_files "firmware.bin")
                  (mkState None (mkR2Client "files") (redis_up ∅)
                     (bucket_up {[ "firmware.bin" := "image" ]})
                     (setExtensionType ".bin" "application/octet-stream"
                        (builtinMime ascii_ToLower))
                     false newRecorder [] [] []))) !! "Content-Type"
          = Some "application/octet-stream") as Hh by (vm_compute; reflexivity).
  destruct (H Hh) as [He|Ht]; vm_compute in He || vm_compute in Ht; discriminate.
Qed.

(** C10. Whenever [HeadObject] returns an error, whichever it is,
    [ObjectExists] returns [(false, nil)]: the error is dropped, and the
    answer is the one given for an object that is not there. *)
Theorem ObjectExists_swallows_every_error (cl : R2Client) (key : string)
    (st : State) (e : error) :
  (s3_client_HeadObject (bucketName cl) key st).1 = Some e ->
  (R2Client_ObjectExists cl key st).1 = (false, None).
Proof.
  intros H. unfold R2Client_ObjectExists. unfold mbind, M_bind.
  destruct (s3_client_HeadObject (bucketName cl) key st) as [err st1].
  cbn in H. by rewrite H.
Qed.

(** The object is in the bucket, the call is refused: the answer is still
    "does not exist", without an error. *)
Lemma ObjectExists_swallows_every_error_witness :
  let denied := errorString "api error AccessDenied: Access Denied" in
  let st := boot None (redis_up ∅)
              (mkS3Bucket {[ "report.pdf" := "%PDF" ]} None None (Some denied) None) in
  objects (s3 st) !! "report.pdf" = Some "%PDF" /\
  (R2Client_ObjectExists (fileStorage st) "report.pdf" st).1 = (false, None).
Proof.
  cbn zeta. split; [vm_compute; reflexivity|].
  apply (ObjectExists_swallows_every_error _ _ _
           (errorString "api error AccessDenied: Access Denied")).
  vm_compute. reflexivity.
Defined.

(** Without an error the answer follows the bucket. *)
Lemma ObjectExists_present cl key st data :
  s3_HeadObjectError (s3 st) = None ->
  objects (s3 st) !! key = Some data ->
  (R2Client_ObjectExists cl key st).1 = (true, None).
Proof.
  intros Hh Ho. unfold R2Client_ObjectExists, s3_client_HeadObject. unfold_M. cbn.
  rewrite Hh. cbn. by rewrite Ho.
Qed.

(** The earlier [healthHandler] consults no backend: it always answers
    [200]. *)
Lemma healthHandler_static_run r st :
  let st' := serve healthHandler_static r st in
  statusCode (w st') = Some StatusOK /\ calls st' = calls st.
Proof. done. Qed.

(** C5. The probing [healthHandler] answers [503] with [success = false]
    and [status = "unhealthy"] exactly when the origin probe fails, and [200]
    with [success = true] and [status = "healthy"] otherwise, whatever the
    cache probe says.  The [redis] field is ["disabled"] without a cache,
    ["healthy"] when the ping succeeds and ["unhealthy: <error>"] when it
    fails. *)
Theorem health_follows_origin_only (r : Request) (st : State) :
  let st' := serve healthHandler r st in
  let origin := s3_HealthCheckError (s3 st) in
  exists health : gmap string string,
    body (w st') =
      [JSONLine (mkResponse (bool_decide (origin = None))
                   (if origin is Some _ then "Service is unhealthy"
                    else "Service is healthy")
                   (Some health))] /\
    statusCode (w st') =
      Some (if origin is Some _ then StatusServiceUnavailable else StatusOK) /\
    (statusCode (w st') = Some StatusServiceUnavailable <-> origin <> None) /\
    health !! "status" = Some (if origin is Some _ then "unhealthy" else "healthy") /\
    health !! "redis" =
      Some (match fileCache st with
            | None => "disabled"
            | Some _ =>
                match redis_PingError (redis st) with
                | None => "healthy"
                | Some e => "unhealthy: " ++ Error e
                end
            end) /\
    health !! "r2" =
      Some (match origin with
            | Some e => "unhealthy: " ++ Error e
            | None => "healthy"
            end).
Proof.
  cbn zeta. unfold serve, exec, healthHandler, RedisCache_Ping, R2Client_HealthCheck.
  unfold writeJSON, json_Encode. unfold_M. cbn.
  destruct (fileCache st) as [c|]; cbn;
    [destruct (redis_PingError (redis st)) as [pe|]; cbn|];
    destruct (s3_HealthCheckError (s3 st)) as [oe|]; cbn;
    eexists; (split; [reflexivity|]); (split; [reflexivity|]);
    (split; [first [ split; [done|intros _; reflexivity]
                   | split; [done|by intros []] ] |]);
    repeat split.
Qed.

(** ** Requests that fetch from the origin *)

Lemma run_all_frame ts st : same_request_view st (run_all ts st).
Proof.
  revert st. induction ts as [|t ts IH]; intros st; cbn.
  - apply same_request_view_refl.
  - destruct (run_task_frame t st) as (H1 & H2 & H3 & H4 & H5 & H6).
    destruct (IH (exec (run_task t) st)) as (G1 & G2 & G3 & G4 & G5 & G6).
    repeat split; congruence.
Qed.

Lemma drain_w st : w (drain st) = w st.
Proof.
  unfold drain. by destruct (run_all_frame (goroutines st) (set_goroutines [] st)) as (-> & _).
Qed.

(** The state a request leaves when its origin fetch succeeds. *)
Lemma served_fetched r st data :
  PathValue r "name" <> "" ->
  no_cache_hit st (PathValue r "name") ->
  (R2Client_GetObject (fileStorage st) (PathValue r "name") st).1 = (data, None) ->
  exists st1,
    serve getFileHandler r st =
      set_w (fileResponse (mime st) (PathValue r "name") data newRecorder)
        (match fileCache st with
         | Some _ =>
             if eager st
             then exec (run_task (populateCache (PathValue r "name") data)) st1
             else set_goroutines
                    (goroutines st ++ [populateCache (PathValue r "name") data]) st1
         | None => st1
         end) /\
    same_request_view (set_w newRecorder st) st1 /\ redis st1 = redis st /\
    goroutines st1 = goroutines st /\
    (exists lines, logs st1 = (logs st ++ lines)%list) /\
    calls st1 = (calls st ++ match fileCache st with
                             | Some _ => [CacheGet (PathValue r "name")]
                             | None => []
                             end ++ [StorageGet (PathValue r "name")])%list.
Proof.
  intros Hne Hno HG. unfold serve.
  assert (no_cache_hit (set_w newRecorder st) (PathValue r "name")) as Hno'
    by (by apply (no_cache_hit_view st)).
  destruct (getFileHandler_uncached r _ Hne Hno')
    as (st0 & lines & -> & (Hw & Hb & Hm & Hc & Hf & He) & Hr & Hgo & Hl & Hcalls).
  cbn in Hw, Hb, Hm, Hc, Hf, He, Hr, Hgo, Hl, Hcalls.
  assert ((R2Client_GetObject (fileStorage st0) (PathValue r "name") st0).1
          = (data, None)) as Hans
    by (rewrite Hf, <- HG; by apply R2Client_GetObject_answer).
  rewrite (fetchFromOrigin_fetched _ _ _ _ Hans). cbn zeta.
  destruct (spawn_view (PathValue r "name") data st0) as [-> ->].
  rewrite Hm, Hw.
  exists (called (StorageGet (PathValue r "name")) st0). split.
  - rewrite Hc. destruct (fileCache st); [|done].
    unfold exec at 1. rewrite go_run. cbn [snd eager called set_calls goroutines].
    by rewrite He, Hgo.
  - cbn. rewrite Hcalls, <- app_assoc. repeat split; try done. by exists lines.
Qed.

(** C9. When the origin fetch succeeds the client gets [200] with the
    fetched bytes: the response is the same for every outcome of the
    population write and for either scheduling of the goroutine, running the
    pending goroutine afterwards leaves it untouched, a goroutine left for
    later is still pending when the handler returns, and a failed write
    leaves the keyspace as it was and one line in the log. *)
Theorem population_never_alters_response (r : Request) (st : State) (data : bytes) :
  PathValue r "name" <> "" ->
  no_cache_hit st (PathValue r "name") ->
  (R2Client_GetObject (fileStorage st) (PathValue r "name") st).1 = (data, None) ->
  let key := PathValue r "name" in
  let st' := serve getFileHandler r st in
  statusCode (w st') = Some StatusOK /\
  body (w st') = [RawBytes data] /\
  w (drain st') = w st' /\
  (forall (se : option error) (eg : bool),
     w (serve getFileHandler r (with_population se eg st)) = w st') /\
  (forall c, fileCache st = Some c -> eager st = false ->
     goroutines st' = (goroutines st ++ [populateCache key data])%list) /\
  (forall c e, fileCache st = Some c -> redis_SetError (redis st) = Some e ->
     goroutines st = [] ->
     keyspace (redis (drain st')) = keyspace (redis st) /\
     ("Failed to cache file " ++ key ++ ": "
        ++ Error (fmt_Errorf_w "redis set error: " e)) ∈ logs (drain st')).
Proof.
  intros Hne Hno HG. cbn zeta.
  pose proof (served_uncached_w r st Hne Hno) as Hw. rewrite HG in Hw.
  destruct (fileResponse_fresh (mime st) (PathValue r "name") data) as (F1 & F2 & _).
  split; [by rewrite Hw|]. split; [by rewrite Hw|]. split; [apply drain_w|].
  split; [|split].
  - intros se eg. rewrite Hw.
    rewrite (served_uncached_w r (with_population se eg st) Hne).
    + cbn [fileStorage with_population mime].
      rewrite <- (R2Client_GetObject_answer (fileStorage st) _ st
                    (with_population se eg st) eq_refl).
      by rewrite HG.
    + intros c Hc. cbn in Hc.
      destruct (redis_GetError (redis st)) as [ge|] eqn:Hg.
      * by rewrite (RedisCache_Get_failed c _ (with_population se eg st) ge Hg).
      * destruct (keyspace (redis st) !! PathValue r "name") as [[d x]|] eqn:Hk.
        -- specialize (Hno c Hc).
           by rewrite (RedisCache_Get_found _ _ _ _ _ Hg Hk) in Hno.
        -- by rewrite (RedisCache_Get_absent c _ (with_population se eg st) Hg Hk).
  - intros c Hc He.
    destruct (served_fetched r st data Hne Hno HG) as (st1 & -> & _ & _ & Hgo & _).
    by rewrite Hc, He.
  - intros c e Hc Hs Hgs.
    destruct (served_fetched r st data Hne Hno HG)
      as (st1 & -> & (_ & _ & _ & Hc1 & _) & Hr1 & Hgo1 & _ & _).
    cbn in Hc1. rewrite Hc, Hgs.
    assert (fileCache (called (CacheSet (PathValue r "name") data) st1) = Some c) as _
      by (cbn; congruence).
    destruct (eager st).
    + unfold exec. rewrite run_task_run, Hc1, Hc, Hr1, Hs.
      unfold drain. cbn. rewrite Hgo1, Hgs. cbn. rewrite Hr1.
      split; [done|]. apply elem_of_app. right. by apply list_elem_of_singleton.
    + unfold drain. cbn. unfold exec. rewrite run_task_run. cbn.
      rewrite Hc1, Hc, Hr1, Hs. cbn. rewrite Hr1.
      split; [done|]. apply elem_of_app. right. by apply list_elem_of_singleton.
Qed.

(** The cache refuses the write; the client still gets the file. *)
Lemma population_never_alters_response_witness :
  let st := boot (Some (mkRedisCache hour))
              (mkRedisServer ∅ None (Some (errorString "connection refused")) None)
              (bucket_up {[ "test.txt" := "file content" ]}) in
  let st' := serve getFileHandler (GET_files "test.txt") st in
  statusCode (w st') = Some 200 /\
  body (w st') = [RawBytes "file content"] /\
  w (drain st') = w st' /\
  keyspace (redis (drain st')) = ∅.
Proof.
  cbn zeta.
  destruct (population_never_alters_response (GET_files "test.txt")
              (boot (Some (mkRedisCache hour))
                 (mkRedisServer ∅ None (Some (errorString "connection refused")) None)
                 (bucket_up {[ "test.txt" := "file content" ]}))
              "file content")
    as (H1 & H2 & H3 & _ & _ & H6).
  - vm_compute. discriminate.
  - intros c Hc. vm_compute. reflexivity.
  - vm_compute. reflexivity.
  - split; [exact H1|]. split; [exact H2|]. split; [exact H3|].
    exact (proj1 (H6 (mkRedisCache hour) (errorString "connection refused")
                    eq_refl eq_refl eq_refl)).
Defined.

(** ** Cache faults *)

Lemma explicit_miss_no_hit key st : no_cache_hit (explicit_miss key st) key.
Proof.
  intros c _. rewrite (RedisCache_Get_absent c key (explicit_miss key st)); [done..|].
  cbn. apply lookup_delete_eq.
Qed.

Lemma getFileHandler_cache_failed r st c e :
  PathValue r "name" <> "" ->
  fileCache st = Some c ->
  redis_GetError (redis st) = Some e ->
  e <> redis_Nil ->
  exec (getFileHandler r) st =
    exec (fetchFromOrigin r (PathValue r "name"))
      (logged ("Cache MISS for file: " ++ PathValue r "name")
         (logged ("Cache error for " ++ PathValue r "name" ++ ": "
                    ++ Error (fmt_Errorf_w "redis get error: " e))
            (called (CacheGet (PathValue r "name")) st))).
Proof.
  intros Hne Hc Hg Hnil. unfold exec at 1. unfold getFileHandler.
  destruct (decide _) as [|_]; [done|].
  unfold mbind at 1, M_bind at 1, gets at 1. rewrite Hc.
  unfold mbind at 1, M_bind at 1. rewrite (RedisCache_Get_failed _ _ _ _ Hg).
  by destruct (decide (e = redis_Nil)).
Qed.

(** The origin path keeps the log and the calls it finds, and starts with
    the fetch. *)
Lemma fetchFromOrigin_trace r filename st :
  (exists more, logs (exec (fetchFromOrigin r filename) st) = (logs st ++ more)%list) /\
  (exists rest, calls (exec (fetchFromOrigin r filename) st)
                = (calls st ++ [StorageGet filename] ++ rest)%list).
Proof.
  destruct (R2Client_GetObject (fileStorage st) filename st).1 as [d [e|]] eqn:HG.
  - rewrite (fetchFromOrigin_failed _ _ _ _ _ HG). cbn zeta.
    destruct (errors_Is _ _); [|destruct (isNotFoundError _)];
      (split; [by eexists | by exists []]).
  - rewrite (fetchFromOrigin_fetched _ _ _ _ HG). cbn zeta.
    cbn [logs calls set_w].
    destruct (fileCache st) as [c|] eqn:Hc; [|split; [by exists []; rewrite app_nil_r | by exists []]].
    unfold exec. rewrite go_run. cbn [snd eager called set_calls].
    destruct (eager st); [|split; [by exists []; rewrite app_nil_r | by exists []]].
    unfold exec. rewrite run_task_run. cbn [snd fileCache called set_calls redis].
    rewrite Hc.
    destruct (redis_SetError (redis st)); cbn;
      (split; [by eexists | rewrite <- app_assoc; by eexists [_]]).
Qed.

(** C3. A cache lookup that fails with anything but [redis.Nil] is logged
    and then handled as a miss: the origin is fetched next, the response is
    the one the same request gets on an explicit miss, and it is [200] with
    the origin's bytes whenever the origin returns them. *)
Theorem cache_error_falls_back_to_origin (r : Request) (st : State)
    (c : RedisCache) (e : error) :
  PathValue r "name" <> "" ->
  fileCache st = Some c ->
  redis_GetError (redis st) = Some e ->
  e <> redis_Nil ->
  let key := PathValue r "name" in
  let st' := serve getFileHandler r st in
  ("Cache error for " ++ key ++ ": " ++ Error (fmt_Errorf_w "redis get error: " e))
    ∈ logs st' /\
  (exists rest, calls st' = (calls st ++ [CacheGet key; StorageGet key] ++ rest)%list) /\
  w st' = w (serve getFileHandler r (explicit_miss key st)) /\
  (forall data,
     (R2Client_GetObject (fileStorage st) key st).1 = (data, None) ->
     statusCode (w st') = Some StatusOK /\ body (w st') = [RawBytes data]).
Proof.
  intros Hne Hc Hg Hnil. cbn zeta.
  assert (no_cache_hit st (PathValue r "name")) as Hno
    by (intros c' _; by rewrite (RedisCache_Get_failed _ _ _ _ Hg)).
  split; [|split; [|split]].
  - unfold serve.
    rewrite (getFileHandler_cache_failed r (set_w newRecorder st) c e Hne Hc Hg Hnil).
    destruct (fetchFromOrigin_trace r (PathValue r "name")
                (logged ("Cache MISS for file: " ++ PathValue r "name")
                   (logged ("Cache error for " ++ PathValue r "name" ++ ": "
                              ++ Error (fmt_Errorf_w "redis get error: " e))
                      (called (CacheGet (PathValue r "name")) (set_w newRecorder st)))))
      as [[more ->] _].
    cbn [logs logged set_logs called set_calls set_w].
    apply elem_of_app. left. apply elem_of_app. left. apply elem_of_app. right.
    by apply list_elem_of_singleton.
  - unfold serve.
    rewrite (getFileHandler_cache_failed r (set_w newRecorder st) c e Hne Hc Hg Hnil).
    destruct (fetchFromOrigin_trace r (PathValue r "name")
                (logged ("Cache MISS for file: " ++ PathValue r "name")
                   (logged ("Cache error for " ++ PathValue r "name" ++ ": "
                              ++ Error (fmt_Errorf_w "redis get error: " e))
                      (called (CacheGet (PathValue r "name")) (set_w newRecorder st)))))
      as [_ [rest ->]].
    cbn [calls logged set_logs called set_calls set_w].
    exists rest. by rewrite <- app_assoc.
  - rewrite (served_uncached_w r st Hne Hno).
    rewrite (served_uncached_w r _ Hne (explicit_miss_no_hit (PathValue r "name") st)).
    cbn [fileStorage mime explicit_miss set_redis].
    by rewrite <- (R2Client_GetObject_answer (fileStorage st) (PathValue r "name") st
                     (explicit_miss (PathValue r "name") st) eq_refl).
  - intros data HG. rewrite (served_uncached_w r st Hne Hno), HG.
    by destruct (fileResponse_fresh (mime st) (PathValue r "name") data) as (F1 & F2 & _).
Qed.

Lemma cache_error_falls_back_to_origin_witness :
  let down := errorString "dial tcp: connection refused" in
  let st := boot (Some (mkRedisCache hour))
              (mkRedisServer {[ "test.txt" := ("stale", hour) ]} (Some down) None None)
              (bucket_up {[ "test.txt" := "storage file content" ]}) in
  let st' := serve getFileHandler (GET_files "test.txt") st in
  statusCode (w st') = Some 200 /\ body (w st') = [RawBytes "storage file content"].
Proof.
  cbn zeta.
  destruct (cache_error_falls_back_to_origin (GET_files "test.txt")
              (boot (Some (mkRedisCache hour))
                 (mkRedisServer {[ "test.txt" := ("stale", hour) ]}
                    (Some (errorString "dial tcp: connection refused")) None None)
                 (bucket_up {[ "test.txt" := "storage file content" ]}))
              (mkRedisCache hour) (errorString "dial tcp: connection refused"))
    as (_ & _ & _ & H4).
  - vm_compute. discriminate.
  - reflexivity.
  - reflexivity.
  - discriminate.
  - apply (H4 "storage file content"). vm_compute. reflexivity.
Defined.

(** ** Round trip through the cache *)

(** After a fetched request and the population it started, the cache holds
    the fetched bytes, provided the write is accepted and nothing else was
    in flight. *)
Lemma populated_after_drain r st c data :
  PathValue r "name" <> "" ->
  no_cache_hit st (PathValue r "name") ->
  (R2Client_GetObject (fileStorage st) (PathValue r "name") st).1 = (data, None) ->
  fileCache st = Some c ->
  goroutines st = [] ->
  redis_SetError (redis st) = None ->
  let st2 := drain (serve getFileHandler r st) in
  fileCache st2 = Some c /\
  redis_GetError (redis st2) = redis_GetError (redis st) /\
  keyspace (redis st2) = <[PathValue r "name" := (data, ttl c)]> (keyspace (redis st)).
Proof.
  intros Hne Hno HG Hc Hgs Hs. cbn zeta.
  destruct (served_fetched r st data Hne Hno HG)
    as (st1 & -> & (_ & _ & _ & Hc1 & _) & Hr1 & Hgo1 & _ & _).
  cbn in Hc1. rewrite Hc, Hgs. unfold drain.
  destruct (eager st).
  - unfold exec. rewrite run_task_run, Hc1, Hc, Hr1, Hs.
    cbn. rewrite Hgo1, Hgs. cbn. by rewrite Hc1, Hr1.
  - cbn. unfold exec. rewrite run_task_run. cbn. rewrite Hc1, Hc, Hr1, Hs.
    cbn. by rewrite Hc1, Hr1.
Qed.

(** C2. A non-empty key that the origin holds and the cache does not, with
    a cache that is configured and answers, and no other population in
    flight: the request is answered [200] with the origin's bytes, fetched
    from the origin; once the population has run, at the [go] statement or
    later, the cache holds the same bytes under the key, and the next request
    for it is answered [200] with the same bytes by the cache lookup
    alone. *)
Theorem origin_round_trip_through_cache (r : Request) (st : State)
    (c : RedisCache) (data : bytes) :
  PathValue r "name" <> "" ->
  fileCache st = Some c ->
  goroutines st = [] ->
  redis_GetError (redis st) = None ->
  redis_SetError (redis st) = None ->
  keyspace (redis st) !! PathValue r "name" = None ->
  s3_GetObjectError (s3 st) = None ->
  s3_BodyReadError (s3 st) = None ->
  objects (s3 st) !! PathValue r "name" = Some data ->
  let key := PathValue r "name" in
  let st1 := serve getFileHandler r st in
  let st2 := drain st1 in
  let st3 := serve getFileHandler r st2 in
  statusCode (w st1) = Some StatusOK /\
  body (w st1) = [RawBytes data] /\
  (exists rest, calls st1 = (calls st ++ [CacheGet key; StorageGet key] ++ rest)%list) /\
  keyspace (redis st2) !! key = Some (data, ttl c) /\
  statusCode (w st3) = Some StatusOK /\
  body (w st3) = [RawBytes data] /\
  calls st3 = (calls st2 ++ [CacheGet key])%list.
Proof.
  intros Hne Hc Hgs Hg Hs Hk Hog Hor Ho. cbn zeta.
  assert (no_cache_hit st (PathValue r "name")) as Hno
    by (intros c' _; by rewrite (RedisCache_Get_absent _ _ _ Hg Hk)).
  assert ((R2Client_GetObject (fileStorage st) (PathValue r "name") st).1
          = (data, None)) as HG
    by (by rewrite (R2Client_GetObject_ok _ _ _ _ Hog Hor Ho)).
  pose proof (served_uncached_w r st Hne Hno) as Hw. rewrite HG in Hw.
  destruct (fileResponse_fresh (mime st) (PathValue r "name") data) as (F1 & F2 & _).
  destruct (populated_after_drain r st c data Hne Hno HG Hc Hgs Hs) as (P1 & P2 & P3).
  assert (keyspace (redis (drain (serve getFileHandler r st))) !! PathValue r "name"
          = Some (data, ttl c)) as Hk2
    by (rewrite P3; apply lookup_insert_eq).
  rewrite Hg in P2.
  split; [by rewrite Hw|]. split; [by rewrite Hw|]. split.
  { destruct (served_fetched r st data Hne Hno HG)
      as (st1 & -> & _ & _ & _ & _ & Hcalls).
    rewrite Hc. rewrite Hc in Hcalls. cbn [calls set_w].
    destruct (eager st).
    - unfold exec. rewrite run_task_run. cbn [snd].
      destruct (fileCache st1) as [c1|]; [|exists []; by rewrite Hcalls].
      destruct (redis_SetError (redis st1)); cbn; rewrite Hcalls;
        eexists [_]; by rewrite <- !app_assoc.
    - cbn. exists []. by rewrite Hcalls. }
  split; [exact Hk2|].
  unfold serve at 1 3 5.
  rewrite (getFileHandler_cached r
             (set_w newRecorder (drain (serve getFileHandler r st)))
             c data (ttl c) Hne P1 P2 Hk2).
  cbn zeta. cbn [w set_w calls mime logged called set_logs set_calls].
  destruct (fileResponse_fresh (mime (drain (serve getFileHandler r st)))
              (PathValue r "name") data) as (G1 & G2 & _).
  by rewrite G1, G2.
Qed.

Lemma origin_round_trip_through_cache_witness :
  let st := boot (Some (mkRedisCache hour)) (redis_up ∅)
              (bucket_up {[ "test.txt" := "storage file content" ]}) in
  let st1 := serve getFileHandler (GET_files "test.txt") st in
  let st2 := drain st1 in
  let st3 := serve getFileHandler (GET_files "test.txt") st2 in
  body (w st1) = [RawBytes "storage file content"] /\
  keyspace (redis st2) !! "test.txt" = Some ("storage file content", hour) /\
  body (w st3) = [RawBytes "storage file content"] /\
  calls st3 = (calls st2 ++ [CacheGet "test.txt"])%list.
Proof.
  cbn zeta.
  destruct (origin_round_trip_through_cache (GET_files "test.txt")
              (boot (Some (mkRedisCache hour)) (redis_up ∅)
                 (bucket_up {[ "test.txt" := "storage file content" ]}))
              (mkRedisCache hour) "storage file content")
    as (_ & H2 & _ & H4 & _ & H6 & H7).
  - vm_compute. discriminate.
  - reflexivity.
  - reflexivity.
  - reflexivity.
  - reflexivity.
  - vm_compute. reflexivity.
  - reflexivity.
  - reflexivity.
  - vm_compute. reflexivity.
  - split; [exact H2|]. split; [exact H4|]. split; [exact H6|exact H7].
Defined.

(** * Further properties of the handlers *)

(** The state a request leaves when its origin fetch fails. *)
Lemma served_failed r st d e :
  PathValue r "name" <> "" ->
  no_cache_hit st (PathValue r "name") ->
  (R2Client_GetObject (fileStorage st) (PathValue r "name") st).1 = (d, Some e) ->
  exists st1 rw,
    serve getFileHandler r st = set_w rw st1 /\
    same_request_view (set_w newRecorder st) st1 /\ redis st1 = redis st /\
    goroutines st1 = goroutines st /\
    (exists lines, logs st1 = (logs st ++ lines)%list) /\
    calls st1 = (calls st ++ match fileCache st with
                             | Some _ => [CacheGet (PathValue r "name")]
                             | None => []
                             end ++ [StorageGet (PathValue r "name")])%list.
Proof.
  intros Hne Hno HG. unfold serve.
  assert (no_cache_hit (set_w newRecorder st) (PathValue r "name")) as Hno'
    by (by apply (no_cache_hit_view st)).
  destruct (getFileHandler_uncached r _ Hne Hno')
    as (st0 & lines & -> & (Hw & Hb & Hm & Hc & Hf & He) & Hr & Hgo & Hl & Hcalls).
  cbn in Hw, Hb, Hm, Hc, Hf, He, Hr, Hgo, Hl, Hcalls.
  assert ((R2Client_GetObject (fileStorage st0) (PathValue r "name") st0).1
          = (d, Some e)) as Hans
    by (rewrite Hf, <- HG; by apply R2Client_GetObject_answer).
  rewrite (fetchFromOrigin_failed _ _ _ _ _ Hans). cbn zeta.
  exists (logged ("R2 error for " ++ PathValue r "name" ++ ": " ++ Error e)
            (called (StorageGet (PathValue r "name")) st0)).
  destruct (errors_Is _ _); [|destruct (isNotFoundError _)];
    (eexists; split; [reflexivity|]; cbn; rewrite Hcalls, <- app_assoc;
     repeat split; try done; eexists; by rewrite Hl, <- app_assoc).
Qed.

(** X1. Whatever the request and the state of the backends,
    [getFileHandler] answers with one of five responses: [200] with one
    chunk of file bytes, or a JSON envelope with [success = false] and one of
    four fixed messages under [400], [504], [404] or [500].  The text of a
    backend error is never part of the response. *)
Theorem every_request_gets_one_of_five_answers (r : Request) (st : State) :
  let rw := w (serve getFileHandler r st) in
  (statusCode rw = Some StatusOK /\ exists data, body rw = [RawBytes data]) \/
  (exists status message,
     (status, message) ∈ [ (StatusBadRequest, "filename is required");
                           (StatusGatewayTimeout, "Request timeout");
                           (StatusNotFound, "File not found");
                           (StatusInternalServerError, "Failed to retrieve file") ] /\
     statusCode rw = Some status /\
     header rw !! "Content-Type" = Some "application/json" /\
     body rw = [JSONLine (mkResponse false message None)]).
Proof.
  cbn zeta.
  assert (forall status message,
    (status, message) ∈ [ (StatusBadRequest, "filename is required");
                          (StatusGatewayTimeout, "Request timeout");
                          (StatusNotFound, "File not found");
                          (StatusInternalServerError, "Failed to retrieve file") ] ->
    exists status' message',
      (status', message') ∈ [ (StatusBadRequest, "filename is required");
                              (StatusGatewayTimeout, "Request timeout");
                              (StatusNotFound, "File not found");
                              (StatusInternalServerError, "Failed to retrieve file") ] /\
      statusCode (jsonResponse status (mkResponse false message None) newRecorder)
        = Some status' /\
      header (jsonResponse status (mkResponse false message None) newRecorder)
        !! "Content-Type" = Some "application/json" /\
      body (jsonResponse status (mkResponse false message None) newRecorder)
        = [JSONLine (mkResponse false message' None)]) as Hjson.
  { intros status message Hin. exists status, message. split; [exact Hin|].
    apply jsonResponse_fresh. }
  destruct (decide (PathValue r "name" = "")) as [He|Hne].
  - right. unfold serve. rewrite (getFileHandler_empty _ _ He). cbn [w set_w].
    apply Hjson. set_solver.
  - destruct (cache_hit_or_not st (PathValue r "name"))
      as [(c & data & x & Hc & Hg & Hk)|Hno].
    + left. unfold serve.
      rewrite (getFileHandler_cached r (set_w newRecorder st) c data x Hne Hc Hg Hk).
      cbn zeta. cbn [w set_w mime].
      destruct (fileResponse_fresh (mime st) (PathValue r "name") data) as (F1 & F2 & _).
      split; [exact F1|]. by exists data.
    + rewrite (served_uncached_w r st Hne Hno).
      destruct (R2Client_GetObject _ _ _).1 as [d [e|]].
      * right. destruct (errors_Is _ _); [|destruct (isNotFoundError _)];
          apply Hjson; set_solver.
      * left.
        destruct (fileResponse_fresh (mime st) (PathValue r "name") d) as (F1 & F2 & _).
        split; [exact F1|]. by exists d.
Qed.

Lemma served_without_cache r st :
  PathValue r "name" <> "" ->
  fileCache st = None ->
  calls (serve getFileHandler r st)
    = (calls st ++ [StorageGet (PathValue r "name")])%list /\
  redis (serve getFileHandler r st) = redis st /\
  goroutines (serve getFileHandler r st) = goroutines st.
Proof.
  intros Hne Hc.
  assert (no_cache_hit st (PathValue r "name")) as Hno
    by (intros c' Hc'; congruence).
  destruct (R2Client_GetObject (fileStorage st) (PathValue r "name") st).1
    as [d [e|]] eqn:HG.
  - destruct (served_failed r st d e Hne Hno HG)
      as (st1 & rw & -> & _ & Hr & Hgo & _ & Hcalls).
    rewrite Hc in Hcalls. by cbn.
  - destruct (served_fetched r st d Hne Hno HG)
      as (st1 & -> & _ & Hr & Hgo & _ & Hcalls).
    rewrite Hc in Hcalls. rewrite Hc. by cbn.
Qed.

(** X2. With no cache configured the handler never touches Redis: the one
    backend call of a named request is the origin fetch, the keyspace stays
    as it was, no goroutine is started, and the answer is the one the
    origin's answer calls for. *)
Theorem disabled_cache_is_never_called (r : Request) (st : State) :
  PathValue r "name" <> "" ->
  fileCache st = None ->
  let st' := serve getFileHandler r st in
  calls st' = (calls st ++ [StorageGet (PathValue r "name")])%list /\
  redis st' = redis st /\
  goroutines st' = goroutines st /\
  (forall data,
     (R2Client_GetObject (fileStorage st) (PathValue r "name") st).1 = (data, None) ->
     statusCode (w st') = Some StatusOK /\ body (w st') = [RawBytes data]).
Proof.
  intros Hne Hc. cbn zeta.
  destruct (served_without_cache r st Hne Hc) as (H1 & H2 & H3).
  split; [exact H1|]. split; [exact H2|]. split; [exact H3|].
  intros data HG.
  assert (no_cache_hit st (PathValue r "name")) as Hno
    by (intros c' Hc'; congruence).
  rewrite (served_uncached_w r st Hne Hno), HG.
  by destruct (fileResponse_fresh (mime st) (PathValue r "name") data) as (F1 & F2 & _).
Qed.

Lemma disabled_cache_is_never_called_witness :
  let st := boot None (redis_up {[ "test.txt" := ("cached", hour) ]})
              (bucket_up {[ "test.txt" := "storage file content" ]}) in
  let st' := serve getFileHandler (GET_files "test.txt") st in
  calls st' = [StorageGet "test.txt"] /\ body (w st') = [RawBytes "storage file content"].
Proof.
  cbn zeta. split; [|vm_compute; reflexivity].
  refine (proj1 (disabled_cache_is_never_called (GET_files "test.txt")
                   (boot None (redis_up {[ "test.txt" := ("cached", hour) ]})
                      (bucket_up {[ "test.txt" := "storage file content" ]})) _ _)).
  - vm_compute. discriminate.
  - reflexivity.
Defined.

(** X3. A request that is not answered [200] changes nothing in the
    cache: the Redis state is the one before the request and no goroutine has
    been started. *)
Theorem failed_request_never_populates (r : Request) (st : State) :
  let st' := serve getFileHandler r st in
  statusCode (w st') <> Some StatusOK ->
  redis st' = redis st /\ goroutines st' = goroutines st.
Proof.
  cbn zeta. intros Hst.
  destruct (decide (PathValue r "name" = "")) as [He|Hne].
  - unfold serve. by rewrite (getFileHandler_empty _ _ He).
  - destruct (cache_hit_or_not st (PathValue r "name"))
      as [(c & data & x & Hc & Hg & Hk)|Hno].
    + unfold serve.
      by rewrite (getFileHandler_cached r (set_w newRecorder st) c data x Hne Hc Hg Hk).
    + destruct (R2Client_GetObject (fileStorage st) (PathValue r "name") st).1
        as [d [e|]] eqn:HG.
      * by destruct (served_failed r st d e Hne Hno HG)
          as (st1 & rw & -> & _ & Hr & Hgo & _).
      * exfalso. apply Hst. rewrite (served_uncached_w r st Hne Hno), HG.
        by destruct (fileResponse_fresh (mime st) (PathValue r "name") d) as (F1 & _).
Qed.

Lemma failed_request_never_populates_witness :
  let st := boot (Some (mkRedisCache hour)) (redis_up ∅)
              (mkS3Bucket {[ "test.txt" := "storage file content" ]} None
                 (Some (errorString "unexpected EOF")) None None) in
  let st' := serve getFileHandler (GET_files "test.txt") st in
  statusCode (w st') = Some 500 /\ redis st' = redis st /\ goroutines st' = [].
Proof.
  cbn zeta. split; [vm_compute; reflexivity|].
  apply (failed_request_never_populates (GET_files "test.txt")
           (boot (Some (mkRedisCache hour)) (redis_up ∅)
              (mkS3Bucket {[ "test.txt" := "storage file content" ]} None
                 (Some (errorString "unexpected EOF")) None None))).
  vm_compute. discriminate.
Defined.

(** X4. The backend calls of one request come in a fixed order: at most
    one cache lookup (only with a cache configured), then at most one origin
    fetch, then at most one cache write.  A cache write, done at once or
    left to a pending goroutine, only follows an origin fetch and carries
    the very bytes sent to the client.  No other backend call is made. *)
Theorem backend_calls_in_order (r : Request) (st : State) :
  let key := PathValue r "name" in
  let st' := serve getFileHandler r st in
  exists lookup fetch store,
    calls st' = (calls st ++ lookup ++ fetch ++ store)%list /\
    (lookup = [] \/ (lookup = [CacheGet key] /\ fileCache st <> None)) /\
    (fetch = [] \/ fetch = [StorageGet key]) /\
    (store = [] \/
     exists data, store = [CacheSet key data] /\ fetch = [StorageGet key] /\
                  body (w st') = [RawBytes data]) /\
    (goroutines st' = goroutines st \/
     exists data, goroutines st' = (goroutines st ++ [populateCache key data])%list /\
                  fetch = [StorageGet key] /\ store = [] /\
                  body (w st') = [RawBytes data]).
Proof.
  cbn zeta.
  destruct (decide (PathValue r "name" = "")) as [He|Hne].
  { exists [], [], []. unfold serve. rewrite (getFileHandler_empty _ _ He). cbn.
    rewrite app_nil_r. repeat split; by left. }
  destruct (cache_hit_or_not st (PathValue r "name"))
    as [(c & data & x & Hc & Hg & Hk)|Hno].
  { exists [CacheGet (PathValue r "name")], [], []. unfold serve.
    rewrite (getFileHandler_cached r (set_w newRecorder st) c data x Hne Hc Hg Hk).
    cbn. split; [done|]. split; [right; split; [done|congruence]|].
    repeat split; by left. }
  assert (forall (pre : list call),
            (pre = match fileCache st with
                   | Some _ => [CacheGet (PathValue r "name")]
                   | None => []
                   end) ->
            pre = [] \/ (pre = [CacheGet (PathValue r "name")] /\ fileCache st <> None))
    as Hpre.
  { intros pre ->. destruct (fileCache st); [right|by left]. split; [done|congruence]. }
  destruct (R2Client_GetObject (fileStorage st) (PathValue r "name") st).1
    as [d [e|]] eqn:HG.
  - destruct (served_failed r st d e Hne Hno HG)
      as (st1 & rw & -> & _ & Hr & Hgo & _ & Hcalls).
    eexists _, [StorageGet (PathValue r "name")], []. cbn.
    split; [exact Hcalls|].
    split; [by apply Hpre|]. split; [by right|]. split; by left.
  - destruct (fileResponse_fresh (mime st) (PathValue r "name") d) as (_ & F2 & _).
    destruct (served_fetched r st d Hne Hno HG)
      as (st1 & -> & (_ & _ & _ & Hc1 & _) & Hr & Hgo & _ & Hcalls).
    cbn in Hc1. cbn [w set_w calls goroutines].
    destruct (fileCache st) as [c|] eqn:Hc.
    + destruct (eager st).
      * unfold exec. rewrite run_task_run, Hc1. cbn [snd].
        destruct (redis_SetError (redis st1)); cbn [calls goroutines logged set_logs
          stored set_redis called set_calls]; rewrite Hcalls, <- !app_assoc;
          (eexists [CacheGet _], [StorageGet _], [CacheSet _ _];
           split; [reflexivity|]; split; [right; by split|]; split; [by right|];
           split; [right; by exists d|by left]).
      * cbn [calls goroutines set_goroutines]. rewrite Hcalls.
        eexists [CacheGet _], [StorageGet _], []. rewrite app_nil_r.
        split; [reflexivity|]. split; [right; by split|]. split; [by right|].
        split; [by left|]. right. by exists d.
    + rewrite Hcalls. eexists [], [StorageGet _], []. cbn.
      split; [reflexivity|]. split; [by left|]. split; [by right|].
      split; by left.
Qed.

(** ** Invariants of a run *)

Lemma same_setup_refl st : same_setup st st.
Proof. by repeat split. Qed.

Lemma same_setup_trans st1 st2 st3 :
  same_setup st1 st2 -> same_setup st2 st3 -> same_setup st1 st3.
Proof.
  intros (A1 & A2 & A3 & A4 & A5) (B1 & B2 & B3 & B4 & B5).
  repeat split; congruence.
Qed.

Lemma same_setup_set_w st st' rw : same_setup st st' -> same_setup st (set_w rw st').
Proof. by intros (A1 & A2 & A3 & A4 & A5). Qed.

Lemma same_setup_set_goroutines st st' ts :
  same_setup st st' -> same_setup st (set_goroutines ts st').
Proof. by intros (A1 & A2 & A3 & A4 & A5). Qed.

Lemma same_request_view_setup st st' : same_request_view st st' -> same_setup st st'.
Proof. intros (_ & H2 & H3 & H4 & H5 & H6). by repeat split. Qed.

(** A successful [GetObject] returns the bucket's object. *)
Lemma R2Client_GetObject_fetched_object cl key st data :
  (R2Client_GetObject cl key st).1 = (data, None) ->
  objects (s3 st) !! key = Some data.
Proof.
  unfold R2Client_GetObject, s3_client_GetObject, io_ReadAll. unfold_M. cbn.
  destruct (s3_GetObjectError (s3 st)); cbn; [done|].
  destruct (objects (s3 st) !! key); cbn; [|done].
  destruct (s3_BodyReadError (s3 st)); cbn; [done|]. by intros [= ->].
Qed.

(** The four ways a file request can go, with what each leaves behind. *)
Lemma getFileHandler_outcome r st :
  let key := PathValue r "name" in
  let st' := serve getFileHandler r st in
  same_setup st st' /\
  ((redis st' = redis st /\ goroutines st' = goroutines st /\
    (statusCode (w st') = Some StatusOK ->
     exists data x, body (w st') = [RawBytes data] /\
                    keyspace (redis st) !! key = Some (data, x)))
   \/
   (exists data,
      objects (s3 st) !! key = Some data /\
      statusCode (w st') = Some StatusOK /\ body (w st') = [RawBytes data] /\
      ((redis st' = redis st /\
        (goroutines st' = goroutines st \/
         goroutines st' = (goroutines st ++ [populateCache key data])%list))
       \/
       (exists c, fileCache st = Some c /\
                  redis st' = redis (stored key data (ttl c) st) /\
                  goroutines st' = goroutines st)))).
Proof.
  cbn zeta.
  destruct (decide (PathValue r "name" = "")) as [He|Hne].
  { unfold serve. rewrite (getFileHandler_empty _ _ He). cbn.
    split; [by repeat split|]. left. by repeat split. }
  destruct (cache_hit_or_not st (PathValue r "name"))
    as [(c & data & x & Hc & Hg & Hk)|Hno].
  { unfold serve.
    rewrite (getFileHandler_cached r (set_w newRecorder st) c data x Hne Hc Hg Hk).
    cbn zeta. cbn [w set_w mime redis goroutines logged called set_logs set_calls].
    split; [by repeat split|]. left. split; [done|]. split; [done|]. intros _.
    exists data, x.
    by destruct (fileResponse_fresh (mime st) (PathValue r "name") data) as (_ & F2 & _). }
  destruct (R2Client_GetObject (fileStorage st) (PathValue r "name") st).1
    as [d [e|]] eqn:HG.
  - pose proof (served_uncached_w r st Hne Hno) as Hw. rewrite HG in Hw.
    destruct (served_failed r st d e Hne Hno HG)
      as (st1 & rw & Hst & Hview & Hr & Hgo & _ & _).
    rewrite Hst in Hw |- *. cbn [w set_w] in Hw. cbn [w set_w redis goroutines].
    split.
    + destruct Hview as (_ & H2 & H3 & H4 & H5 & H6). by repeat split.
    + left. split; [done|]. split; [done|]. rewrite Hw.
      destruct (errors_Is _ _); [done|]. by destruct (isNotFoundError _).
  - pose proof (R2Client_GetObject_fetched_object _ _ _ _ HG) as Hobj.
    destruct (fileResponse_fresh (mime st) (PathValue r "name") d) as (F1 & F2 & _).
    destruct (served_fetched r st d Hne Hno HG)
      as (st1 & -> & Hview & Hr & Hgo & _ & _).
    pose proof Hview as (_ & H2 & H3 & H4 & H5 & H6).
    cbn in H2, H3, H4, H5, H6. cbn [w set_w redis goroutines].
    assert (same_setup st st1) as Hsetup by (by repeat split).
    destruct (fileCache st) as [c|] eqn:Hc.
    + destruct (eager st) eqn:Heg.
      * split.
        { apply same_setup_set_w, (same_setup_trans _ st1); [done|].
          apply same_request_view_setup, run_task_frame. }
        right. exists d. split; [done|]. split; [done|]. split; [done|].
        unfold exec. rewrite run_task_run, H4. cbn [snd].
        destruct (redis_SetError (redis st1)) as [se|] eqn:Hs.
        -- left. cbn. split; [done|]. by left.
        -- right. exists c. split; [done|]. cbn. by rewrite Hr, Hgo.
      * split; [by apply same_setup_set_w, same_setup_set_goroutines|].
        right. exists d. split; [done|]. split; [done|]. split; [done|].
        left. cbn. split; [done|]. by right.
    + split; [by apply same_setup_set_w|].
      right. exists d. split; [done|]. split; [done|]. split; [done|].
      left. split; [done|]. by left.
Qed.

Lemma healthHandler_frame r st :
  let st' := serve healthHandler r st in
  same_setup st st' /\ redis st' = redis st /\ goroutines st' = goroutines st.
Proof.
  cbn zeta. unfold serve, exec, healthHandler, RedisCache_Ping, R2Client_HealthCheck.
  unfold writeJSON, json_Encode. unfold_M. cbn.
  destruct (fileCache st) as [c|] eqn:Hc; cbn;
    [destruct (redis_PingError (redis st)) as [pe|]; cbn|];
    destruct (s3_HealthCheckError (s3 st)) as [oe|]; cbn;
    by repeat split.
Qed.

Lemma run_task_outcome filename data st :
  let st' := exec (run_task (populateCache filename data)) st in
  same_setup st st' /\ goroutines st' = goroutines st /\
  (redis st' = redis st \/
   exists c, fileCache st = Some c /\ redis st' = redis (stored filename data (ttl c) st)).
Proof.
  cbn zeta. split; [apply same_request_view_setup, run_task_frame|].
  unfold exec. rewrite run_task_run. cbn [snd].
  destruct (fileCache st) as [c|]; [|split; [done|by left]].
  destruct (redis_SetError (redis st)); cbn; (split; [done|]); [by left|].
  right. by exists c.
Qed.

Lemma stored_keeps_agreement filename data expiration st st' :
  s3 st' = s3 st ->
  redis st' = redis (stored filename data expiration st) ->
  objects (s3 st) !! filename = Some data ->
  keyspace_agrees_with_origin st -> keyspace_agrees_with_origin st'.
Proof.
  intros Hb Hr Hobj Hagree key d x. rewrite Hr, Hb. cbn.
  destruct (decide (filename = key)) as [<-|Hne].
  - rewrite lookup_insert_eq. by intros [= <- <-].
  - rewrite lookup_insert_ne by done. apply Hagree.
Qed.

Lemma run_all_outcome ts st :
  same_setup st (run_all ts st) /\
  goroutines (run_all ts st) = goroutines st /\
  (tasks_agree_with_origin ts st -> keyspace_agrees_with_origin st ->
   keyspace_agrees_with_origin (run_all ts st)).
Proof.
  revert st. induction ts as [|[filename data] ts IH]; intros st; cbn [run_all].
  - split; [apply same_setup_refl|]. by split.
  - destruct (run_task_outcome filename data st) as (S1 & G1 & R1).
    destruct (IH (exec (run_task (populateCache filename data)) st)) as (S2 & G2 & K2).
    split; [by apply (same_setup_trans _ _ _ S1)|]. split; [congruence|].
    intros Hts Hks. pose proof S1 as (_ & _ & Hb & _).
    apply K2.
    + intros key d Hin. rewrite Hb. apply Hts. by apply elem_of_cons; right.
    + destruct R1 as [Hr|(c & Hc & Hr)].
      * intros key d x. rewrite Hr, Hb. apply Hks.
      * apply (stored_keeps_agreement filename data (ttl c) st); [done..| |done].
        apply Hts. by apply elem_of_cons; left.
Qed.

Lemma step_setup st ev : same_setup st (step st ev).
Proof.
  destruct ev as [r|r|]; cbn [step].
  - apply (getFileHandler_outcome r st).
  - apply (healthHandler_frame r st).
  - unfold drain.
    destruct (run_all_outcome (goroutines st) (set_goroutines [] st)) as (S1 & _).
    apply (same_setup_trans _ (set_goroutines [] st)); [by repeat split|done].
Qed.

Lemma step_agreement st ev :
  cache_agrees_with_origin st -> cache_agrees_with_origin (step st ev).
Proof.
  intros [Hks Hts]. destruct ev as [r|r|]; cbn [step].
  - destruct (getFileHandler_outcome r st) as ((_ & _ & Hb & _) & Hout).
    destruct Hout as [(Hr & Hgo & _)|(data & Hobj & _ & _ & Hcache)].
    + split.
      * intros key d x. rewrite Hr, Hb. apply Hks.
      * intros key d. rewrite Hgo, Hb. apply Hts.
    + destruct Hcache as [(Hr & Hgo)|(c & Hc & Hr & Hgo)].
      * split; [intros key d x; rewrite Hr, Hb; apply Hks|].
        intros key d. rewrite Hb. destruct Hgo as [->| ->]; [apply Hts|].
        rewrite elem_of_app, list_elem_of_singleton.
        intros [Hin|[= -> ->]]; [by apply Hts|done].
      * split;
          [by apply (stored_keeps_agreement (PathValue r "name") data (ttl c) st)|].
        intros key d. rewrite Hgo, Hb. apply Hts.
  - destruct (healthHandler_frame r st) as ((_ & _ & Hb & _) & Hr & Hgo).
    split.
    + intros key d x. rewrite Hr, Hb. apply Hks.
    + intros key d. rewrite Hgo, Hb. apply Hts.
  - unfold drain.
    destruct (run_all_outcome (goroutines st) (set_goroutines [] st)) as (S1 & G1 & K1).
    split; [by apply K1|].
    intros key d. rewrite G1. cbn. by intros ?%elem_of_nil.
Qed.

Lemma run_setup evs st : same_setup st (run evs st).
Proof.
  revert st. induction evs as [|ev evs IH]; intros st; [apply same_setup_refl|].
  cbn [run fold_left]. apply (same_setup_trans _ (step st ev)); [apply step_setup|].
  apply IH.
Qed.

Lemma run_agreement evs st :
  cache_agrees_with_origin st -> cache_agrees_with_origin (run evs st).
Proof.
  revert st. induction evs as [|ev evs IH]; intros st Hst; [done|].
  cbn [run fold_left]. apply IH. by apply step_agreement.
Qed.

(** X5. No run of file requests, health probes and goroutines ever writes
    to the origin bucket or reassigns the cache and storage handles: the
    service only reads from the origin, and a cache that was disabled at
    start-up stays disabled. *)
Theorem run_never_changes_the_setup (evs : list event) (st : State) :
  s3 (run evs st) = s3 st /\
  fileCache (run evs st) = fileCache st /\
  fileStorage (run evs st) = fileStorage st.
Proof.
  destruct (run_setup evs st) as (H1 & H2 & H3 & _). by repeat split.
Qed.

(** X6. If every cached value, and every value a pending goroutine is
    about to write, equals the bucket's object of its key, then after any
    run of file requests, health probes and goroutines every cached value
    and every pending value still equals the object the bucket held at the
    start. *)
Theorem run_keeps_cache_in_agreement (evs : list event) (st : State) :
  cache_agrees_with_origin st ->
  (forall key data expiration,
     keyspace (redis (run evs st)) !! key = Some (data, expiration) ->
     objects (s3 st) !! key = Some data) /\
  (forall key data,
     populateCache key data ∈ goroutines (run evs st) ->
     objects (s3 st) !! key = Some data).
Proof.
  intros Hst. destruct (run_agreement evs st Hst) as [Hks Hts].
  destruct (run_setup evs st) as (_ & _ & Hb & _).
  split.
  - intros key data x Hk. rewrite <- Hb. by apply (Hks key data x).
  - intros key data Hin. rewrite <- Hb. by apply Hts.
Qed.

Lemma run_keeps_cache_in_agreement_witness :
  let st := boot (Some (mkRedisCache hour)) (redis_up ∅)
              (bucket_up {[ "a.txt" := "alpha" ]}) in
  let evs := [FileRequest (GET_files "a.txt"); FileRequest (GET_files "b.txt");
              GoroutinesRun; FileRequest (GET_files "a.txt")] in
  keyspace (redis (run evs st)) !! "a.txt" = Some ("alpha", hour) /\
  objects (s3 st) !! "a.txt" = Some "alpha".
Proof.
  cbn zeta. split; [vm_compute; reflexivity|].
  refine (proj1 (run_keeps_cache_in_agreement
                   [FileRequest (GET_files "a.txt"); FileRequest (GET_files "b.txt");
                    GoroutinesRun; FileRequest (GET_files "a.txt")]
                   (boot (Some (mkRedisCache hour)) (redis_up ∅)
                      (bucket_up {[ "a.txt" := "alpha" ]})) _)
                "a.txt" "alpha" hour _).
  - split.
    + intros key data x Hk. cbn in Hk. by rewrite lookup_empty in Hk.
    + intros key data Hin. cbn in Hin. by apply elem_of_nil in Hin.
  - vm_compute. reflexivity.
Defined.

(** X7. Starting from such a state, every [200] answered after any run
    carries exactly the bytes the bucket holds under the requested name,
    whether they come from the cache or from the origin. *)
Theorem served_bytes_are_the_origin_object (evs : list event) (r : Request)
    (st : State) :
  cache_agrees_with_origin st ->
  let st' := serve getFileHandler r (run evs st) in
  statusCode (w st') = Some StatusOK ->
  exists data,
    objects (s3 st) !! PathValue r "name" = Some data /\
    body (w st') = [RawBytes data].
Proof.
  intros Hst. cbn zeta. intros Hok.
  destruct (run_agreement evs st Hst) as [Hks _].
  destruct (run_setup evs st) as (_ & _ & Hb & _).
  destruct (getFileHandler_outcome r (run evs st)) as (_ & Hout).
  destruct Hout as [(_ & _ & Hhit)|(data & Hobj & _ & Hbody & _)].
  - destruct (Hhit Hok) as (data & x & Hbody & Hk).
    exists data. split; [|done]. rewrite <- Hb. by apply (Hks _ _ x).
  - exists data. by rewrite <- Hb.
Qed.

Lemma served_bytes_are_the_origin_object_witness :
  let st := boot (Some (mkRedisCache hour)) (redis_up ∅)
              (bucket_up {[ "a.txt" := "alpha" ]}) in
  let evs := [FileRequest (GET_files "a.txt"); GoroutinesRun] in
  exists data,
    objects (s3 st) !! "a.txt" = Some data /\
    body (w (serve getFileHandler (GET_files "a.txt") (run evs st))) = [RawBytes data].
Proof.
  cbn zeta.
  apply (served_bytes_are_the_origin_object
           [FileRequest (GET_files "a.txt"); GoroutinesRun] (GET_files "a.txt")
           (boot (Some (mkRedisCache hour)) (redis_up ∅)
              (bucket_up {[ "a.txt" := "alpha" ]}))).
  - split.
    + intros key data x Hk. cbn in Hk. by rewrite lookup_empty in Hk.
    + intros key data Hin. cbn in Hin. by apply elem_of_nil in Hin.
  - vm_compute. reflexivity.
Defined.

(** ** Errors of the storage and cache clients *)

Lemma string_app_assoc (a b c : string) : (a ++ b) ++ c = a ++ b ++ c.
Proof.
  induction a as [|x a IH]; [done|].
  change (String x ((a ++ b) ++ c) = String x (a ++ b ++ c)). by rewrite IH.
Qed.

Lemma strings_Contains_within (a s b substr : string) :
  strings_Contains s substr = true ->
  strings_Contains (a ++ s ++ b) substr = true.
Proof.
  rewrite !strings_Contains_spec. intros (x & y & ->).
  exists (a ++ x), (y ++ b). by rewrite !string_app_assoc.
Qed.

Lemma R2Client_GetObject_call_failed cl key st e :
  s3_GetObjectError (s3 st) = Some e ->
  (R2Client_GetObject cl key st).1 =
    ("", Some (fmt_Errorf_w ("failed to get object " ++ key ++ ": ") e)).
Proof.
  intros Hg. unfold R2Client_GetObject, s3_client_GetObject. unfold_M. cbn.
  by rewrite Hg.
Qed.

Lemma R2Client_GetObject_missing cl key st :
  s3_GetObjectError (s3 st) = None ->
  objects (s3 st) !! key = None ->
  (R2Client_GetObject cl key st).1 =
    ("", Some (fmt_Errorf_w ("failed to get object " ++ key ++ ": ") s3_NoSuchKey)).
Proof.
  intros Hg Ho. unfold R2Client_GetObject, s3_client_GetObject. unfold_M. cbn.
  rewrite Hg. cbn. by rewrite Ho.
Qed.

(** [errors.Is] sees through one [%w] wrapping. *)
Lemma errors_Is_wrapped prefix e : errors_Is (Some (fmt_Errorf_w prefix e)) e = true.
Proof.
  cbn. destruct (decide _); [done|].
  destruct e; cbn; by destruct (decide _).
Qed.

(** X8. [GetObject] returns either data or an error, never both.  Data
    is the bucket's object of the key.  An error wraps the client's error,
    so [errors.Is] still finds the cause, and its text is the cause's text
    behind ["failed to get object <key>: "] or ["failed to read object
    body: "]. *)
Theorem GetObject_returns_data_or_wrapped_cause (cl : R2Client) (key : string)
    (st : State) :
  match (R2Client_GetObject cl key st).1 with
  | (data, None) => objects (s3 st) !! key = Some data
  | (data, Some err) =>
      data = "" /\
      exists cause,
        errors_Is (Some err) cause = true /\
        (Error err = "failed to get object " ++ key ++ ": " ++ Error cause \/
         Error err = "failed to read object body: " ++ Error cause)
  end.
Proof.
  destruct (R2Client_GetObject cl key st).1 as [data [err|]] eqn:HG;
    [|by apply (R2Client_GetObject_fetched_object cl key st)].
  revert HG. unfold R2Client_GetObject, s3_client_GetObject, io_ReadAll. unfold_M. cbn.
  destruct (s3_GetObjectError (s3 st)) as [e|]; cbn.
  { intros [= <- <-]. split; [done|]. exists e. split; [apply errors_Is_wrapped|].
    left. cbn. by rewrite !string_app_assoc. }
  destruct (objects (s3 st) !! key); cbn.
  - destruct (s3_BodyReadError (s3 st)) as [e|]; cbn; [|done].
    intros [= <- <-]. split; [done|]. exists e. split; [apply errors_Is_wrapped|].
    by right.
  - intros [= <- <-]. split; [done|]. exists s3_NoSuchKey.
    split; [apply errors_Is_wrapped|]. left. cbn. by rewrite !string_app_assoc.
Qed.

(** X9. The key is part of the text of a failed [GetObject], and
    [isNotFoundError] reads that text: when the S3 call fails for a name
    that itself contains ["not found"] or ["NoSuchKey"], the answer is [404]
    whatever went wrong, unless the request deadline has passed. *)
Theorem filename_text_decides_not_found (r : Request) (st : State) (e : error) :
  PathValue r "name" <> "" ->
  no_cache_hit st (PathValue r "name") ->
  s3_GetObjectError (s3 st) = Some e ->
  errors_Is (ctx_Err r) context_DeadlineExceeded = false ->
  strings_Contains (PathValue r "name") "NoSuchKey"
    || strings_Contains (PathValue r "name") "not found" = true ->
  let st' := serve getFileHandler r st in
  statusCode (w st') = Some StatusNotFound /\
  body (w st') = [JSONLine (mkResponse false "File not found" None)].
Proof.
  intros Hne Hno Hg Hctx Hname. cbn zeta.
  rewrite (served_uncached_w r st Hne Hno).
  rewrite (R2Client_GetObject_call_failed _ _ _ _ Hg), Hctx.
  assert (isNotFoundError
            (Some (fmt_Errorf_w ("failed to get object " ++ PathValue r "name" ++ ": ") e))
          = true) as ->; [|done].
  unfold isNotFoundError, fmt_Errorf_w. cbn [Error]. cbn zeta.
  rewrite !string_app_assoc.
  apply orb_true_iff in Hname as [H|H]; apply orb_true_iff; [left|right];
    by apply (strings_Contains_within "failed to get object ").
Qed.

(** The bucket holds the file; the connection to it is reset. *)
Lemma filename_text_decides_not_found_witness :
  let st := boot None (redis_up ∅)
              (mkS3Bucket {[ "not found.txt" := "data" ]}
                 (Some (errorString "connection reset by peer")) None None None) in
  statusCode (w (serve getFileHandler (GET_files "not found.txt") st)) = Some 404.
Proof.
  cbn zeta.
  refine (proj1 (filename_text_decides_not_found (GET_files "not found.txt")
                   (boot None (redis_up ∅)
                      (mkS3Bucket {[ "not found.txt" := "data" ]}
                         (Some (errorString "connection reset by peer")) None None None))
                   (errorString "connection reset by peer") _ _ _ _ _)).
  - vm_compute. discriminate.
  - intros c Hc. discriminate Hc.
  - reflexivity.
  - reflexivity.
  - vm_compute. reflexivity.
Defined.

(** X10. A named file that is in neither backend: with the S3 answer for
    a missing key, the response is [404] with ["File not found"], unless the
    request deadline has passed. *)
Theorem unknown_file_is_not_found (r : Request) (st : State) :
  PathValue r "name" <> "" ->
  no_cache_hit st (PathValue r "name") ->
  s3_GetObjectError (s3 st) = None ->
  objects (s3 st) !! PathValue r "name" = None ->
  errors_Is (ctx_Err r) context_DeadlineExceeded = false ->
  let st' := serve getFileHandler r st in
  statusCode (w st') = Some StatusNotFound /\
  body (w st') = [JSONLine (mkResponse false "File not found" None)] /\
  redis st' = redis st /\ goroutines st' = goroutines st.
Proof.
  intros Hne Hno Hg Ho Hctx. cbn zeta.
  pose proof (served_uncached_w r st Hne Hno) as Hw.
  rewrite (R2Client_GetObject_missing _ _ _ Hg Ho), Hctx in Hw.
  assert (isNotFoundError
            (Some (fmt_Errorf_w ("failed to get object " ++ PathValue r "name" ++ ": ")
                     s3_NoSuchKey)) = true) as Hnf.
  { unfold isNotFoundError, fmt_Errorf_w. cbn [Error]. cbn zeta.
    apply orb_true_iff. left. rewrite !string_app_assoc.
    replace (Error s3_NoSuchKey)
      with ("api error " ++ "NoSuchKey" ++ ": The specified key does not exist.")
      by reflexivity.
    rewrite <- !string_app_assoc.
    rewrite (string_app_assoc _ "NoSuchKey").
    apply strings_Contains_spec. by eexists _, _. }
  rewrite Hnf in Hw. rewrite Hw. split; [done|]. split; [done|].
  destruct (served_failed r st _ _ Hne Hno (R2Client_GetObject_missing _ _ _ Hg Ho))
    as (st1 & rw & -> & _ & Hr & Hgo & _).
  by cbn.
Qed.

Lemma unknown_file_is_not_found_witness :
  let st := boot (Some (mkRedisCache hour)) (redis_up ∅) (bucket_up ∅) in
  statusCode (w (serve getFileHandler (GET_files "nonexistent.txt") st)) = Some 404.
Proof.
  cbn zeta.
  refine (proj1 (unknown_file_is_not_found (GET_files "nonexistent.txt")
                   (boot (Some (mkRedisCache hour)) (redis_up ∅) (bucket_up ∅))
                   _ _ _ _ _)).
  - vm_compute. discriminate.
  - intros c Hc. vm_compute. reflexivity.
  - reflexivity.
  - vm_compute. reflexivity.
  - reflexivity.
Defined.

(** X11. What [RedisCache.Get] can return: a hit comes with the stored
    bytes and no error; a miss, explicit ([redis.Nil]) or not, comes without
    data; an error is returned only for a client error other than
    [redis.Nil], wraps it, and reads ["redis get error: <cause>"].  Whatever
    it returns, the call sends one [GET] and changes nothing else: the
    keyspace and the rest of the server are as before. *)
Theorem cache_Get_results (c : RedisCache) (key : string) (st : State) :
  match (RedisCache_Get c key st).1 with
  | (data, true, err) =>
      err = None /\ redis_GetError (redis st) = None /\
      exists expiration, keyspace (redis st) !! key = Some (data, expiration)
  | (data, false, None) =>
      data = "" /\
      (redis_GetError (redis st) = Some redis_Nil \/
       (redis_GetError (redis st) = None /\ keyspace (redis st) !! key = None))
  | (data, false, Some err) =>
      data = "" /\
      exists cause,
        redis_GetError (redis st) = Some cause /\ cause <> redis_Nil /\
        errors_Is (Some err) cause = true /\
        Error err = "redis get error: " ++ Error cause
  end /\
  exec (RedisCache_Get c key) st = called (CacheGet key) st /\
  redis (exec (RedisCache_Get c key) st) = redis st /\
  keyspace (redis (exec (RedisCache_Get c key) st)) = keyspace (redis st).
Proof.
  split.
  - destruct (redis_GetError (redis st)) as [e|] eqn:Hg.
    + rewrite (RedisCache_Get_failed _ _ _ _ Hg). cbn [fst].
      destruct (decide (e = redis_Nil)) as [->|Hne].
      * split; [done|]. by left.
      * split; [done|]. exists e. split; [done|]. split; [done|].
        split; [apply errors_Is_wrapped|done].
    + destruct (keyspace (redis st) !! key) as [[d x]|] eqn:Hk.
      * rewrite (RedisCache_Get_found _ _ _ _ _ Hg Hk). cbn [fst].
        split; [done|]. split; [done|]. by exists x.
      * rewrite (RedisCache_Get_absent _ _ _ Hg Hk). cbn [fst].
        split; [done|]. by right.
  - unfold exec. change (snd ?x) with (x.2).
    by rewrite (RedisCache_Get_state c key st).
Qed.

(** X12. Writing through [RedisCache.Set] and reading back through
    [RedisCache.Get]: an accepted write is read back as a hit with the same
    bytes, replacing what the key held; a refused write returns the wrapped
    cause and leaves the server as it was; either way the other keys read as
    before. *)
Theorem cache_Set_then_Get (c : RedisCache) (key : string) (data : bytes)
    (st : State) :
  redis_GetError (redis st) = None ->
  let err := (RedisCache_Set c key data st).1 in
  let st1 := exec (RedisCache_Set c key data) st in
  match err with
  | None => (RedisCache_Get c key st1).1 = (data, true, None)
  | Some e =>
      redis st1 = redis st /\
      exists cause,
        redis_SetError (redis st) = Some cause /\
        errors_Is (Some e) cause = true /\
        Error e = "redis set error: " ++ Error cause
  end /\
  (forall key', key' <> key ->
     (RedisCache_Get c key' st1).1 = (RedisCache_Get c key' st).1).
Proof.
  intros Hg. cbn zeta. unfold exec.
  destruct (redis_SetError (redis st)) as [e|] eqn:Hs.
  - rewrite (RedisCache_Set_failed _ _ _ _ _ Hs). cbn [fst snd]. split.
    + split; [done|]. exists e. split; [done|]. split; [apply errors_Is_wrapped|done].
    + intros key' _. by apply RedisCache_Get_answer.
  - rewrite (RedisCache_Set_ok _ _ _ _ Hs). cbn [fst snd]. split.
    + rewrite (RedisCache_Get_found c key _ data (ttl c)); [done|done|].
      cbn. apply lookup_insert_eq.
    + intros key' Hne.
      destruct (keyspace (redis st) !! key') as [[d x]|] eqn:Hk.
      * rewrite (RedisCache_Get_found c key' st d x Hg Hk).
        rewrite (RedisCache_Get_found c key' _ d x); [done|done|].
        cbn. by rewrite lookup_insert_ne.
      * rewrite (RedisCache_Get_absent c key' st Hg Hk).
        rewrite (RedisCache_Get_absent c key' _); [done|done|].
        cbn. by rewrite lookup_insert_ne.
Qed.

Lemma cache_Set_then_Get_witness :
  let c := mkRedisCache hour in
  let st := boot (Some c) (redis_up {[ "a.txt" := ("old", hour) ]}) (bucket_up ∅) in
  (RedisCache_Get c "a.txt" (exec (RedisCache_Set c "a.txt" "new") st)).1
    = ("new", true, None).
Proof.
  cbn zeta.
  exact (proj1 (cache_Set_then_Get (mkRedisCache hour) "a.txt" "new"
                  (boot (Some (mkRedisCache hour))
                     (redis_up {[ "a.txt" := ("old", hour) ]}) (bucket_up ∅))
                  eq_refl)).
Defined.

(** ** Start-up *)

Lemma run_task_without_cache t st :
  fileCache st = None -> exec (run_task t) st = st.
Proof.
  intros Hc. destruct t as [filename data]. unfold exec.
  by rewrite run_task_run, Hc.
Qed.

Lemma run_all_without_cache ts st :
  fileCache st = None -> run_all ts st = st.
Proof.
  intros Hc. induction ts as [|t ts IH]; cbn [run_all]; [done|].
  by rewrite (run_task_without_cache t st Hc).
Qed.

Lemma step_without_cache st ev :
  fileCache st = None ->
  redis (step st ev) = redis st /\
  exists new, calls (step st ev) = (calls st ++ new)%list /\
              Forall (fun c => is_storage_call c = true) new.
Proof.
  intros Hc. destruct ev as [r|r|]; cbn [step].
  - destruct (decide (PathValue r "name" = "")) as [He|Hne].
    + unfold serve. rewrite (getFileHandler_empty _ _ He). cbn.
      split; [done|]. exists []. by rewrite app_nil_r.
    + destruct (served_without_cache r st Hne Hc) as (H1 & H2 & _).
      split; [done|]. eexists. split; [exact H1|]. by repeat constructor.
  - unfold serve, exec, healthHandler, R2Client_HealthCheck.
    unfold writeJSON, json_Encode. unfold_M. cbn. rewrite Hc. cbn.
    destruct (s3_HealthCheckError (s3 st)); cbn;
      (split; [done|]; eexists; split; [reflexivity|]; by repeat constructor).
  - unfold drain. rewrite run_all_without_cache by done. cbn.
    split; [done|]. exists []. by rewrite app_nil_r.
Qed.

Lemma run_without_cache evs st :
  fileCache st = None ->
  redis (run evs st) = redis st /\
  exists new, calls (run evs st) = (calls st ++ new)%list /\
              Forall (fun c => is_storage_call c = true) new.
Proof.
  revert st. induction evs as [|ev evs IH]; intros st Hc.
  - split; [done|]. exists []. by rewrite app_nil_r.
  - cbn [run fold_left].
    destruct (step_without_cache st ev Hc) as (R1 & new1 & C1 & F1).
    assert (fileCache (step st ev) = None) as Hc'
      by (destruct (step_setup st ev) as (-> & _); done).
    destruct (IH (step st ev) Hc') as (R2 & new2 & C2 & F2).
    unfold run in *. split; [congruence|].
    exists (new1 ++ new2)%list. split.
    + by rewrite C2, C1, <- app_assoc.
    + by apply Forall_app.
Qed.

(** X13. Setting up the backends in [main] cannot fail.  A failed Redis
    ping is logged, as a warning that carries the wrapped cause, and leaves
    the cache disabled; a successful one is logged with the address and gives
    a cache handle with the configured TTL; [NewR2Client] returns no error
    whatever the credentials, so the process always goes on to serve, bound
    to the configured bucket, after the line that names the bucket.  The ping
    is the only backend call. *)
Theorem main_init_always_serves (cfg : config.Config) (st : State) :
  let st' := exec (main_init cfg) st in
  let redis_line :=
    match redis_PingError (redis st) with
    | Some e =>
        "WARNING: Redis unavailable, running without cache: "
          ++ "failed to connect to Redis: " ++ Error e
    | None => "Connected to Redis at " ++ config.Addr (config.Redis cfg)
    end in
  let r2_line := "Connected to R2 bucket: " ++ config.BucketName (config.R2 cfg) in
  (main_init cfg st).1 = true /\
  fileStorage st' = mkR2Client (config.BucketName (config.R2 cfg)) /\
  fileCache st' = match redis_PingError (redis st) with
                  | Some _ => None
                  | None => Some (mkRedisCache (config.CacheTTL (config.Redis cfg)))
                  end /\
  logs st' = (logs st ++ [redis_line; r2_line])%list /\
  calls st' = (calls st ++ [CachePing])%list /\
  redis st' = redis st /\ s3 st' = s3 st.
Proof.
  cbn zeta. unfold exec, main_init, NewRedisCache, NewR2Client. unfold_M. cbn.
  destruct (redis_PingError (redis st)); cbn; rewrite <- ?app_assoc; by repeat split.
Qed.

(** X14. A cache that could not be reached at start-up is never used
    afterwards: whatever the Redis server becomes later, no run of requests,
    probes and goroutines issues a call to it or changes it. *)
Theorem cache_disabled_at_startup_stays_unused (cfg : config.Config) (st : State)
    (e : error) (later : RedisServer) (evs : list event) :
  redis_PingError (redis st) = Some e ->
  let st0 := set_redis later (exec (main_init cfg) st) in
  fileCache st0 = None /\
  redis (run evs st0) = later /\
  exists new, calls (run evs st0) = (calls st0 ++ new)%list /\
              Forall (fun c => is_storage_call c = true) new.
Proof.
  intros Hp. cbn zeta.
  assert (fileCache (set_redis later (exec (main_init cfg) st)) = None) as Hc.
  { unfold exec, main_init, NewRedisCache, NewR2Client. unfold_M. cbn.
    by rewrite Hp. }
  split; [exact Hc|].
  destruct (run_without_cache evs _ Hc) as (Hr & new & Hcalls & Hall).
  split; [by rewrite Hr|]. by exists new.
Qed.

Lemma cache_disabled_at_startup_stays_unused_witness :
  let cfg := config.Load (fun _ => None) ∅ in
  let down := mkRedisServer ∅ None None (Some (errorString "connection refused")) in
  let st := boot None down (bucket_up {[ "a.txt" := "alpha" ]}) in
  let st0 := set_redis (redis_up ∅) (exec (main_init cfg) st) in
  redis (run [FileRequest (GET_files "a.txt"); GoroutinesRun;
              FileRequest (GET_files "a.txt")] st0) = redis_up ∅.
Proof.
  cbn zeta.
  refine (proj1 (proj2 (cache_disabled_at_startup_stays_unused
                          (config.Load (fun _ => None) ∅)
                          (boot None
                             (mkRedisServer ∅ None None
                                (Some (errorString "connection refused")))
                             (bucket_up {[ "a.txt" := "alpha" ]}))
                          (errorString "connection refused") (redis_up ∅)
                          [FileRequest (GET_files "a.txt"); GoroutinesRun;
                           FileRequest (GET_files "a.txt")] _))).
  reflexivity.
Defined.

(** ** Configuration *)

Lemma getEnv_nonempty env key defaultValue :
  defaultValue <> "" -> config.getEnv env key defaultValue <> "".
Proof.
  intros Hd. unfold config.getEnv. cbn zeta. by destruct (decide _).
Qed.

(** X15. A variable set to the empty string counts as not set, so
    [getEnv] never returns the empty string when its default is not empty;
    in particular [Load] never yields an empty port or Redis address,
    whatever the environment. *)
Theorem Load_never_yields_empty_port_or_address
    (parse : string -> option Z) (env : gmap string string) :
  (forall key defaultValue,
     config.getEnv (<[key := ""]> env) key defaultValue = defaultValue) /\
  config.Port (config.Load parse env) <> "" /\
  config.Addr (config.Redis (config.Load parse env)) <> "" /\
  (env !! "PORT" = Some "" -> config.Port (config.Load parse env) = "8080").
Proof.
  split; [|split; [|split]].
  - intros key d. unfold config.getEnv, config.os_Getenv. cbn zeta.
    rewrite lookup_insert_eq. cbn. by destruct (decide _).
  - by apply getEnv_nonempty.
  - by apply getEnv_nonempty.
  - intros H. cbn. unfold config.getEnv, config.os_Getenv. cbn zeta. rewrite H. cbn.
    by destruct (decide _).
Qed.

Lemma parse_digits_of_uint_acc (d : Decimal.uint) (acc : positive) :
  config.parse_digits (DecimalString.NilEmpty.string_of_uint d) (Z.pos acc)
    = Some (Z.pos (Pos.of_uint_acc d acc)).
Proof.
  revert acc. induction d as [|d IH|d IH|d IH|d IH|d IH|d IH|d IH|d IH|d IH|d IH];
    intros acc; cbn [DecimalString.NilEmpty.string_of_uint config.parse_digits
                       Pos.of_uint_acc]; [done|..];
    (change (config.digit_of _) with (Some 0) ||
     change (config.digit_of _) with (Some 1) ||
     change (config.digit_of _) with (Some 2) ||
     change (config.digit_of _) with (Some 3) ||
     change (config.digit_of _) with (Some 4) ||
     change (config.digit_of _) with (Some 5) ||
     change (config.digit_of _) with (Some 6) ||
     change (config.digit_of _) with (Some 7) ||
     change (config.digit_of _) with (Some 8) ||
     change (config.digit_of _) with (Some 9));
    cbv iota beta;
    match goal with
    | |- config.parse_digits _ ?z = Some (Z.pos (Pos.of_uint_acc _ ?p)) =>
        replace z with (Z.pos p) by lia
    end; apply IH.
Qed.

Lemma parse_digits_of_uint (d : Decimal.uint) :
  config.parse_digits (DecimalString.NilEmpty.string_of_uint d) 0
    = Some (Z.of_N (Pos.of_uint d)).
Proof.
  induction d as [|d IH|d IH|d IH|d IH|d IH|d IH|d IH|d IH|d IH|d IH];
    cbn [DecimalString.NilEmpty.string_of_uint config.parse_digits Pos.of_uint];
    [done|exact IH|..];
    (change (config.digit_of _) with (Some 1) ||
     change (config.digit_of _) with (Some 2) ||
     change (config.digit_of _) with (Some 3) ||
     change (config.digit_of _) with (Some 4) ||
     change (config.digit_of _) with (Some 5) ||
     change (config.digit_of _) with (Some 6) ||
     change (config.digit_of _) with (Some 7) ||
     change (config.digit_of _) with (Some 8) ||
     change (config.digit_of _) with (Some 9));
    cbv iota beta; cbn [Z.of_N];
    match goal with
    | |- config.parse_digits _ ?z = Some (Z.pos (Pos.of_uint_acc _ ?p)) =>
        change z with (Z.pos p)
    end; apply parse_digits_of_uint_acc.
Qed.

Lemma string_of_uint_head (d : Decimal.uint) :
  d <> Decimal.Nil ->
  exists c rest,
    DecimalString.NilEmpty.string_of_uint d = String c rest /\
    c <> "-"%char /\ c <> "+"%char.
Proof.
  intros Hd. destruct d; [done|..]; cbn; by eexists _, _.
Qed.

Lemma Atoi_of_positive (p : positive) :
  Z.pos p < 2 ^ 63 ->
  config.strconv_Atoi (DecimalString.NilEmpty.string_of_uint (Pos.to_uint p))
    = Some (Z.pos p).
Proof.
  intros Hp.
  pose proof (parse_digits_of_uint (Pos.to_uint p)) as Hparse.
  rewrite DecimalPos.Unsigned.of_to in Hparse. cbn [Z.of_N] in Hparse.
  destruct (string_of_uint_head _ (DecimalPos.Unsigned.to_uint_nonnil p))
    as (c & rest & Hs & Hm & Hpl).
  rewrite Hs in Hparse |- *. unfold config.strconv_Atoi. cbn zeta.
  rewrite (bool_decide_eq_false_2 (c = "-"%char)) by done.
  rewrite (bool_decide_eq_false_2 (c = "-"%char \/ c = "+"%char)) by (by intros [?|?]).
  rewrite Hparse. destruct (Z.ltb_spec (Z.pos p) (2 ^ 63)); [done|lia].
Qed.

Lemma Atoi_Itoa (n : Z) :
  - 2 ^ 63 <= n < 2 ^ 63 -> config.strconv_Atoi (strconv_Itoa n) = Some n.
Proof.
  intros Hn. unfold strconv_Itoa. destruct n as [|p|p]; cbn [Z.to_int].
  - reflexivity.
  - cbn [DecimalString.NilZero.string_of_int].
    unfold DecimalString.NilZero.string_of_uint.
    pose proof (DecimalPos.Unsigned.to_uint_nonnil p) as Hnil.
    destruct (Pos.to_uint p) eqn:Hd; [done|..]; rewrite <- Hd;
      apply Atoi_of_positive; lia.
  - cbn [DecimalString.NilZero.string_of_int].
    unfold DecimalString.NilZero.string_of_uint.
    pose proof (DecimalPos.Unsigned.to_uint_nonnil p) as Hnil.
    pose proof (parse_digits_of_uint (Pos.to_uint p)) as Hparse.
    rewrite DecimalPos.Unsigned.of_to in Hparse. cbn [Z.of_N] in Hparse.
    destruct (string_of_uint_head _ Hnil) as (c & rest & Hs & _).
    assert (match Pos.to_uint p with
            | Decimal.Nil => "0"
            | _ => DecimalString.NilEmpty.string_of_uint (Pos.to_uint p)
            end = DecimalString.NilEmpty.string_of_uint (Pos.to_uint p)) as ->
      by (by destruct (Pos.to_uint p)).
    unfold config.strconv_Atoi. cbn zeta.
    rewrite (bool_decide_eq_true_2 (_ = "-"%char)) by done.
    rewrite (bool_decide_eq_true_2 (_ \/ _)) by (by left).
    rewrite Hparse. rewrite Hs.
    destruct (Z.leb_spec (Z.pos p) (2 ^ 63)); [done|lia].
Qed.

Lemma parse_digits_rejects (a b : string) (c : ascii) (acc : Z) :
  config.digit_of c = None ->
  config.parse_digits (a ++ String c b) acc = None.
Proof.
  intros Hc. revert acc. induction a as [|x a IH]; intros acc.
  - change ("" ++ String c b) with (String c b). cbn. by rewrite Hc.
  - change (String x a ++ String c b) with (String x (a ++ String c b)).
    cbn [config.parse_digits]. destruct (config.digit_of x); [apply IH|done].
Qed.

(** X16. [getEnvAsInt] reads back every [int] written in decimal: when
    the variable holds the text [strconv.Itoa] gives for a number in the
    range of a 64-bit [int], that number is returned, whatever the
    default. *)
Theorem getEnvAsInt_reads_decimal (env : gmap string string) (key : string)
    (defaultValue n : Z) :
  - 2 ^ 63 <= n < 2 ^ 63 ->
  env !! key = Some (strconv_Itoa n) ->
  config.getEnvAsInt env key defaultValue = n.
Proof.
  intros Hn He. unfold config.getEnvAsInt, config.os_Getenv. cbn zeta.
  rewrite He. change (default "" (Some (strconv_Itoa n))) with (strconv_Itoa n).
  rewrite (Atoi_Itoa n Hn).
  destruct (decide _) as [_|Hempty]; [done|].
  exfalso. apply Hempty. intros Hs.
  pose proof (Atoi_Itoa n Hn) as HA. by rewrite Hs in HA.
Qed.

Lemma getEnvAsInt_reads_decimal_witness :
  config.getEnvAsInt {[ "REDIS_DB" := "-7" ]} "REDIS_DB" 0 = -7.
Proof.
  apply (getEnvAsInt_reads_decimal {[ "REDIS_DB" := "-7" ]} "REDIS_DB" 0 (-7)).
  - lia.
  - reflexivity.
Defined.

(** X17. A value that holds a byte other than a digit or a sign is
    dropped without notice: [getEnvAsInt] returns the default. *)
Theorem getEnvAsInt_ignores_malformed (env : gmap string string) (key : string)
    (defaultValue : Z) (a b : string) (c : ascii) :
  env !! key = Some (a ++ String c b) ->
  config.digit_of c = None -> c <> "-"%char -> c <> "+"%char ->
  config.getEnvAsInt env key defaultValue = defaultValue.
Proof.
  intros He Hc Hm Hp. unfold config.getEnvAsInt, config.os_Getenv. cbn zeta.
  rewrite He. change (default "" (Some (a ++ String c b))) with (a ++ String c b).
  destruct (decide _) as [_|_]; [|done].
  assert (config.strconv_Atoi (a ++ String c b) = None) as ->; [|done].
  unfold config.strconv_Atoi. destruct a as [|x a].
  - change ("" ++ String c b) with (String c b). cbv beta iota zeta.
    rewrite (bool_decide_eq_false_2 (_ \/ _)) by (by intros [?|?]).
    pose proof (parse_digits_rejects "" b c 0 Hc) as Hrej.
    change ("" ++ String c b) with (String c b) in Hrej. by rewrite Hrej.
  - change (String x a ++ String c b) with (String x (a ++ String c b)).
    cbv beta iota zeta.
    destruct (bool_decide (x = "-"%char \/ x = "+"%char)).
    + rewrite (parse_digits_rejects a b c 0 Hc). by destruct (a ++ String c b).
    + pose proof (parse_digits_rejects (String x a) b c 0 Hc) as Hrej.
      change (String x a ++ String c b) with (String x (a ++ String c b)) in Hrej.
      by rewrite Hrej.
Qed.

Lemma getEnvAsInt_ignores_malformed_witness :
  config.getEnvAsInt {[ "REDIS_DB" := "1O" ]} "REDIS_DB" 3 = 3.
Proof.
  apply (getEnvAsInt_ignores_malformed {[ "REDIS_DB" := "1O" ]} "REDIS_DB" 3
           "1" "" "O"%char).
  - reflexivity.
  - reflexivity.
  - discriminate.
  - discriminate.
Defined.

(** * The later revision *)

#[local] Arguments RedisCache_Get : simpl never.
#[local] Arguments RedisCache_Set : simpl never.
#[local] Arguments R2Client_GetObject : simpl never.
#[local] Arguments Rev2.fetchFromOrigin : simpl never.

Ltac rev2_ops :=
  unfold mbind, mret, Rev2.MM_bind, Rev2.MM_ret, Rev2.CacheOperationDuration_Observe,
    Rev2.CacheMissesTotal_Inc, Rev2.CacheHitsTotal_Inc, Rev2.R2RequestsTotal_Inc,
    Rev2.R2RequestDuration_Observe, Rev2.HTTPRequestsTotal_Inc,
    Rev2.HTTPRequestDuration_Observe, Rev2.on_metrics, Rev2.slog.

Ltac rev2_norm :=
  cbn [Rev2.base Rev2.metrics Rev2.records Rev2.wrapped_statusCode
       Rev2.set_base Rev2.set_metrics Rev2.set_records Rev2.set_wrapped_statusCode
       fst snd].

Lemma Rev2_serve_files_empty r p :
  PathValue (Rev2.request r) "name" = "" ->
  Rev2.serve_files r p =
    Rev2.answered r StatusBadRequest
      (set_w (jsonResponse StatusBadRequest
                (mkResponse false "filename is required" None) newRecorder)
         (Rev2.base p))
      (Rev2.metrics p) (Rev2.records p).
Proof.
  intros He. unfold Rev2.serve_files, Rev2.exec, Rev2.metricsMiddleware,
    Rev2.getFileHandler. rewrite He.
  destruct (decide _) as [_|]; [|done]. reflexivity.
Qed.

Lemma Rev2_serve_files_cached r p c data x :
  PathValue (Rev2.request r) "name" <> "" ->
  fileCache (Rev2.base p) = Some c ->
  redis_GetError (redis (Rev2.base p)) = None ->
  keyspace (redis (Rev2.base p)) !! PathValue (Rev2.request r) "name" = Some (data, x) ->
  Rev2.serve_files r p =
    Rev2.answered r StatusOK
      (set_w (fileResponse (mime (Rev2.base p)) (PathValue (Rev2.request r) "name")
                data newRecorder)
         (called (CacheGet (PathValue (Rev2.request r) "name")) (Rev2.base p)))
      (Rev2.hit (Rev2.cache_observed "get" (Rev2.metrics p)))
      (Rev2.records p ++
         [Rev2.mkRecord Rev2.LevelInfo "Cache HIT"
            [Rev2.filename_attr (PathValue (Rev2.request r) "name")]]).
Proof.
  intros Hne Hc Hg Hk.
  unfold Rev2.serve_files, Rev2.exec, Rev2.metricsMiddleware, Rev2.getFileHandler.
  destruct (decide _) as [|_]; [done|].
  unfold mbind, Rev2.MM_bind, Rev2.lift, gets. cbn. rewrite Hc. rev2_norm.
  rewrite (RedisCache_Get_found c _ (set_w newRecorder (Rev2.base p)) data x Hg Hk).
  reflexivity.
Qed.

(** The lookup phase of a request that does not find its key. *)
Lemma Rev2_lookup_not_found wr r p :
  PathValue (Rev2.request r) "name" <> "" ->
  no_cache_hit (Rev2.base p) (PathValue (Rev2.request r) "name") ->
  exists recs,
    Rev2.getFileHandler wr r p =
      Rev2.fetchFromOrigin wr (Rev2.request r) (PathValue (Rev2.request r) "name")
        (Rev2.mkProcess
           (after_lookup (PathValue (Rev2.request r) "name") (Rev2.base p))
           (after_lookup_metrics (Rev2.base p) (Rev2.metrics p))
           (Rev2.records p ++ recs) (Rev2.wrapped_statusCode p)).
Proof.
  intros Hne Hno. unfold Rev2.getFileHandler, after_lookup, after_lookup_metrics.
  destruct (decide _) as [|_]; [done|].
  unfold mbind at 1, Rev2.MM_bind at 1, Rev2.lift at 1, gets at 1. cbn [fst snd].
  destruct (fileCache (Rev2.base p)) as [c|] eqn:Hc.
  - destruct (RedisCache_Get_not_found c _ (Rev2.base p) (Hno c Hc)) as [err Hrun].
    unfold mbind at 1, Rev2.MM_bind at 1, Rev2.lift at 1. rev2_norm. rewrite Hrun.
    destruct err as [e|].
    + exists [Rev2.mkRecord Rev2.LevelError "Cache error"
                [("filename", Rev2.AttrString (PathValue (Rev2.request r) "name"));
                 ("error", Rev2.AttrString (Error e))];
              Rev2.mkRecord Rev2.LevelInfo "Cache MISS"
                [("filename", Rev2.AttrString (PathValue (Rev2.request r) "name"))]].
      rev2_ops. rev2_norm. by rewrite <- app_assoc.
    + by exists [Rev2.mkRecord Rev2.LevelInfo "Cache MISS"
                   [("filename", Rev2.AttrString (PathValue (Rev2.request r) "name"))]].
  - rev2_norm.
    by exists [Rev2.mkRecord Rev2.LevelInfo "Cache disabled, fetching from R2"
                 [("filename", Rev2.AttrString (PathValue (Rev2.request r) "name"))]].
Qed.

Lemma Rev2_fetch_failed r filename p d e :
  (R2Client_GetObject (fileStorage (Rev2.base p)) filename (Rev2.base p)).1
    = (d, Some e) ->
  Rev2.exec (Rev2.fetchFromOrigin wrappedWriter r filename) p =
    Rev2.mkProcess
      (set_w (jsonResponse (Rev2_error_status r e)
                (mkResponse false (Rev2_error_message r e) None) (w (Rev2.base p)))
         (called (StorageGet filename) (Rev2.base p)))
      (Rev2.r2_request "get" "error" (Rev2.r2_observed "get" (Rev2.metrics p)))
      (Rev2.records p ++
         [Rev2.mkRecord Rev2.LevelError "R2 error"
            [("filename", Rev2.AttrString filename);
             ("error", Rev2.AttrString (Error e))]])
      (Rev2_error_status r e).
Proof.
  intros HG. apply R2Client_GetObject_run in HG.
  unfold Rev2.exec, Rev2.fetchFromOrigin, Rev2_error_status, Rev2_error_message.
  unfold mbind at 1 2, Rev2.MM_bind at 1 2, Rev2.lift at 1 2, gets. rev2_norm.
  rewrite HG. rev2_ops. rev2_norm.
  destruct (bool_decide _); [done|]. by destruct (Rev2.isNotFoundError e).
Qed.

Lemma Rev2_fetch_fetched r filename p data :
  (R2Client_GetObject (fileStorage (Rev2.base p)) filename (Rev2.base p)).1
    = (data, None) ->
  Rev2.exec (Rev2.fetchFromOrigin wrappedWriter r filename) p
    = Rev2_fetched filename data p.
Proof.
  intros HG. apply R2Client_GetObject_run in HG.
  unfold Rev2.exec, Rev2.fetchFromOrigin, Rev2_fetched.
  unfold mbind at 1 2, Rev2.MM_bind at 1 2, Rev2.lift at 1 2, gets. rev2_norm.
  rewrite HG. rev2_ops. rev2_norm. unfold Rev2.lift at 1. rev2_norm.
  cbn [fileCache called set_calls].
  destruct (fileCache (Rev2.base p)) as [c|] eqn:Hc; [|done].
  unfold Rev2.go_. unfold mbind at 1, Rev2.MM_bind at 1, Rev2.lift at 1, gets.
  rev2_norm. cbn [eager called set_calls].
  destruct (eager (Rev2.base p)); [|done].
  unfold Rev2.run_task. rev2_ops. unfold Rev2.lift, gets. rev2_norm.
  cbn [fileCache called set_calls]. rewrite Hc. rev2_norm.
  destruct (redis_SetError (redis (Rev2.base p))) as [se|] eqn:Hs.
  - rewrite (RedisCache_Set_failed c filename data
               (called (StorageGet filename) (Rev2.base p)) se Hs).
    reflexivity.
  - rewrite (RedisCache_Set_ok c filename data
               (called (StorageGet filename) (Rev2.base p)) Hs).
    reflexivity.
Qed.

Lemma Rev2_serve_files_run r p :
  Rev2.serve_files r p =
    let p1 := Rev2.exec (Rev2.getFileHandler wrappedWriter r)
                (Rev2.set_wrapped_statusCode StatusOK
                   (Rev2.set_base (set_w newRecorder (Rev2.base p)) p)) in
    Rev2.answered r (Rev2.wrapped_statusCode p1) (Rev2.base p1) (Rev2.metrics p1)
      (Rev2.records p1).
Proof.
  unfold Rev2.serve_files, Rev2.exec, Rev2.metricsMiddleware, wrappedWriter.
  unfold mbind at 1 2, Rev2.MM_bind at 1 2. rev2_norm.
  by destruct (Rev2.getFileHandler _ _ _) as [[] p1].
Qed.

Lemma cache_finds_false st key : cache_finds st key = false <-> no_cache_hit st key.
Proof.
  unfold cache_finds, no_cache_hit. split.
  - intros H c Hc. by rewrite Hc in H.
  - intros H. destruct (fileCache st) as [c|]; [by apply H|done].
Qed.

Lemma cache_finds_true st key :
  cache_finds st key = true ->
  exists c data x, fileCache st = Some c /\ redis_GetError (redis st) = None /\
                   keyspace (redis st) !! key = Some (data, x).
Proof.
  intros H. destruct (cache_hit_or_not st key) as [Hhit|Hno]; [done|].
  apply cache_finds_false in Hno. congruence.
Qed.

(** The process in which the origin fetch of a request starts. *)
Lemma Rev2_serve_files_uncached r p :
  PathValue (Rev2.request r) "name" <> "" ->
  no_cache_hit (Rev2.base p) (PathValue (Rev2.request r) "name") ->
  exists recs,
    Rev2.serve_files r p =
      let q := Rev2.mkProcess
                 (after_lookup (PathValue (Rev2.request r) "name")
                    (set_w newRecorder (Rev2.base p)))
                 (after_lookup_metrics (Rev2.base p) (Rev2.metrics p))
                 (Rev2.records p ++ recs) StatusOK in
      let p1 := Rev2.exec (Rev2.fetchFromOrigin wrappedWriter (Rev2.request r)
                             (PathValue (Rev2.request r) "name")) q in
      Rev2.answered r (Rev2.wrapped_statusCode p1) (Rev2.base p1) (Rev2.metrics p1)
        (Rev2.records p1).
Proof.
  intros Hne Hno. rewrite Rev2_serve_files_run. cbn zeta.
  assert (no_cache_hit
            (Rev2.base (Rev2.set_wrapped_statusCode StatusOK
                          (Rev2.set_base (set_w newRecorder (Rev2.base p)) p)))
            (PathValue (Rev2.request r) "name")) as Hno'
    by (by apply (no_cache_hit_view (Rev2.base p))).
  destruct (Rev2_lookup_not_found wrappedWriter r _ Hne Hno') as [recs Hrun].
  exists recs. unfold Rev2.exec at 1 2 3 4. by rewrite Hrun.
Qed.

Lemma after_lookup_view key st :
  let st' := after_lookup key (set_w newRecorder st) in
  w st' = newRecorder /\ s3 st' = s3 st /\ mime st' = mime st /\
  fileCache st' = fileCache st /\ fileStorage st' = fileStorage st /\
  eager st' = eager st /\ redis st' = redis st /\ goroutines st' = goroutines st /\
  calls st' = (calls st ++ match fileCache st with
                           | Some _ => [CacheGet key]
                           | None => []
                           end)%list.
Proof.
  cbn zeta. unfold after_lookup. cbn [fileCache set_w].
  destruct (fileCache st) eqn:Hc; cbn; rewrite ?app_nil_r; by repeat split.
Qed.

Lemma errors_Is_unwrapped (err : option error) (target : error) :
  (forall msg inner, err <> Some (wrapError msg inner)) ->
  errors_Is err target = bool_decide (err = Some target).
Proof.
  intros Hw. destruct err as [e|]; [|done]. cbn.
  destruct e as [m| |m|m inner]; try (by specialize (Hw m inner));
    cbn; destruct (decide _) as [->|Hne];
    first [ by rewrite bool_decide_eq_true_2
          | rewrite bool_decide_eq_false_2; [done|congruence] ].
Qed.

Lemma after_lookup_metrics_http st m :
  Rev2.HTTPRequestsTotal (after_lookup_metrics st m) = Rev2.HTTPRequestsTotal m /\
  Rev2.HTTPRequestDuration (after_lookup_metrics st m) = Rev2.HTTPRequestDuration m.
Proof. unfold after_lookup_metrics. by destruct (fileCache st). Qed.

(** What the handler leaves for the middleware after an origin fetch: the
    status it sent, kept by the [responseWriter], and the HTTP metrics
    untouched. *)
Lemma Rev2_fetch_outcome r filename q :
  w (Rev2.base q) = newRecorder ->
  let p1 := Rev2.exec (Rev2.fetchFromOrigin wrappedWriter r filename) q in
  statusCode (w (Rev2.base p1)) = Some (Rev2.wrapped_statusCode p1) /\
  Rev2.HTTPRequestsTotal (Rev2.metrics p1) = Rev2.HTTPRequestsTotal (Rev2.metrics q) /\
  Rev2.HTTPRequestDuration (Rev2.metrics p1)
    = Rev2.HTTPRequestDuration (Rev2.metrics q).
Proof.
  intros Hw. cbn zeta.
  destruct (R2Client_GetObject (fileStorage (Rev2.base q)) filename (Rev2.base q)).1
    as [d [e|]] eqn:HG.
  - rewrite (Rev2_fetch_failed r filename q d e HG). rev2_norm. cbn [w set_w].
    rewrite Hw. split; [|done].
    by destruct (jsonResponse_fresh (Rev2_error_status r e)
                   (mkResponse false (Rev2_error_message r e) None)) as (-> & _).
  - rewrite (Rev2_fetch_fetched r filename q d HG). unfold Rev2_fetched. cbn zeta.
    rewrite Hw.
    destruct (fileResponse_fresh (mime (Rev2.base q)) filename d) as (F1 & _).
    destruct (fileCache (Rev2.base q)); [destruct (eager (Rev2.base q));
      [destruct (redis_SetError (redis (Rev2.base q)))|]|]; by rev2_norm.
Qed.

(** X18. On the [/files/] route the middleware counts every request once,
    under the method, the path and the decimal text of the status that was
    sent to the client, observes one duration, and ends with the
    ["Request completed"] record carrying that status. *)
Theorem middleware_records_the_status_sent (r : Rev2.HttpRequest) (p : Rev2.Process) :
  let p' := Rev2.serve_files r p in
  exists code,
    statusCode (w (Rev2.base p')) = Some code /\
    Rev2.HTTPRequestsTotal (Rev2.metrics p')
      = Rev2.bump (Rev2.Method r, Rev2.URL_Path r, strconv_Itoa code)
          (Rev2.HTTPRequestsTotal (Rev2.metrics p)) /\
    Rev2.HTTPRequestDuration (Rev2.metrics p')
      = Rev2.bump (Rev2.Method r, Rev2.URL_Path r)
          (Rev2.HTTPRequestDuration (Rev2.metrics p)) /\
    last (Rev2.records p') = Some (Rev2.completed_record r code).
Proof.
  cbn zeta.
  destruct (decide (PathValue (Rev2.request r) "name" = "")) as [He|Hne].
  { rewrite (Rev2_serve_files_empty r p He). exists StatusBadRequest.
    unfold Rev2.answered. rev2_norm. cbn [w set_w].
    split; [apply jsonResponse_fresh|]. split; [done|]. split; [done|].
    apply last_snoc. }
  destruct (cache_hit_or_not (Rev2.base p) (PathValue (Rev2.request r) "name"))
    as [(c & data & x & Hc & Hg & Hk)|Hno].
  { rewrite (Rev2_serve_files_cached r p c data x Hne Hc Hg Hk). exists StatusOK.
    unfold Rev2.answered. rev2_norm. cbn [w set_w].
    split; [apply fileResponse_fresh|]. split; [done|]. split; [done|].
    apply last_snoc. }
  destruct (Rev2_serve_files_uncached r p Hne Hno) as [recs ->]. cbn zeta.
  match goal with
  | |- context [Rev2.exec (Rev2.fetchFromOrigin wrappedWriter ?rq ?f) ?q] =>
      destruct (Rev2_fetch_outcome rq f q) as (H1 & H2 & H3);
        [apply after_lookup_view|];
      set (p1 := Rev2.exec (Rev2.fetchFromOrigin wrappedWriter rq f) q) in *
  end.
  exists (Rev2.wrapped_statusCode p1). unfold Rev2.answered. rev2_norm.
  cbn [Rev2.metrics] in H2, H3.
  destruct (after_lookup_metrics_http (Rev2.base p) (Rev2.metrics p)) as [A1 A2].
  split; [exact H1|]. cbn [Rev2.HTTPRequestsTotal Rev2.HTTPRequestDuration
                           Rev2.http_observed Rev2.http_request].
  split; [by rewrite H2, A1|]. split; [by rewrite H3, A2|]. apply last_snoc.
Qed.

Lemma after_lookup_GetObject key filename st :
  (R2Client_GetObject (fileStorage (after_lookup key (set_w newRecorder st))) filename
     (after_lookup key (set_w newRecorder st))).1
  = (R2Client_GetObject (fileStorage st) filename st).1.
Proof.
  destruct (after_lookup_view key st) as (_ & Hb & _ & _ & Hf & _).
  rewrite Hf. by apply R2Client_GetObject_answer.
Qed.

(** X19. The cache and origin counters of the later revision follow the
    path of the request: nothing is counted for an empty name or, on the
    cache side, without a cache; a lookup that finds the key counts one hit;
    any other lookup, a failed one included, counts one miss; the origin
    fetch that follows counts one R2 request, under ["success"] or
    ["error"]. *)
Theorem cache_and_origin_counters (r : Rev2.HttpRequest) (p : Rev2.Process) :
  let name := PathValue (Rev2.request r) "name" in
  let st := Rev2.base p in
  let m := Rev2.metrics p in
  let m' := Rev2.metrics (Rev2.serve_files r p) in
  (Rev2.CacheHitsTotal m', Rev2.CacheMissesTotal m') =
    (if decide (name = "") then (Rev2.CacheHitsTotal m, Rev2.CacheMissesTotal m)
     else match fileCache st with
          | None => (Rev2.CacheHitsTotal m, Rev2.CacheMissesTotal m)
          | Some _ =>
              if cache_finds st name
              then (S (Rev2.CacheHitsTotal m), Rev2.CacheMissesTotal m)
              else (Rev2.CacheHitsTotal m, S (Rev2.CacheMissesTotal m))
          end) /\
  Rev2.R2RequestsTotal m' =
    (if decide (name = "") then Rev2.R2RequestsTotal m
     else if cache_finds st name then Rev2.R2RequestsTotal m
     else match (R2Client_GetObject (fileStorage st) name st).1 with
          | (_, None) => Rev2.bump ("get", "success") (Rev2.R2RequestsTotal m)
          | (_, Some _) => Rev2.bump ("get", "error") (Rev2.R2RequestsTotal m)
          end).
Proof.
  cbn zeta.
  destruct (decide (PathValue (Rev2.request r) "name" = "")) as [He|Hne].
  { by rewrite (Rev2_serve_files_empty r p He). }
  destruct (cache_finds (Rev2.base p) (PathValue (Rev2.request r) "name")) eqn:Hfind.
  { destruct (cache_finds_true _ _ Hfind) as (c & data & x & Hc & Hg & Hk).
    rewrite (Rev2_serve_files_cached r p c data x Hne Hc Hg Hk), Hc. by cbn. }
  apply cache_finds_false in Hfind.
  destruct (Rev2_serve_files_uncached r p Hne Hfind) as [recs ->]. cbn zeta.
  pose proof (after_lookup_GetObject (PathValue (Rev2.request r) "name")
                (PathValue (Rev2.request r) "name") (Rev2.base p)) as Hans.
  destruct (after_lookup_view (PathValue (Rev2.request r) "name") (Rev2.base p))
    as (_ & _ & _ & Hc' & _ & He' & Hr' & _).
  set (q := Rev2.mkProcess
              (after_lookup (PathValue (Rev2.request r) "name")
                 (set_w newRecorder (Rev2.base p)))
              (after_lookup_metrics (Rev2.base p) (Rev2.metrics p))
              (Rev2.records p ++ recs) StatusOK).
  change (after_lookup (PathValue (Rev2.request r) "name")
            (set_w newRecorder (Rev2.base p))) with (Rev2.base q) in Hans, Hc', He', Hr'.
  assert (Rev2.metrics q = after_lookup_metrics (Rev2.base p) (Rev2.metrics p)) as Hm
    by reflexivity.
  clearbody q.
  unfold Rev2.answered. rev2_norm.
  cbn [Rev2.CacheHitsTotal Rev2.CacheMissesTotal Rev2.R2RequestsTotal
       Rev2.http_observed Rev2.http_request].
  destruct (R2Client_GetObject (fileStorage (Rev2.base p))
              (PathValue (Rev2.request r) "name") (Rev2.base p)).1
    as [d [e|]] eqn:HG.
  - rewrite (Rev2_fetch_failed (Rev2.request r) _ q d e Hans). rev2_norm.
    rewrite Hm. unfold after_lookup_metrics.
    by destruct (fileCache (Rev2.base p)).
  - rewrite (Rev2_fetch_fetched (Rev2.request r) _ q d Hans).
    unfold Rev2_fetched. cbn zeta. rewrite Hc', He', Hr', Hm.
    unfold after_lookup_metrics.
    destruct (fileCache (Rev2.base p)); [destruct (eager (Rev2.base p));
      [destruct (redis_SetError (redis (Rev2.base p)))|]|]; by rev2_norm.
Qed.

(** ** The two revisions of the handler *)

Lemma fetch_revisions_agree r filename l st0 q :
  (forall msg inner, ctx_Err r <> Some (wrapError msg inner)) ->
  Rev2.base q = set_logs l st0 ->
  Rev2.base (Rev2.exec (Rev2.fetchFromOrigin wrappedWriter r filename) q)
    = set_logs l (exec (fetchFromOrigin r filename) st0).
Proof.
  intros Hctx Hq.
  assert ((R2Client_GetObject (fileStorage (Rev2.base q)) filename (Rev2.base q)).1
          = (R2Client_GetObject (fileStorage st0) filename st0).1) as Hans.
  { rewrite Hq. cbn [fileStorage set_logs]. by apply R2Client_GetObject_answer. }
  destruct (R2Client_GetObject (fileStorage st0) filename st0).1 as [d [e|]] eqn:HG.
  - rewrite (Rev2_fetch_failed r filename q d e Hans),
      (fetchFromOrigin_failed r filename st0 d e HG).
    cbn zeta. rev2_norm. rewrite Hq.
    unfold Rev2_error_status, Rev2_error_message.
    rewrite (errors_Is_unwrapped _ _ Hctx).
    change (isNotFoundError (Some e)) with (Rev2.isNotFoundError e).
    destruct st0.
    destruct (bool_decide _); [done|]. by destruct (Rev2.isNotFoundError e).
  - rewrite (Rev2_fetch_fetched r filename q d Hans),
      (fetchFromOrigin_fetched r filename st0 d HG).
    unfold Rev2_fetched. cbn zeta. rewrite Hq. clear Hq Hans HG.
    destruct st0 as [fc fs rd b db ea rw lg cs gs]. cbn [fileCache eager redis set_logs].
    destruct fc as [c|]; [|done].
    unfold exec. rewrite !go_run. cbn [snd eager called set_calls].
    destruct ea; [|done].
    unfold exec. rewrite !run_task_run. cbn [snd fileCache redis called set_calls].
    by destruct (redis_SetError rd).
Qed.

(** In the model, where a cache write has one outcome whatever its
    deadline, the two handlers leave the same state apart from the log. *)
Lemma serve_revisions_agree (r : Rev2.HttpRequest) (p : Rev2.Process) :
  (forall msg inner, ctx_Err (Rev2.request r) <> Some (wrapError msg inner)) ->
  Rev2.base (Rev2.serve_files r p)
    = set_logs (logs (Rev2.base p))
        (serve getFileHandler (Rev2.request r) (Rev2.base p)).
Proof.
  intros Hctx. unfold serve.
  destruct (decide (PathValue (Rev2.request r) "name" = "")) as [He|Hne].
  { rewrite (Rev2_serve_files_empty r p He), (getFileHandler_empty _ _ He).
    unfold Rev2.answered. rev2_norm. by destruct (Rev2.base p). }
  destruct (cache_hit_or_not (Rev2.base p) (PathValue (Rev2.request r) "name"))
    as [(c & data & x & Hc & Hg & Hk)|Hno].
  { rewrite (Rev2_serve_files_cached r p c data x Hne Hc Hg Hk).
    rewrite (getFileHandler_cached (Rev2.request r) (set_w newRecorder (Rev2.base p))
               c data x Hne Hc Hg Hk).
    unfold Rev2.answered. rev2_norm. cbn zeta. by destruct (Rev2.base p). }
  destruct (Rev2_serve_files_uncached r p Hne Hno) as [recs ->]. cbn zeta.
  unfold Rev2.answered. rev2_norm.
  assert (no_cache_hit (set_w newRecorder (Rev2.base p))
            (PathValue (Rev2.request r) "name")) as Hno'
    by (by apply (no_cache_hit_view (Rev2.base p))).
  destruct (getFileHandler_uncached (Rev2.request r) _ Hne Hno')
    as (st0 & lines & -> & (V1 & V2 & V3 & V4 & V5 & V6) & V7 & V8 & V9 & V10).
  apply fetch_revisions_agree; [done|]. rev2_norm.
  unfold after_lookup.
  destruct st0, (Rev2.base p) as [fc ? ? ? ? ? ? ? ? ?].
  cbn in V1, V2, V3, V4, V5, V6, V7, V8, V9, V10 |- *. subst.
  destruct fc; cbn; by rewrite ?app_nil_r.
Qed.

(** X20. The later revision answers a file request as the first one does:
    when the error of the request context is not a wrapped one, its handler
    under the middleware writes the response that [getFileHandler] of
    [cmd/server/main.go] writes, makes the same backend calls in the same
    order, starts the same population, leaves the bucket alone, and writes
    no line to the standard logger.  Nothing is said of what the cache holds
    afterwards: the population write runs under a deadline of ten seconds in
    one revision and of thirty in the other. *)
Theorem later_revision_answers_as_the_first (r : Rev2.HttpRequest) (p : Rev2.Process) :
  (forall msg inner, ctx_Err (Rev2.request r) <> Some (wrapError msg inner)) ->
  let later := Rev2.base (Rev2.serve_files r p) in
  let first := serve getFileHandler (Rev2.request r) (Rev2.base p) in
  w later = w first /\
  calls later = calls first /\
  goroutines later = goroutines first /\
  s3 later = s3 first /\ s3 later = s3 (Rev2.base p) /\
  logs later = logs (Rev2.base p).
Proof.
  intros Hctx. cbn zeta. rewrite (serve_revisions_agree r p Hctx).
  destruct (getFileHandler_outcome (Rev2.request r) (Rev2.base p))
    as ((_ & _ & Hbucket & _) & _).
  revert Hbucket.
  destruct (serve getFileHandler (Rev2.request r) (Rev2.base p)).
  cbn. intros ->. by repeat split.
Qed.

Lemma later_revision_answers_as_the_first_witness :
  let r := Rev2.mkHttpRequest
             (mkRequest {[ "name" := "a.txt" ]} (Some context_DeadlineExceeded))
             "GET" "/files/a.txt" in
  let p := Rev2_boot (boot (Some (mkRedisCache hour)) (redis_up ∅) (bucket_up ∅)) in
  let later := Rev2.base (Rev2.serve_files r p) in
  let first := serve getFileHandler (Rev2.request r) (Rev2.base p) in
  w later = w first /\
  calls later = calls first /\
  goroutines later = goroutines first /\
  s3 later = s3 first /\ s3 later = s3 (Rev2.base p) /\
  logs later = logs (Rev2.base p).
Proof.
  cbn zeta.
  apply (later_revision_answers_as_the_first
           (Rev2.mkHttpRequest
              (mkRequest {[ "name" := "a.txt" ]} (Some context_DeadlineExceeded))
              "GET" "/files/a.txt")
           (Rev2_boot (boot (Some (mkRedisCache hour)) (redis_up ∅) (bucket_up ∅)))).
  done.
Defined.

(** ** The probes of [healthHandler] *)

(** X21. One health request makes its probes in a fixed order and always
    makes both: the Redis ping when a cache is configured, and then the
    origin probe, also when the ping has failed.  It reads and writes no
    key, starts no goroutine and leaves one JSON line in the body. *)
Theorem health_probes_in_order (r : Request) (st : State) :
  let st' := serve healthHandler r st in
  calls st' = (calls st ++ match fileCache st with
                           | Some _ => [CachePing; StorageHealthCheck]
                           | None => [StorageHealthCheck]
                           end)%list /\
  redis st' = redis st /\ s3 st' = s3 st /\ goroutines st' = goroutines st /\
  length (body (w st')) = 1%nat /\
  header (w st') !! "Content-Type" = Some "application/json".
Proof.
  cbn zeta. unfold serve, exec, healthHandler, RedisCache_Ping, R2Client_HealthCheck.
  unfold writeJSON, json_Encode. unfold_M. cbn.
  destruct (fileCache st) as [c|]; cbn;
    [destruct (redis_PingError (redis st)) as [pe|]; cbn|];
    destruct (s3_HealthCheckError (s3 st)) as [oe|]; cbn;
    rewrite <- ?app_assoc; by repeat split.
Qed.
